(** * Home Sentry: presence-detection and escalation core

    A shallow embedding of the Go sources of home-sentry:
    - [src/unnamed/part_011]         : [RetryConfig], [Retry], [RetryWithResult]
    - [src/pkg/network/network.go]   : [GetCurrentSSID], [IsDeviceOnNetwork],
                                       [checkARPForMAC]
    - [src/pkg/config/config.go]     : [Settings], [DefaultSettings],
                                       [HasDeviceConfigured], [ValidateMAC],
                                       [ValidatePIN], [ValidateShutdownAction],
                                       [ValidateSettings], [VerifyPIN], the
                                       validation of [loadLocked], [SetShutdownPIN]
    - [src/pkg/config/validation.go] : the regexes, [SanitizeSSID], [SanitizeMAC],
                                       [SanitizeIP], [SanitizePIN]
    - [src/pkg/config/constants.go]  : the bounds and defaults
    - [src/pkg/sentry/sentry.go]     : [SentryManager], [CancelShutdown],
                                       [StartMonitor], [triggerShutdownWithCountdown],
                                       [escapePowerShellString], [executeShutdown]
    - [src/pkg/ntfy/ntfy.go]         : [checkForCommand], [listenForCommands]
    - [src/main.go]                  : the always-on remote command callback of
                                       [startNtfyCommandListener]. *)

From Stdlib Require Import ZArith List String Bool Lia.
From Stdlib Require Import Strings.Byte.
From Stdlib Require Import Floats.SpecFloat.
Import ListNotations.
Open Scope Z_scope.

(* ================================================================== *)
(** ** Retry executor ([src/unnamed/part_011]) *)

Module Retry.

(** IEEE 754 binary64, the format of Go's [float64]: 53-bit precision,
    largest exponent 1024; its operations round to nearest, ties to even. *)
Definition f64 := spec_float.

(** [float64(d)] for an integer [d]. *)
Definition f64_of_int (d : Z) : f64 := binary_normalize 53 1024 d 0 false.

(** [time.Duration(f)] for a [float64] [f]: the conversion truncates
    toward zero.  Go leaves the result implementation-dependent when the
    value does not fit in an [int64]; on amd64 the conversion instruction
    (CVTTSD2SQ) then gives the smallest [int64], -2^63, as it does for an
    infinity or a NaN. *)
Definition duration_of_f64 (f : f64) : Z :=
  match f with
  | S754_zero _ => 0
  | S754_finite s m e =>
      let a := if 0 <=? e then Zpos m * 2 ^ e else Zpos m / 2 ^ (- e) in
      let v := if s then - a else a in
      if (- 2 ^ 63 <=? v) && (v <? 2 ^ 63) then v else - 2 ^ 63
  | S754_infinity _ | S754_nan => - 2 ^ 63
  end.

(** [RetryConfig].  [time.Duration] is an integer count of nanoseconds
    ([Z]). *)
Record RetryConfig := {
  MaxAttempts : Z;
  Delay : Z;
  Multiplier : f64
}.

(** The [float64] constant [1.5] (3 * 2^-1). *)
Definition f64_1_5 : f64 := binary_normalize 53 1024 3 (-1) false.

(** [DefaultRetryConfig]: 3 attempts, 500ms, multiplier 1.5. *)
Definition DefaultRetryConfig : RetryConfig :=
  {| MaxAttempts := 3; Delay := 500 * 1000000; Multiplier := f64_1_5 |}.

(** [delay = time.Duration(float64(delay) * config.Multiplier)] *)
Definition next_delay (cfg : RetryConfig) (delay : Z) : Z :=
  duration_of_f64 (SFmul 53 1024 (f64_of_int delay) (Multiplier cfg)).

(** Observable effects of the loop: each invocation of the operation
    (with its attempt number) and each [time.Sleep]. *)
Inductive retry_event :=
| RCall (attempt : Z)
| RSleep (d : Z).

Section Loop.
Context {T E : Type}.
(** The Go zero value of [T] ([var result T]). *)
Variable zero : T.
Variable cfg : RetryConfig.
(** The operation, possibly stateful: its answer at the n-th invocation;
    [None] is a nil error. *)
Variable operation : Z -> T * option E.

(** The body of
    [for attempt := 1; attempt <= config.MaxAttempts; attempt++ { ... }].
    [fuel] only bounds the recursion; it is set so that the loop
    condition decides termination. *)
Fixpoint retry_loop (fuel : nat) (attempt delay : Z) (result : T)
    (err : option E) : T * option E * list retry_event :=
  match fuel with
  | O => (result, err, [])
  | S fuel' =>
      if attempt <=? MaxAttempts cfg then
        let '(r, e) := operation attempt in
        match e with
        | None => (r, None, [RCall attempt])
        | Some _ =>
            if attempt <? MaxAttempts cfg then
              let '(res, er, tr) :=
                retry_loop fuel' (attempt + 1) (next_delay cfg delay) r e in
              (res, er, RCall attempt :: RSleep delay :: tr)
            else
              let '(res, er, tr) :=
                retry_loop fuel' (attempt + 1) delay r e in
              (res, er, RCall attempt :: tr)
        end
      else (result, err, [])
  end.

(** [RetryWithResult(config, operation)] *)
Definition RetryWithResult : T * option E * list retry_event :=
  retry_loop (S (Z.to_nat (MaxAttempts cfg))) 1 (Delay cfg) zero None.
End Loop.

(** [Retry(config, operation)]: the same loop on an operation that only
    returns an error. *)
Definition Retry {E : Type} (cfg : RetryConfig) (operation : Z -> option E)
    : option E * list retry_event :=
  let '(_, e, tr) :=
    RetryWithResult tt cfg (fun a => (tt, operation a)) in (e, tr).

Definition calls (tr : list retry_event) : list Z :=
  flat_map (fun ev => match ev with RCall a => [a] | RSleep _ => [] end) tr.

Definition sleeps (tr : list retry_event) : list Z :=
  flat_map (fun ev => match ev with RSleep d => [d] | RCall _ => [] end) tr.

(** [zrange a k = [a; a+1; ...; a+k-1]] *)
Fixpoint zrange (a : Z) (k : nat) : list Z :=
  match k with
  | O => []
  | S k' => a :: zrange (a + 1) k'
  end.

(** The Retry Executor contract in the words of the spec (section 4.1):
    [k] attempts; between two attempts, not after the last, sleep for
    [delay], then multiply [delay] by the multiplier. *)
Fixpoint spec_trace (cfg : RetryConfig) (k : nat) (attempt delay : Z)
    : list retry_event :=
  match k with
  | O => []
  | S O => [RCall attempt]
  | S k' => RCall attempt :: RSleep delay
              :: spec_trace cfg k' (attempt + 1) (next_delay cfg delay)
  end.

End Retry.

(* ================================================================== *)
(** ** Network name query ([src/pkg/network/network.go]) *)

Module Network.
Import Retry.

(** [GetCurrentSSID]: on Windows, [getWindowsSSID] (here [query], the
    answer of the n-th invocation of netsh) wrapped in [RetryWithResult
    (DefaultRetryConfig(), ...)], where "Disconnected" and "Unknown" count as
    failures; after exhausted retries the sentinel "Unknown".  Other OSes
    return "Simulated WiFi". *)
Definition GetCurrentSSID (goos : string) (query : Z -> string) : string :=
  if String.eqb goos "windows" then
    let '(ssid, err, _) :=
      RetryWithResult ""%string DefaultRetryConfig
        (fun a =>
           let ssid := query a in
           if String.eqb ssid "Disconnected" || String.eqb ssid "Unknown"
           then (ssid, Some "wifi not connected"%string)
           else (ssid, None)) in
    match err with
    | Some _ => "Unknown"%string
    | None => ssid
    end
  else "Simulated WiFi"%string.

End Network.

(* ================================================================== *)
(** ** Settings ([src/pkg/config/config.go]) *)

Module Config.

Record Settings := {
  HomeSSID : string;
  PhoneIP : string;
  PhoneMAC : string;
  DetectionType : string;
  IsPaused : bool;
  GraceChecks : Z;
  PollInterval : Z;
  PingTimeoutMs : Z;
  ShutdownDelay : Z;
  ShutdownPIN : string;
  RequirePIN : bool;
  ShutdownAction : string
}.

(** [func (s Settings) HasDeviceConfigured() bool] *)
Definition HasDeviceConfigured (s : Settings) : bool :=
  if String.eqb (DetectionType s) "mac" then negb (String.eqb (PhoneMAC s) "")
  else negb (String.eqb (PhoneIP s) "") && negb (String.eqb (PhoneIP s) "0.0.0.0").

End Config.

(* ================================================================== *)
(** ** Sentry manager ([src/pkg/sentry/sentry.go]) *)

Module Sentry.
Import Config.

Inductive SentryStatus :=
| StatusRoaming
| StatusMonitoring
| StatusGracePeriod
| StatusShutdownImminent
| StatusPaused
| StatusWaitingForPhone.

Definition status_eqb (a b : SentryStatus) : bool :=
  match a, b with
  | StatusRoaming, StatusRoaming | StatusMonitoring, StatusMonitoring
  | StatusGracePeriod, StatusGracePeriod
  | StatusShutdownImminent, StatusShutdownImminent
  | StatusPaused, StatusPaused
  | StatusWaitingForPhone, StatusWaitingForPhone => true
  | _, _ => false
  end.

(** [ntfy.Command] *)
Inductive Command :=
| CmdCancelAndPause
| CmdCancelOnly
| CmdPause
| CmdResume
| CmdStatus.

(** [SentryManager].  A Go channel is represented by an identity; the
    manager holds the identity of its current [cancelShutdown] channel and
    the channels closed so far ([make(chan struct{})] yields the fresh
    identity [S cancelShutdown]). *)
Record SentryManager := {
  status : SentryStatus;
  graceCount : Z;
  phoneEverSeen : bool;
  shutdownPending : bool;
  cancelShutdown : nat;
  closedChans : list nat
}.

(** [NewSentryManager], with the [phoneEverSeen] value [loadState] read. *)
Definition NewSentryManager (loadedEverSeen : bool) : SentryManager :=
  {| status := StatusRoaming; graceCount := 0; phoneEverSeen := loadedEverSeen;
     shutdownPending := false; cancelShutdown := 0; closedChans := [] |}.

Definition set_status (m : SentryManager) (st : SentryStatus) : SentryManager :=
  {| status := st; graceCount := graceCount m; phoneEverSeen := phoneEverSeen m;
     shutdownPending := shutdownPending m; cancelShutdown := cancelShutdown m;
     closedChans := closedChans m |}.

Definition set_grace (m : SentryManager) (g : Z) : SentryManager :=
  {| status := status m; graceCount := g; phoneEverSeen := phoneEverSeen m;
     shutdownPending := shutdownPending m; cancelShutdown := cancelShutdown m;
     closedChans := closedChans m |}.

Definition set_ever_seen (m : SentryManager) (b : bool) : SentryManager :=
  {| status := status m; graceCount := graceCount m; phoneEverSeen := b;
     shutdownPending := shutdownPending m; cancelShutdown := cancelShutdown m;
     closedChans := closedChans m |}.

Definition set_pending (m : SentryManager) (b : bool) : SentryManager :=
  {| status := status m; graceCount := graceCount m; phoneEverSeen := phoneEverSeen m;
     shutdownPending := b; cancelShutdown := cancelShutdown m;
     closedChans := closedChans m |}.

(** Observable side effects. *)
Inductive effect :=
| ECallback (st : SentryStatus)        (** [setStatus]: status written, callback run *)
| ESaveState (everSeen : bool)         (** [saveState]: durable write *)
| ESleep (secs : Z)                    (** [time.Sleep] of the monitor loop *)
| ENotify (delay : Z)                  (** [showNotification] of the countdown *)
| EBeep                                (** [playWarningSound] *)
| EExecute (action : string)           (** [executeShutdown] *)
| ECancelReturned (b : bool)           (** return value of [CancelShutdown] *)
| ECountdownCancelled                  (** the [<-s.cancelShutdown] case returned *)
| ESetPaused (b : bool)                (** [config.SetPaused] by the remote listener *)
| ESendPausedAck | ESendResumedAck | ESendStatus.

(** [setStatus] *)
Definition setStatus (m : SentryManager) (st : SentryStatus)
    : SentryManager * list effect :=
  (set_status m st, [ECallback st]).

(** [CancelShutdown]: under the lock, if a shutdown is pending, close the
    current channel, replace it by a fresh one, clear [shutdownPending]
    and [graceCount]; return whether it did. *)
Definition CancelShutdown (m : SentryManager) : SentryManager * bool :=
  if shutdownPending m then
    ({| status := status m; graceCount := 0; phoneEverSeen := phoneEverSeen m;
        shutdownPending := false; cancelShutdown := S (cancelShutdown m);
        closedChans := cancelShutdown m :: closedChans m |}, true)
  else (m, false).

(** One iteration of the [for] loop of [StartMonitor], from the result of
    [config.Load()] ([settings], [loadErr]), the result of
    [network.GetCurrentSSID()] ([ssid]) and the result of
    [network.IsDeviceOnNetwork] ([alive], consulted only where the code
    calls it).  The boolean result is [true] when the iteration calls
    [triggerShutdownWithCountdown]; the final [time.Sleep] of such an
    iteration happens when the countdown returns. *)
Definition monitor_iteration (m : SentryManager) (settings : Settings)
    (loadErr : bool) (ssid : string) (alive : bool)
    : SentryManager * list effect * bool :=
  let sleep := [ESleep (PollInterval settings)] in
  if loadErr then (m, sleep, false)
  else if IsPaused settings then
    let '(m1, e1) := setStatus m StatusPaused in (m1, e1 ++ sleep, false)
  else if String.eqb ssid (HomeSSID settings) then
    if HasDeviceConfigured settings then
      if alive then
        let '(m1, e1) := setStatus m StatusMonitoring in
        let everSeen := phoneEverSeen m1 in
        let m2 := set_grace m1 0 in
        let m3 := if negb everSeen then set_ever_seen m2 true else m2 in
        let e2 := if negb everSeen then [ESaveState (phoneEverSeen m3)] else [] in
        (m3, e1 ++ e2 ++ sleep, false)
      else
        let everSeen := phoneEverSeen m in
        if everSeen then
          let m1 := set_grace m (graceCount m + 1) in
          let currentGrace := graceCount m1 in
          let '(m2, e2) := setStatus m1 StatusGracePeriod in
          if currentGrace >=? GraceChecks settings then
            let '(m3, e3) := setStatus m2 StatusShutdownImminent in
            (m3, e2 ++ e3, true)
          else (m2, e2 ++ sleep, false)
        else
          let '(m1, e1) := setStatus m StatusWaitingForPhone in
          (m1, e1 ++ sleep, false)
    else
      let '(m1, e1) := setStatus m StatusRoaming in (m1, e1 ++ sleep, false)
  else
    let '(m1, e1) := setStatus m StatusRoaming in
    (set_grace m1 0, e1 ++ sleep, false).

(** The cases of the [select] of [triggerShutdownWithCountdown]. *)
Inductive SelCase := CaseBeep | CaseTimer | CaseCancel.

(** Where the countdown goroutine is: at the head of its [for] loop, about
    to evaluate the channel operands of the [select] (Go evaluates
    [s.cancelShutdown] once on entering the [select]), or blocked in the
    [select] on the cancel channel [ch] it read there. *)
Inductive CdPc := CdHead | CdBlocked (ch : nat).

(** Local state of a [triggerShutdownWithCountdown] run: its settings, its
    program point, the local [countdown], whether [shutdownTimer.C] holds a
    value and whether [beepTicker.C] holds a tick. *)
Record Countdown := {
  cd_settings : Settings;
  cd_pc : CdPc;
  cd_countdown : Z;
  cd_timerFired : bool;
  cd_tickReady : bool
}.

Definition cd_with (c : Countdown) (pc : CdPc) (cnt : Z) (fired tick : bool)
    : Countdown :=
  {| cd_settings := cd_settings c; cd_pc := pc; cd_countdown := cnt;
     cd_timerFired := fired; cd_tickReady := tick |}.

(** The monitor goroutine: between iterations, or inside the countdown. *)
Inductive Phase := Polling | InCountdown (c : Countdown).

Record Sys := { mgr : SentryManager; phase : Phase }.

(** Entry of [triggerShutdownWithCountdown]: [shutdownPending = true],
    notification, first beep, timer and ticker created,
    [countdown := ShutdownDelay - 2]. *)
Definition countdown_enter (m : SentryManager) (settings : Settings)
    : SentryManager * Countdown * list effect :=
  (set_pending m true,
   {| cd_settings := settings; cd_pc := CdHead;
      cd_countdown := ShutdownDelay settings - 2;
      cd_timerFired := false; cd_tickReady := false |},
   [ENotify (ShutdownDelay settings); EBeep]).

Definition case_ready (m : SentryManager) (c : Countdown) (ch : nat) (sc : SelCase)
    : bool :=
  match sc with
  | CaseBeep => cd_tickReady c
  | CaseTimer => cd_timerFired c
  | CaseCancel => existsb (Nat.eqb ch) (closedChans m)
  end.

(** The countdown goroutine, blocked on cancel channel [ch], takes case
    [sc] (Go chooses among the ready cases; a case that is not ready
    leaves it blocked).  A returning case ends the monitor iteration with
    its [time.Sleep]. *)
Definition countdown_select (m : SentryManager) (c : Countdown) (ch : nat)
    (sc : SelCase) : Sys * list effect :=
  if negb (case_ready m c ch sc) then ({| mgr := m; phase := InCountdown c |}, [])
  else
    let sleep := [ESleep (PollInterval (cd_settings c))] in
    match sc with
    | CaseBeep =>
        if cd_countdown c >? 0 then
          ({| mgr := m;
              phase := InCountdown (cd_with c CdHead (cd_countdown c - 2)
                                      (cd_timerFired c) false) |}, [EBeep])
        else
          ({| mgr := m;
              phase := InCountdown (cd_with c CdHead (cd_countdown c)
                                      (cd_timerFired c) false) |}, [])
    | CaseTimer =>
        ({| mgr := set_pending m false; phase := Polling |},
         EExecute (ShutdownAction (cd_settings c)) :: sleep)
    | CaseCancel =>
        let '(m1, e1) := setStatus m StatusMonitoring in
        ({| mgr := m1; phase := Polling |}, ECountdownCancelled :: e1 ++ sleep)
    end.

(** The always-on remote command callback of [startNtfyCommandListener]
    ([src/main.go]), given the [IsPaused] value it loads: its [switch]
    handles [CmdPause], [CmdResume] and [CmdStatus] only. *)
Definition remote_callback (cmd : Command) (cfgPaused : bool) : list effect :=
  match cmd with
  | CmdPause => if negb cfgPaused then [ESetPaused true; ESendPausedAck] else []
  | CmdResume => if cfgPaused then [ESetPaused false; ESendResumedAck] else []
  | CmdStatus => [ESendStatus]
  | CmdCancelAndPause | CmdCancelOnly => []
  end.

(** Scheduler events: one monitor iteration, a [CancelShutdown] call from
    the tray goroutine, the timer and the ticker delivering, the countdown
    goroutine evaluating its [select] or taking a case, a remote command. *)
Inductive sys_event :=
| Cycle (settings : Settings) (loadErr : bool) (ssid : string) (alive : bool)
| UserCancel
| TimerFires
| TickerFires
| CdEval
| CdPick (sc : SelCase)
| Remote (cmd : Command) (cfgPaused : bool).

Definition sys_step (s : Sys) (ev : sys_event) : Sys * list effect :=
  match ev, phase s with
  | Cycle st err ssid alive, Polling =>
      let '(m1, e1, trig) := monitor_iteration (mgr s) st err ssid alive in
      if trig then
        let '(m2, c, e2) := countdown_enter m1 st in
        ({| mgr := m2; phase := InCountdown c |}, e1 ++ e2)
      else ({| mgr := m1; phase := Polling |}, e1)
  | UserCancel, ph =>
      let '(m1, b) := CancelShutdown (mgr s) in
      ({| mgr := m1; phase := ph |}, [ECancelReturned b])
  | TimerFires, InCountdown c =>
      ({| mgr := mgr s;
          phase := InCountdown (cd_with c (cd_pc c) (cd_countdown c) true (cd_tickReady c)) |},
       [])
  | TickerFires, InCountdown c =>
      ({| mgr := mgr s;
          phase := InCountdown (cd_with c (cd_pc c) (cd_countdown c) (cd_timerFired c) true) |},
       [])
  | CdEval, InCountdown c =>
      match cd_pc c with
      | CdHead =>
          ({| mgr := mgr s;
              phase := InCountdown (cd_with c (CdBlocked (cancelShutdown (mgr s)))
                                      (cd_countdown c) (cd_timerFired c) (cd_tickReady c)) |},
           [])
      | CdBlocked _ => (s, [])
      end
  | CdPick sc, InCountdown c =>
      match cd_pc c with
      | CdBlocked ch => countdown_select (mgr s) c ch sc
      | CdHead => (s, [])
      end
  | Remote cmd p, _ => (s, remote_callback cmd p)
  | _, _ => (s, [])
  end.

Fixpoint run (s : Sys) (evs : list sys_event) : Sys * list effect :=
  match evs with
  | [] => (s, [])
  | ev :: evs' =>
      let '(s1, e1) := sys_step s ev in
      let '(s2, e2) := run s1 evs' in
      (s2, e1 ++ e2)
  end.

End Sentry.

(* ================================================================== *)
(** ** The spec's notions, stated in its own words *)

Module SpecSide.
Import Config Sentry.

(** Section 4.3, step 3:
    [onHomeNetwork := CurrentNetworkName() == configuredHomeNetwork &&
                      configuredHomeNetwork <> ""]. *)
Definition onHomeNetwork (ssid : string) (settings : Settings) : bool :=
  String.eqb ssid (HomeSSID settings) && negb (String.eqb (HomeSSID settings) "").

(** The [graceCount] an event leaves, as the amended claim C4 lists the
    changes: reset by a running (loaded, not paused) polling cycle off the
    home network, by a successful presence check and by a cancellation of
    a pending countdown; incremented by a failed presence check at home
    with [phoneEverSeen]; unchanged by anything else. *)
Definition grace_after (s : Sys) (ev : sys_event) : Z :=
  let m := mgr s in
  match ev, phase s with
  | Cycle st err ssid alive, Polling =>
      if err || IsPaused st then graceCount m
      else if negb (onHomeNetwork ssid st) then 0
      else if negb (HasDeviceConfigured st) then graceCount m
      else if alive then 0
      else if phoneEverSeen m then graceCount m + 1
      else graceCount m
  | UserCancel, _ => if shutdownPending m then 0 else graceCount m
  | _, _ => graceCount m
  end.

(** Statuses reported to the status callback, in order. *)
Definition callbacks (tr : list effect) : list SentryStatus :=
  flat_map (fun e => match e with ECallback st => [st] | _ => [] end) tr.

(** Number of durable writes of the state file. *)
Definition save_count (tr : list effect) : nat :=
  List.length (filter (fun e => match e with ESaveState _ => true | _ => false end) tr).

End SpecSide.

(* ================================================================== *)
(** ** Concrete configurations and schedules *)

Module Scenarios.
Import Config Sentry.

(** A stateful operation failing on attempts 1 and 2 and succeeding on 3. *)
Definition flaky_op (a : Z) : nat * option string :=
  if a <? 3 then (0%nat, Some "wifi not connected"%string) else (42%nat, None).

(** A validated configuration: home network "HomeNet", a phone by MAC,
    3 grace checks, 10s poll interval, 10s shutdown delay. *)
Definition home_settings : Settings := {|
  HomeSSID := "HomeNet"; PhoneIP := ""; PhoneMAC := "AA:BB:CC:DD:EE:FF";
  DetectionType := "mac"; IsPaused := false; GraceChecks := 3;
  PollInterval := 10; PingTimeoutMs := 500; ShutdownDelay := 10;
  ShutdownPIN := ""; RequirePIN := false; ShutdownAction := "shutdown" |}%string.

Definition with_pin (st : Settings) : Settings := {|
  HomeSSID := HomeSSID st; PhoneIP := PhoneIP st; PhoneMAC := PhoneMAC st;
  DetectionType := DetectionType st; IsPaused := IsPaused st;
  GraceChecks := GraceChecks st; PollInterval := PollInterval st;
  PingTimeoutMs := PingTimeoutMs st; ShutdownDelay := ShutdownDelay st;
  ShutdownPIN := "4821"; RequirePIN := true;
  ShutdownAction := ShutdownAction st |}%string.

Definition paused (st : Settings) : Settings := {|
  HomeSSID := HomeSSID st; PhoneIP := PhoneIP st; PhoneMAC := PhoneMAC st;
  DetectionType := DetectionType st; IsPaused := true;
  GraceChecks := GraceChecks st; PollInterval := PollInterval st;
  PingTimeoutMs := PingTimeoutMs st; ShutdownDelay := ShutdownDelay st;
  ShutdownPIN := ShutdownPIN st; RequirePIN := RequirePIN st;
  ShutdownAction := ShutdownAction st |}.

Definition with_home (h : string) (st : Settings) : Settings := {|
  HomeSSID := h; PhoneIP := PhoneIP st; PhoneMAC := PhoneMAC st;
  DetectionType := DetectionType st; IsPaused := IsPaused st;
  GraceChecks := GraceChecks st; PollInterval := PollInterval st;
  PingTimeoutMs := PingTimeoutMs st; ShutdownDelay := ShutdownDelay st;
  ShutdownPIN := ShutdownPIN st; RequirePIN := RequirePIN st;
  ShutdownAction := ShutdownAction st |}.

(** A manager whose phone has been seen, with [graceCount] [g]. *)
Definition seen_mgr (g : Z) : SentryManager :=
  {| status := StatusGracePeriod; graceCount := g; phoneEverSeen := true;
     shutdownPending := false; cancelShutdown := 0; closedChans := [] |}.

Definition polling (m : SentryManager) : Sys := {| mgr := m; phase := Polling |}.

(** Escalation, then: the countdown enters its [select]; at t = 2s the
    ticker delivers and the goroutine takes the beep case; while it runs
    the beep body the user clicks "Cancel Shutdown" ([CancelShutdown]
    closes the channel and installs a fresh one); the goroutine loops and
    re-evaluates [s.cancelShutdown], reading the fresh channel; at
    t = 10s the timer delivers and the goroutine takes the timer case. *)
Definition lost_cancel_schedule : list sys_event :=
  [Cycle home_settings false "HomeNet" false; CdEval; TickerFires; CdPick CaseBeep;
   UserCancel; CdEval; TimerFires; CdPick CaseTimer]%string.

(** Escalation, then a remote "cancel_only" during the countdown, then the
    timer. *)
Definition remote_cancel_schedule : list sys_event :=
  [Cycle home_settings false "HomeNet" false; CdEval; Remote CmdCancelOnly false;
   TimerFires; CdPick CaseTimer]%string.

(** Escalation with a PIN required, then the timer. *)
Definition pin_timer_schedule : list sys_event :=
  [Cycle (with_pin home_settings) false "HomeNet" false; CdEval; TimerFires;
   CdPick CaseTimer]%string.

(** Three consecutive absent checks at home. *)
Definition three_absent (st : Settings) : list sys_event :=
  [Cycle st false (HomeSSID st) false; Cycle st false (HomeSSID st) false;
   Cycle st false (HomeSSID st) false].

(** All three attempts of the netsh query report "Disconnected". *)
Definition disconnected_query (_ : Z) : string := "Disconnected"%string.

End Scenarios.

(* ================================================================== *)
(** ** Byte strings and the Go [strings] functions the code uses

    A Go [string] is a sequence of bytes: [list byte].  [bytes] and [str]
    convert from and to the [string] fields of the records above. *)

Module GoText.

Definition bytes (s : string) : list byte := list_byte_of_string s.
Definition str (l : list byte) : string := string_of_list_byte l.

Definition in_range (lo hi b : byte) : bool :=
  (Byte.to_nat lo <=? Byte.to_nat b)%nat && (Byte.to_nat b <=? Byte.to_nat hi)%nat.

Definition is_digit (b : byte) : bool := in_range "0" "9" b.

Definition is_hex (b : byte) : bool :=
  in_range "0" "9" b || in_range "a" "f" b || in_range "A" "F" b.

(** ASCII white space: the [asciiSpace] table of [strings.TrimSpace]. *)
Definition is_ascii_space (b : byte) : bool :=
  match b with
  | x09 | x0a | x0b | x0c | x0d | x20 => true
  | _ => false
  end.

(** The non-ASCII runes of [unicode.IsSpace] encoded on three bytes:
    U+1680, U+2000..U+200A, U+2028, U+2029, U+202F, U+205F, U+3000. *)
Definition three_space (b0 b1 b2 : byte) : bool :=
  (Byte.eqb b0 xe1 && Byte.eqb b1 x9a && Byte.eqb b2 x80) ||
  (Byte.eqb b0 xe2 && Byte.eqb b1 x80 &&
     (in_range x80 x8a b2 || Byte.eqb b2 xa8 || Byte.eqb b2 xa9 || Byte.eqb b2 xaf)) ||
  (Byte.eqb b0 xe2 && Byte.eqb b1 x81 && Byte.eqb b2 x9f) ||
  (Byte.eqb b0 xe3 && Byte.eqb b1 x80 && Byte.eqb b2 x80).

(** Width of the first rune of [l] when [unicode.IsSpace] holds of it
    ([utf8.DecodeRune] reads it), 0 otherwise: ASCII spaces, U+0085 and
    U+00A0 (two bytes), the three-byte spaces.  An invalid byte decodes to
    [RuneError], which is not a space. *)
Definition space_len (l : list byte) : nat :=
  match l with
  | [] => 0
  | b :: r =>
      if is_ascii_space b then 1 else
      match r with
      | [] => 0
      | b1 :: r1 =>
          if Byte.eqb b xc2 && (Byte.eqb b1 x85 || Byte.eqb b1 xa0) then 2 else
          match r1 with
          | [] => 0
          | b2 :: _ => if three_space b b1 b2 then 3 else 0
          end
      end
  end%nat.

(** The same for the last rune ([utf8.DecodeLastRune]), on the reversed
    string [l]: the last rune is a space exactly when the string ends in
    one of the encodings above. *)
Definition space_len_rev (l : list byte) : nat :=
  match l with
  | [] => 0
  | b :: r =>
      if is_ascii_space b then 1 else
      match r with
      | [] => 0
      | b1 :: r1 =>
          if Byte.eqb b1 xc2 && (Byte.eqb b x85 || Byte.eqb b xa0) then 2 else
          match r1 with
          | [] => 0
          | b2 :: _ => if three_space b2 b1 b then 3 else 0
          end
      end
  end%nat.

(** [TrimLeftFunc(s, unicode.IsSpace)]: [fuel] bounds the loop, each
    round drops at least one byte. *)
Fixpoint trim_left_fuel (fuel : nat) (l : list byte) : list byte :=
  match fuel with
  | O => l
  | S fuel' =>
      match space_len l with
      | O => l
      | k => trim_left_fuel fuel' (skipn k l)
      end
  end.

Fixpoint trim_rev_fuel (fuel : nat) (l : list byte) : list byte :=
  match fuel with
  | O => l
  | S fuel' =>
      match space_len_rev l with
      | O => l
      | k => trim_rev_fuel fuel' (skipn k l)
      end
  end.

Definition TrimLeftSpace (l : list byte) : list byte := trim_left_fuel (List.length l) l.

Definition TrimRightSpace (l : list byte) : list byte :=
  rev (trim_rev_fuel (List.length l) (rev l)).

(** [strings.TrimSpace]: its ASCII fast path and its Unicode fallback
    both compute [TrimRightFunc(TrimLeftFunc(s, IsSpace), IsSpace)]. *)
Definition TrimSpace (s : string) : string :=
  str (TrimRightSpace (TrimLeftSpace (bytes s))).

(** [strings.ReplaceAll(s, old, new)] for a one-byte [old]: every
    occurrence of the byte is replaced. *)
Definition ReplaceAll1 (old : byte) (new : list byte) (l : list byte) : list byte :=
  flat_map (fun c => if Byte.eqb c old then new else [c]) l.

(** Lower-casing of an ASCII letter; other bytes unchanged.  This is
    [strings.ToLower] on ASCII text. *)
Definition ascii_lower (b : byte) : byte :=
  if in_range "A" "Z" b then
    match Byte.of_nat (Byte.to_nat b + 32)%nat with Some c => c | None => b end
  else b.

Fixpoint is_prefix (p l : list byte) : bool :=
  match p, l with
  | [], _ => true
  | a :: p', b :: l' => Byte.eqb a b && is_prefix p' l'
  | _ :: _, [] => false
  end.

(** [strings.Contains(hay, needle)] *)
Fixpoint Contains (hay needle : list byte) : bool :=
  is_prefix needle hay ||
  match hay with
  | [] => false
  | _ :: hay' => Contains hay' needle
  end.

End GoText.

(* ================================================================== *)
(** ** Input validation ([src/pkg/config/validation.go],
       [src/pkg/config/config.go], [src/pkg/config/constants.go]) *)

Module Validation.
Import Config GoText.

Definition MaxSSIDLength : nat := 32.
Definition MinGraceChecks : Z := 1.
Definition MaxGraceChecks : Z := 100.
Definition MinPollInterval : Z := 1.
Definition MaxPollInterval : Z := 300.
Definition ShutdownMinDelay : Z := 5.
Definition ShutdownMaxDelay : Z := 300.
Definition DefaultGraceChecks : Z := 5.
Definition DefaultPollInterval : Z := 10.
Definition DefaultPingTimeoutMs : Z := 500.
Definition DefaultShutdownDelay : Z := 10.
Definition MinPINLength : nat := 4.
Definition MaxPINLength : nat := 8.

Record ValidationError := { Field : string; Message : string }.

Definition NewValidationError (field message : string) : ValidationError :=
  {| Field := field; Message := message |}.

(** [DefaultSettings()] *)
Definition DefaultSettings : Settings := {|
  HomeSSID := ""; PhoneIP := ""; PhoneMAC := ""; DetectionType := "mac";
  IsPaused := false; GraceChecks := DefaultGraceChecks;
  PollInterval := DefaultPollInterval; PingTimeoutMs := DefaultPingTimeoutMs;
  ShutdownDelay := DefaultShutdownDelay; ShutdownPIN := ""; RequirePIN := false;
  ShutdownAction := "shutdown" |}%string.

(** [dangerousChars]: one of the bytes [<], [>], double quote, single
    quote, [&], or one of [javascript:], [data:], [vbscript:];
    [MatchString] finds a match starting at some position. *)
Definition dangerous_byte (b : byte) : bool :=
  match b with
  | x3c | x3e | x22 | x27 | x26 => true
  | _ => false
  end.

Fixpoint dangerousChars_match (l : list byte) : bool :=
  match l with
  | [] => false
  | b :: r =>
      dangerous_byte b || is_prefix (bytes "javascript:") l ||
      is_prefix (bytes "data:") l || is_prefix (bytes "vbscript:") l ||
      dangerousChars_match r
  end.

(** [macCompactRegex = ^[0-9a-fA-F]{12}$] *)
Definition macCompact_match (l : list byte) : bool :=
  (List.length l =? 12)%nat && forallb is_hex l.

Definition is_mac_sep (b : byte) : bool := Byte.eqb b ":" || Byte.eqb b "-".

(** [macRegex = ^([0-9a-fA-F]{2}[:-]){5}[0-9a-fA-F]{2}$] *)
Definition macRegex_match (l : list byte) : bool :=
  match l with
  | [a1; a2; s1; b1; b2; s2; c1; c2; s3; d1; d2; s4; e1; e2; s5; f1; f2] =>
      forallb is_hex [a1; a2; b1; b2; c1; c2; d1; d2; e1; e2; f1; f2] &&
      forallb is_mac_sep [s1; s2; s3; s4; s5]
  | _ => false
  end.

(** The loop [for i := 0; i < 12; i += 2] of [SanitizeMAC] on its 12
    bytes: a dash before every pair but the first. *)
Fixpoint dash_pairs (first : bool) (l : list byte) : list byte :=
  match l with
  | a :: b :: r => (if first then [] else ["-"%byte]) ++ a :: b :: dash_pairs false r
  | _ => []
  end.

(** [ipRegex]: four fields separated by dots, each matching
    [25[0-5]|2[0-4][0-9]|[01]?[0-9][0-9]?]; no field contains a dot, so the
    split at the dots is the only way to match. *)
Fixpoint split_dot (l : list byte) : list (list byte) :=
  match l with
  | [] => [[]]
  | b :: r =>
      let parts := split_dot r in
      if Byte.eqb b "." then [] :: parts
      else match parts with
           | p :: ps => (b :: p) :: ps
           | [] => [[b]]
           end
  end.

Definition octet_match (o : list byte) : bool :=
  match o with
  | [a; b; c] =>
      (Byte.eqb a "2" && Byte.eqb b "5" && in_range "0" "5" c) ||
      (Byte.eqb a "2" && in_range "0" "4" b && is_digit c) ||
      ((Byte.eqb a "0" || Byte.eqb a "1") && is_digit b && is_digit c)
  | [a; b] => ((Byte.eqb a "0" || Byte.eqb a "1") && is_digit b) || (is_digit a && is_digit b)
  | [a] => is_digit a
  | _ => false
  end.

Definition ipRegex_match (l : list byte) : bool :=
  match split_dot l with
  | [o1; o2; o3; o4] => octet_match o1 && octet_match o2 && octet_match o3 && octet_match o4
  | _ => false
  end.

(** [pinRegex = ^\d{4,8}$]; Go's [\d] is [0-9]. *)
Definition pinRegex_match (l : list byte) : bool :=
  (4 <=? List.length l)%nat && (List.length l <=? 8)%nat && forallb is_digit l.

(** [SanitizeSSID] *)
Definition SanitizeSSID (ssid : string) : string * option ValidationError :=
  let ssid := TrimSpace ssid in
  if (String.length ssid =? 0)%nat then (""%string, None)
  else if (MaxSSIDLength <? String.length ssid)%nat then
    (""%string, Some (NewValidationError "SSID too long" "SSID must be 32 characters or less"))
  else if dangerousChars_match (bytes ssid) then
    (""%string, Some (NewValidationError "SSID contains invalid characters"
                        "SSID contains potentially dangerous characters"))
  else (ssid, None).

(** [SanitizeMAC]; the text lower-cased is ASCII (it matched a regex),
    where [strings.ToLower] is [ascii_lower]. *)
Definition SanitizeMAC (mac : string) : string * option ValidationError :=
  let mac := TrimSpace mac in
  if String.eqb mac "" then (""%string, None)
  else if macCompact_match (bytes mac) then
    (str (map ascii_lower (dash_pairs true (bytes mac))), None)
  else if negb (macRegex_match (bytes mac)) then
    (""%string, Some (NewValidationError "Invalid MAC address"
       "MAC must be in format AA:BB:CC:DD:EE:FF or AA-BB-CC-DD-EE-FF"))
  else (str (ReplaceAll1 ":" ["-"%byte] (map ascii_lower (bytes mac))), None).

(** [SanitizeIP] *)
Definition SanitizeIP (ip : string) : string * option ValidationError :=
  let ip := TrimSpace ip in
  if String.eqb ip "" then (""%string, None)
  else if negb (ipRegex_match (bytes ip)) then
    (""%string, Some (NewValidationError "Invalid IP address" "IP must be in format xxx.xxx.xxx.xxx"))
  else (ip, None).

(** [SanitizePIN] *)
Definition SanitizePIN (pin : string) : string * option ValidationError :=
  let pin := TrimSpace pin in
  if String.eqb pin "" then (""%string, None)
  else if negb (pinRegex_match (bytes pin)) then
    (""%string, Some (NewValidationError "Invalid PIN" "PIN must be 4-8 digits"))
  else (pin, None).

(** [ValidatePIN].  Go ranges over the runes of [pin]; a rune is in
    ['0'..'9'] iff it is one such byte, and every byte of any other rune
    (or of an invalid sequence) is outside ['0'..'9'], so the byte test
    decides the same. *)
Definition ValidatePIN (pin : string) : bool :=
  if String.eqb pin "" then true
  else if (String.length pin <? MinPINLength)%nat || (MaxPINLength <? String.length pin)%nat
  then false
  else forallb is_digit (bytes pin).

(** [ValidateMAC] *)
Definition ValidateMAC (mac : string) : bool :=
  if String.eqb mac "" then true else macRegex_match (bytes mac).

(** [ValidateShutdownAction] *)
Definition ValidateShutdownAction (action : string) : bool :=
  String.eqb action "shutdown" || String.eqb action "hibernate" ||
  String.eqb action "lock" || String.eqb action "sleep".

(** One warning of [ValidateSettings] per field it resets (each stands for
    the formatted message the code appends). *)
Inductive warning :=
| WHomeSSID | WPhoneIP | WPhoneMAC | WShutdownPIN | WDetectionType
| WShutdownAction | WGraceChecks | WPollInterval | WShutdownDelay.

Definition set_HomeSSID (s : Settings) (v : string) : Settings := {|
  HomeSSID := v; PhoneIP := PhoneIP s; PhoneMAC := PhoneMAC s;
  DetectionType := DetectionType s; IsPaused := IsPaused s; GraceChecks := GraceChecks s;
  PollInterval := PollInterval s; PingTimeoutMs := PingTimeoutMs s;
  ShutdownDelay := ShutdownDelay s; ShutdownPIN := ShutdownPIN s;
  RequirePIN := RequirePIN s; ShutdownAction := ShutdownAction s |}.

Definition set_PhoneIP (s : Settings) (v : string) : Settings := {|
  HomeSSID := HomeSSID s; PhoneIP := v; PhoneMAC := PhoneMAC s;
  DetectionType := DetectionType s; IsPaused := IsPaused s; GraceChecks := GraceChecks s;
  PollInterval := PollInterval s; PingTimeoutMs := PingTimeoutMs s;
  ShutdownDelay := ShutdownDelay s; ShutdownPIN := ShutdownPIN s;
  RequirePIN := RequirePIN s; ShutdownAction := ShutdownAction s |}.

Definition set_PhoneMAC (s : Settings) (v : string) : Settings := {|
  HomeSSID := HomeSSID s; PhoneIP := PhoneIP s; PhoneMAC := v;
  DetectionType := DetectionType s; IsPaused := IsPaused s; GraceChecks := GraceChecks s;
  PollInterval := PollInterval s; PingTimeoutMs := PingTimeoutMs s;
  ShutdownDelay := ShutdownDelay s; ShutdownPIN := ShutdownPIN s;
  RequirePIN := RequirePIN s; ShutdownAction := ShutdownAction s |}.

Definition set_ShutdownPIN (s : Settings) (v : string) : Settings := {|
  HomeSSID := HomeSSID s; PhoneIP := PhoneIP s; PhoneMAC := PhoneMAC s;
  DetectionType := DetectionType s; IsPaused := IsPaused s; GraceChecks := GraceChecks s;
  PollInterval := PollInterval s; PingTimeoutMs := PingTimeoutMs s;
  ShutdownDelay := ShutdownDelay s; ShutdownPIN := v;
  RequirePIN := RequirePIN s; ShutdownAction := ShutdownAction s |}.

Definition set_RequirePIN (s : Settings) (v : bool) : Settings := {|
  HomeSSID := HomeSSID s; PhoneIP := PhoneIP s; PhoneMAC := PhoneMAC s;
  DetectionType := DetectionType s; IsPaused := IsPaused s; GraceChecks := GraceChecks s;
  PollInterval := PollInterval s; PingTimeoutMs := PingTimeoutMs s;
  ShutdownDelay := ShutdownDelay s; ShutdownPIN := ShutdownPIN s;
  RequirePIN := v; ShutdownAction := ShutdownAction s |}.

Definition set_DetectionType (s : Settings) (v : string) : Settings := {|
  HomeSSID := HomeSSID s; PhoneIP := PhoneIP s; PhoneMAC := PhoneMAC s;
  DetectionType := v; IsPaused := IsPaused s; GraceChecks := GraceChecks s;
  PollInterval := PollInterval s; PingTimeoutMs := PingTimeoutMs s;
  ShutdownDelay := ShutdownDelay s; ShutdownPIN := ShutdownPIN s;
  RequirePIN := RequirePIN s; ShutdownAction := ShutdownAction s |}.

Definition set_ShutdownAction (s : Settings) (v : string) : Settings := {|
  HomeSSID := HomeSSID s; PhoneIP := PhoneIP s; PhoneMAC := PhoneMAC s;
  DetectionType := DetectionType s; IsPaused := IsPaused s; GraceChecks := GraceChecks s;
  PollInterval := PollInterval s; PingTimeoutMs := PingTimeoutMs s;
  ShutdownDelay := ShutdownDelay s; ShutdownPIN := ShutdownPIN s;
  RequirePIN := RequirePIN s; ShutdownAction := v |}.

Definition set_GraceChecks (s : Settings) (v : Z) : Settings := {|
  HomeSSID := HomeSSID s; PhoneIP := PhoneIP s; PhoneMAC := PhoneMAC s;
  DetectionType := DetectionType s; IsPaused := IsPaused s; GraceChecks := v;
  PollInterval := PollInterval s; PingTimeoutMs := PingTimeoutMs s;
  ShutdownDelay := ShutdownDelay s; ShutdownPIN := ShutdownPIN s;
  RequirePIN := RequirePIN s; ShutdownAction := ShutdownAction s |}.

Definition set_PollInterval (s : Settings) (v : Z) : Settings := {|
  HomeSSID := HomeSSID s; PhoneIP := PhoneIP s; PhoneMAC := PhoneMAC s;
  DetectionType := DetectionType s; IsPaused := IsPaused s; GraceChecks := GraceChecks s;
  PollInterval := v; PingTimeoutMs := PingTimeoutMs s;
  ShutdownDelay := ShutdownDelay s; ShutdownPIN := ShutdownPIN s;
  RequirePIN := RequirePIN s; ShutdownAction := ShutdownAction s |}.

Definition set_PingTimeoutMs (s : Settings) (v : Z) : Settings := {|
  HomeSSID := HomeSSID s; PhoneIP := PhoneIP s; PhoneMAC := PhoneMAC s;
  DetectionType := DetectionType s; IsPaused := IsPaused s; GraceChecks := GraceChecks s;
  PollInterval := PollInterval s; PingTimeoutMs := v;
  ShutdownDelay := ShutdownDelay s; ShutdownPIN := ShutdownPIN s;
  RequirePIN := RequirePIN s; ShutdownAction := ShutdownAction s |}.

Definition set_ShutdownDelay (s : Settings) (v : Z) : Settings := {|
  HomeSSID := HomeSSID s; PhoneIP := PhoneIP s; PhoneMAC := PhoneMAC s;
  DetectionType := DetectionType s; IsPaused := IsPaused s; GraceChecks := GraceChecks s;
  PollInterval := PollInterval s; PingTimeoutMs := PingTimeoutMs s;
  ShutdownDelay := v; ShutdownPIN := ShutdownPIN s;
  RequirePIN := RequirePIN s; ShutdownAction := ShutdownAction s |}.

(** [ValidateSettings(s *Settings) []string] runs one check per field, in
    this order, on the settings it mutates and the warnings it appends. *)
Definition check_HomeSSID (st : Settings * list warning) : Settings * list warning :=
  let '(s, w) := st in
  if negb (String.eqb (HomeSSID s) "") then
    match SanitizeSSID (HomeSSID s) with
    | (_, Some _) => (set_HomeSSID s "", w ++ [WHomeSSID])
    | (v, None) => (set_HomeSSID s v, w)
    end
  else (s, w).

Definition check_PhoneIP (st : Settings * list warning) : Settings * list warning :=
  let '(s, w) := st in
  if negb (String.eqb (PhoneIP s) "") then
    match SanitizeIP (PhoneIP s) with
    | (_, Some _) => (set_PhoneIP s "", w ++ [WPhoneIP])
    | (v, None) => (set_PhoneIP s v, w)
    end
  else (s, w).

Definition check_PhoneMAC (st : Settings * list warning) : Settings * list warning :=
  let '(s, w) := st in
  if negb (String.eqb (PhoneMAC s) "") then
    match SanitizeMAC (PhoneMAC s) with
    | (_, Some _) => (set_PhoneMAC s "", w ++ [WPhoneMAC])
    | (v, None) => (set_PhoneMAC s v, w)
    end
  else (s, w).

Definition check_ShutdownPIN (st : Settings * list warning) : Settings * list warning :=
  let '(s, w) := st in
  if negb (String.eqb (ShutdownPIN s) "") then
    match SanitizePIN (ShutdownPIN s) with
    | (_, Some _) => (set_RequirePIN (set_ShutdownPIN s "") false, w ++ [WShutdownPIN])
    | (v, None) => (set_ShutdownPIN s v, w)
    end
  else (s, w).

Definition check_DetectionType (st : Settings * list warning) : Settings * list warning :=
  let '(s, w) := st in
  if negb (String.eqb (DetectionType s) "ip") && negb (String.eqb (DetectionType s) "mac")
  then (set_DetectionType s "mac", w ++ [WDetectionType])
  else (s, w).

Definition check_ShutdownAction (st : Settings * list warning) : Settings * list warning :=
  let '(s, w) := st in
  if negb (ValidateShutdownAction (ShutdownAction s))
  then (set_ShutdownAction s "shutdown", w ++ [WShutdownAction])
  else (s, w).

Definition check_GraceChecks (st : Settings * list warning) : Settings * list warning :=
  let '(s, w) := st in
  if (GraceChecks s <? MinGraceChecks) || (MaxGraceChecks <? GraceChecks s)
  then (set_GraceChecks s DefaultGraceChecks, w ++ [WGraceChecks])
  else (s, w).

Definition check_PollInterval (st : Settings * list warning) : Settings * list warning :=
  let '(s, w) := st in
  if (PollInterval s <? MinPollInterval) || (MaxPollInterval <? PollInterval s)
  then (set_PollInterval s DefaultPollInterval, w ++ [WPollInterval])
  else (s, w).

Definition check_ShutdownDelay (st : Settings * list warning) : Settings * list warning :=
  let '(s, w) := st in
  if (ShutdownDelay s <? ShutdownMinDelay) || (ShutdownMaxDelay <? ShutdownDelay s)
  then (set_ShutdownDelay s DefaultShutdownDelay, w ++ [WShutdownDelay])
  else (s, w).

(** [ValidateSettings]: the settings it leaves in [*s] and its warnings. *)
Definition ValidateSettings (s0 : Settings) : Settings * list warning :=
  check_ShutdownDelay (check_PollInterval (check_GraceChecks (check_ShutdownAction
    (check_DetectionType (check_ShutdownPIN (check_PhoneMAC (check_PhoneIP
      (check_HomeSSID (s0, []))))))))).

(** The end of [loadLocked], from the settings decoded from the file
    (unmarshalled over [DefaultSettings()] and decrypted):
    [ValidateSettings], then the [PingTimeoutMs] floor. *)
Definition validate_loaded (decoded : Settings) : Settings :=
  let s := fst (ValidateSettings decoded) in
  if PingTimeoutMs s <? 100 then set_PingTimeoutMs s DefaultPingTimeoutMs else s.

(** [func (s Settings) VerifyPIN(pin string) bool];
    [subtle.ConstantTimeCompare] returns 1 iff the byte strings are equal. *)
Definition VerifyPIN (s : Settings) (pin : string) : bool :=
  if negb (RequirePIN s) || String.eqb (ShutdownPIN s) "" then true
  else String.eqb (ShutdownPIN s) pin.

(** [SetShutdownPIN(pin)]: [None] when it returns its validation error
    (before loading), otherwise the settings it hands to [saveLocked],
    from the [loaded] ones. *)
Definition SetShutdownPIN (pin : string) (loaded : Settings) : option Settings :=
  if negb (ValidatePIN pin) then None
  else Some (set_RequirePIN (set_ShutdownPIN loaded pin) (negb (String.eqb pin ""))).

End Validation.

(* ================================================================== *)
(** ** Shell commands of the sentry ([src/pkg/sentry/sentry.go]) *)

Module Shell.
Import GoText.

Definition maxPSStringLen : nat := 256.

(** [escapePowerShellString]: single quotes doubled; NUL and backtick
    removed; LF turned into a space; CR removed; then cut to its first
    256 bytes. *)
Definition escapePowerShellString (s : string) : string :=
  let l := ReplaceAll1 x27 [x27; x27] (bytes s) in
  let l := ReplaceAll1 x00 [] l in
  let l := ReplaceAll1 x60 [] l in
  let l := ReplaceAll1 x0a [x20] l in
  let l := ReplaceAll1 x0d [] l in
  str (if (maxPSStringLen <? List.length l)%nat then firstn maxPSStringLen l else l).

(** [executeShutdown]: the command line it runs ([None]: none, on a
    non-Windows OS, where it only logs). *)
Definition executeShutdown (goos action : string) : option (list string) :=
  if negb (String.eqb goos "windows") then None
  else Some
    (if String.eqb action "shutdown" then ["shutdown"; "/s"; "/t"; "0"]
     else if String.eqb action "hibernate" then
       ["rundll32.exe"; "powrprof.dll,SetSuspendState"; "0,1,0"]
     else if String.eqb action "sleep" then
       ["rundll32.exe"; "powrprof.dll,SetSuspendState"; "0,1,0"]
     else if String.eqb action "lock" then ["rundll32.exe"; "user32.dll,LockWorkStation"]
     else ["shutdown"; "/s"; "/t"; "0"])%string.

End Shell.

(* ================================================================== *)
(** ** Presence check ([src/pkg/network/network.go]) *)

Module Presence.
Import GoText.

(** [checkARPForMAC], given the output of [arp -a] ([None]: the command
    failed): [strings.Contains(strings.ToLower(output), mac)].  On the
    text searched, [ascii_lower] stands for [strings.ToLower]: the two
    differ only on non-ASCII runes (and invalid bytes), which lower to
    non-ASCII bytes except U+0130 and U+212A (to [i] and [k]); the runs of
    ASCII bytes are lowered alike, so for an ASCII [mac] without [i] or [k]
    (every MAC the regexes accept) both searches agree. *)
Definition checkARPForMAC (mac : string) (arp : option string) : bool :=
  match arp with
  | None => false
  | Some out => Contains (map ascii_lower (bytes out)) (bytes mac)
  end.

(** [IsDeviceOnNetwork(mac)].  [arp] is the output of the final
    [arp -a], read after the refresh ([FindIPByMAC], [deleteARPEntry],
    the pings), which only act on the ARP cache; the result depends on it
    alone.  The MAC is lower-cased and its colons become dashes
    ([ascii_lower] is [strings.ToLower] on an ASCII [mac]). *)
Definition IsDeviceOnNetwork (goos mac : string) (arp : option string) : bool :=
  if negb (String.eqb goos "windows") then true
  else
    let mac := str (ReplaceAll1 ":" ["-"%byte] (map ascii_lower (bytes mac))) in
    checkARPForMAC mac arp.

End Presence.

(* ================================================================== *)
(** ** Remote command polling ([src/pkg/ntfy/ntfy.go]) *)

Module Ntfy.
Import Sentry GoText.

(** [NtfyMessage]: the [id] and [message] of one JSON line. *)
Record NtfyMessage := { ID : string; Message : string }.

(** The [switch] of [checkForCommand] on
    [strings.ToLower(strings.TrimSpace(msg.Message))]; the command words
    are ASCII without [i] or [k], so lower-casing the ASCII letters
    decides the same comparisons as [strings.ToLower]. *)
Definition command_of (text : string) : option Command :=
  let t := str (map ascii_lower (bytes (TrimSpace text))) in
  if String.eqb t "cancel_pause" then Some CmdCancelAndPause
  else if String.eqb t "cancel_only" then Some CmdCancelOnly
  else if String.eqb t "pause" then Some CmdPause
  else if String.eqb t "resume" then Some CmdResume
  else if String.eqb t "status" then Some CmdStatus
  else None.

(** [checkForCommand(url, lastID)]: [resp] is [None] when the request
    fails, otherwise the lines of the body, [None] for an empty line or one
    that is not JSON.  The empty [Command] is [None]. *)
Definition checkForCommand (resp : option (list (option NtfyMessage))) (lastID : string)
    : option Command * string :=
  match resp with
  | None => (None, ""%string)
  | Some lines =>
      fold_left
        (fun acc line =>
           match line with
           | None => acc
           | Some msg =>
               if String.eqb (ID msg) lastID then acc
               else match command_of (Message msg) with
                    | Some c => (Some c, ID msg)
                    | None => acc
                    end
           end)
        lines (None, ""%string)
  end.

(** One tick of [listenForCommands]: the new [lastMessageID] and the
    command passed to the callback, if any. *)
Definition listen_tick (lastMessageID : string) (resp : option (list (option NtfyMessage)))
    : string * option Command :=
  let '(cmd, msgID) := checkForCommand resp lastMessageID in
  match cmd with
  | Some c => if negb (String.eqb msgID lastMessageID) then (msgID, Some c)
              else (lastMessageID, None)
  | None => (lastMessageID, None)
  end.

(** The callbacks of successive ticks, one poll result per tick. *)
Fixpoint listen_run (lastMessageID : string)
    (resps : list (option (list (option NtfyMessage)))) : list Command :=
  match resps with
  | [] => []
  | r :: rs =>
      let '(id, c) := listen_tick lastMessageID r in
      match c with Some c => [c] | None => [] end ++ listen_run id rs
  end.

End Ntfy.

(* ================================================================== *)
(** ** Observations on traces *)

Module Observe.
Import Sentry.

(** Number of warning sounds in a trace. *)
Definition beeps (tr : list effect) : nat :=
  List.length (filter (fun e => match e with EBeep => true | _ => false end) tr).

(** Beeps a countdown can still play: one per positive value of its
    [countdown], which goes down by 2 at each played beep. *)
Definition beeps_left (c : Countdown) : nat :=
  if 0 <? cd_countdown c then Z.to_nat ((cd_countdown c + 1) / 2) else 0%nat.

Definition is_cycle (ev : sys_event) : bool :=
  match ev with Cycle _ _ _ _ => true | _ => false end.

Definition phase_beeps_left (ph : Phase) : nat :=
  match ph with Polling => 0 | InCountdown c => beeps_left c end.

(** The two remote cancel commands, "cancel_pause" and "cancel_only". *)
Definition is_remote_cancel (ev : sys_event) : bool :=
  match ev with
  | Remote CmdCancelOnly _ | Remote CmdCancelAndPause _ => true
  | _ => false
  end.

End Observe.

(* ================================================================== *)
(** ** Shapes of the values the code produces, used to state its facts *)

Module Shapes.
Import Config GoText Validation.

(** A byte of printable or control ASCII that is not white space. *)
Definition ascii_nonspace (b : byte) : bool :=
  (Byte.to_nat b <? 128)%nat && negb (is_ascii_space b).

Definition is_lower_hex (b : byte) : bool := in_range "0" "9" b || in_range "a" "f" b.

(** The stored form of a MAC address: six lower-case hex pairs joined by
    dashes. *)
Definition mac_canonical (l : list byte) : bool :=
  match l with
  | [a1; a2; s1; b1; b2; s2; c1; c2; s3; d1; d2; s4; e1; e2; s5; f1; f2] =>
      forallb is_lower_hex [a1; a2; b1; b2; c1; c2; d1; d2; e1; e2; f1; f2] &&
      forallb (fun s => Byte.eqb s "-") [s1; s2; s3; s4; s5]
  | _ => false
  end.

(** Six hex pairs joined by the five given separators. *)
Definition mac_join (p : list (byte * byte)) (seps : list byte) : list byte :=
  match p, seps with
  | [(a1, a2); (b1, b2); (c1, c2); (d1, d2); (e1, e2); (f1, f2)], [s1; s2; s3; s4; s5] =>
      [a1; a2; s1; b1; b2; s2; c1; c2; s3; d1; d2; s4; e1; e2; s5; f1; f2]
  | _, _ => []
  end.

Definition mac_compact (p : list (byte * byte)) : list byte :=
  flat_map (fun '(a, b) => [a; b]) p.

(** Decimal value of a field of digits. *)
Definition dec_value (o : list byte) : nat :=
  fold_left (fun acc b => acc * 10 + (Byte.to_nat b - 48))%nat o 0%nat.

(** A field of a dotted quad: one to three digits, value at most 255. *)
Definition ip_field_ok (o : list byte) : bool :=
  (1 <=? List.length o)%nat && (List.length o <=? 3)%nat &&
  forallb is_digit o && (dec_value o <=? 255)%nat.

(** Fields joined by dots. *)
Fixpoint join_dot (ps : list (list byte)) : list byte :=
  match ps with
  | [] => []
  | [p] => p
  | p :: ps' => p ++ "."%byte :: join_dot ps'
  end.

(** The characters of a PowerShell single-quoted string: its quote
    characters are the apostrophe and U+2018, U+2019, U+201A and U+201B
    (UTF-8 [e2 80 98] to [e2 80 9b]); every other byte stands for itself.
    A UTF-8 lead byte [e2] never continues another sequence, so these
    three bytes always decode to the quote character. *)
Inductive ps_char := PQuote (q : list byte) | POther (b : byte).

Definition is_sq_tail (c : byte) : bool :=
  Byte.eqb c x98 || Byte.eqb c x99 || Byte.eqb c x9a || Byte.eqb c x9b.

(** Whether a text starts with the two bytes [80 98] to [80 9b] that
    follow the lead byte [e2] of a quote character. *)
Definition sq_head (r : list byte) : bool :=
  match r with
  | b2 :: c :: _ => Byte.eqb b2 x80 && is_sq_tail c
  | _ => false
  end.

Fixpoint ps_chars (l : list byte) : list ps_char :=
  match l with
  | [] => []
  | b :: r1 =>
      if Byte.eqb b x27 then PQuote [b] :: ps_chars r1
      else if Byte.eqb b xe2 then
        match r1 with
        | b2 :: c :: r =>
            if Byte.eqb b2 x80 && is_sq_tail c then PQuote [b; b2; c] :: ps_chars r
            else POther b :: ps_chars r1
        | _ => POther b :: ps_chars r1
        end
      else POther b :: ps_chars r1
  end.

(** The text a single-quoted string body denotes: a quote character
    followed by another stands for the second one; a lone quote ends the
    string, so a body holding one is not well-formed ([None]). *)
Fixpoint ps_unquote_chars (cs : list ps_char) : option (list byte) :=
  match cs with
  | [] => Some []
  | PQuote _ :: PQuote q :: r => option_map (app q) (ps_unquote_chars r)
  | PQuote _ :: _ => None
  | POther b :: r => option_map (cons b) (ps_unquote_chars r)
  end.

Definition ps_unquote (l : list byte) : option (list byte) := ps_unquote_chars (ps_chars l).

(** Whether a text holds one of the quote characters U+2018 to U+201B. *)
Fixpoint has_smart_quote (l : list byte) : bool :=
  match l with
  | [] => false
  | b :: r => (Byte.eqb b xe2 && sq_head r) || has_smart_quote r
  end.

(** The text with every apostrophe doubled. *)
Definition dbl_quotes (l : list byte) : list byte :=
  flat_map (fun b => if Byte.eqb b x27 then [x27; x27] else [b]) l.

(** The input with NUL, backtick and CR dropped and LF turned into a
    space. *)
Definition ps_clean (l : list byte) : list byte :=
  flat_map (fun b => match b with
                     | x00 | x60 | x0d => []
                     | x0a => [x20]
                     | _ => [b]
                     end) l.

Definition no_ps_specials (l : list byte) : bool :=
  forallb (fun b => match b with x00 | x60 | x0d | x0a => false | _ => true end) l.

(** A text field its sanitizer keeps as it is, without error. *)
Definition fixed_by (san : string -> string * option ValidationError) (v : string) : bool :=
  match san v with
  | (v', None) => String.eqb v' v
  | (_, Some _) => false
  end.

(** Settings every check of [ValidateSettings] leaves alone. *)
Definition settings_ok (s : Settings) : bool :=
  fixed_by SanitizeSSID (HomeSSID s) && fixed_by SanitizeIP (PhoneIP s) &&
  fixed_by SanitizeMAC (PhoneMAC s) && fixed_by SanitizePIN (ShutdownPIN s) &&
  (String.eqb (DetectionType s) "ip" || String.eqb (DetectionType s) "mac") &&
  ValidateShutdownAction (ShutdownAction s) &&
  (MinGraceChecks <=? GraceChecks s) && (GraceChecks s <=? MaxGraceChecks) &&
  (MinPollInterval <=? PollInterval s) && (PollInterval s <=? MaxPollInterval) &&
  (ShutdownMinDelay <=? ShutdownDelay s) && (ShutdownDelay s <=? ShutdownMaxDelay).

End Shapes.

(* ================================================================== *)
(** ** Proofs: Retry executor *)

Module RetryFacts.
Import Retry Scenarios.

Section Shape.
Context {T E : Type}.
Variable zero : T.
Variable cfg : RetryConfig.
Variable op : Z -> T * option E.

Lemma retry_loop_past_max fuel attempt delay r e :
  MaxAttempts cfg < attempt ->
  retry_loop cfg op fuel attempt delay r e = (r, e, []).
Proof.
  intros H. destruct fuel as [|fuel]; simpl; [reflexivity|].
  replace (attempt <=? MaxAttempts cfg) with false by (symmetry; apply Z.leb_gt; lia).
  reflexivity.
Qed.

Lemma retry_loop_shape fuel : forall attempt delay r e res err tr,
  1 <= attempt <= MaxAttempts cfg ->
  (Z.to_nat (MaxAttempts cfg - attempt) < fuel)%nat ->
  retry_loop cfg op fuel attempt delay r e = (res, err, tr) ->
  exists k : nat,
    (1 <= k)%nat /\ attempt + Z.of_nat k - 1 <= MaxAttempts cfg /\
    tr = spec_trace cfg k attempt delay /\
    (forall j, attempt <= j < attempt + Z.of_nat k - 1 -> snd (op j) <> None) /\
    ((snd (op (attempt + Z.of_nat k - 1)) = None /\
      res = fst (op (attempt + Z.of_nat k - 1)) /\ err = None) \/
     (attempt + Z.of_nat k - 1 = MaxAttempts cfg /\
      op (attempt + Z.of_nat k - 1) = (res, err) /\ err <> None)).
Proof.
  induction fuel as [|fuel IH]; intros attempt delay r e res err tr Hrange Hfuel Hrun;
    [lia|].
  simpl in Hrun.
  replace (attempt <=? MaxAttempts cfg) with true in Hrun
    by (symmetry; apply Z.leb_le; lia).
  destruct (op attempt) as [r1 e1] eqn:Hop.
  destruct e1 as [e1|].
  - destruct (attempt <? MaxAttempts cfg) eqn:Hlt.
    + apply Z.ltb_lt in Hlt.
      destruct (retry_loop cfg op fuel (attempt + 1) (next_delay cfg delay) r1 (Some e1))
        as [[res' err'] tr'] eqn:Hrec.
      injection Hrun as <- <- <-.
      destruct (IH (attempt + 1) _ _ _ _ _ _ ltac:(lia) ltac:(lia) Hrec)
        as (k & Hk1 & Hkmax & Htr & Hfail & Hout).
      exists (S k). split; [lia|]. split; [lia|]. split.
      { simpl. destruct k as [|k']; [lia|]. rewrite Htr. reflexivity. }
      split.
      { intros j Hj. destruct (Z.eq_dec j attempt) as [->|Hne].
        - rewrite Hop. discriminate.
        - apply Hfail. lia. }
      replace (attempt + Z.of_nat (S k) - 1) with (attempt + 1 + Z.of_nat k - 1) by lia.
      exact Hout.
    + apply Z.ltb_ge in Hlt.
      rewrite retry_loop_past_max in Hrun by lia.
      injection Hrun as <- <- <-.
      exists 1%nat. split; [lia|]. split; [lia|]. split; [reflexivity|].
      split; [intros j Hj; lia|].
      right. replace (attempt + Z.of_nat 1 - 1) with attempt by lia.
      split; [lia|]. split; [exact Hop | discriminate].
  - injection Hrun as <- <- <-.
    exists 1%nat. split; [lia|]. split; [lia|]. split; [reflexivity|].
    split; [intros j Hj; lia|].
    left. replace (attempt + Z.of_nat 1 - 1) with attempt by lia.
    rewrite Hop. auto.
Qed.
End Shape.

Lemma spec_trace_calls cfg k : forall attempt delay,
  calls (spec_trace cfg k attempt delay) = zrange attempt k.
Proof.
  induction k as [|k IH]; intros attempt delay; [reflexivity|].
  destruct k as [|k']; [reflexivity|].
  change (calls (spec_trace cfg (S (S k')) attempt delay))
    with (attempt :: calls (spec_trace cfg (S k') (attempt + 1) (next_delay cfg delay))).
  rewrite IH. reflexivity.
Qed.

Example retry_default_third_attempt :
  RetryWithResult 0%nat DefaultRetryConfig
    (fun a => if a <? 3 then (0%nat, Some "timeout"%string) else (7%nat, None)) =
  (7%nat, None, [RCall 1; RSleep 500000000; RCall 2; RSleep 750000000; RCall 3]).
Proof. reflexivity. Qed.

Example retry_default_all_fail :
  RetryWithResult 0%nat DefaultRetryConfig (fun a => (Z.to_nat a, Some a)) =
  (3%nat, Some 3, [RCall 1; RSleep 500000000; RCall 2; RSleep 750000000; RCall 3]).
Proof. reflexivity. Qed.

(** C7, refuted part: a multiplier [>= 1] does not make the second
    sleep at least the first.  [float64(2^53+1)] rounds to [2^53], so with
    [Delay = 2^53+1] ns and [Multiplier = 1.0] the second sleep is [2^53]
    ns, one less than the first; with [Delay = 1] ns and [Multiplier =
    1e30] the product overflows [int64] and the second sleep is [-2^63]
    ns on amd64.  The operation fails on attempts 1 and 2 and succeeds on
    attempt 3. *)
Lemma retry_second_sleep_shorter_counterexample :
  SFleb (f64_of_int 1) (f64_of_int 1) = true /\
  RetryWithResult 0%nat {| MaxAttempts := 3; Delay := 2 ^ 53 + 1; Multiplier := f64_of_int 1 |}
    flaky_op =
    (42%nat, None, [RCall 1; RSleep (2 ^ 53 + 1); RCall 2; RSleep (2 ^ 53); RCall 3]) /\
  SFleb (f64_of_int 1) (f64_of_int (10 ^ 30)) = true /\
  RetryWithResult 0%nat {| MaxAttempts := 3; Delay := 1; Multiplier := f64_of_int (10 ^ 30) |}
    flaky_op =
    (42%nat, None, [RCall 1; RSleep 1; RCall 2; RSleep (- 2 ^ 63); RCall 3]).
Proof. vm_compute. repeat split. Qed.

(** C7 (amended): with [MaxAttempts >= 1] the executor invokes the
    operation on attempts [1..k] for some [k <= MaxAttempts], every
    attempt before [k] failed, and it returns the first success ([k]'s
    value, nil error) or, when all [MaxAttempts] attempts fail, the last
    failure; the trace of calls and sleeps is the spec's: a sleep between
    two attempts, never after the last, the delay after each sleep being
    [time.Duration(float64(delay) * Multiplier)].  For [MaxAttempts = 3],
    failures on attempts 1 and 2 and a success on 3, the success value is
    returned after exactly two sleeps, [Delay] and then that product; with
    [DefaultRetryConfig] these are 500ms and 750ms. *)
Theorem retry_with_result_contract {T E : Type} (zero : T) (cfg : RetryConfig)
    (op : Z -> T * option E) (Hmax : 1 <= MaxAttempts cfg) :
  (forall res err tr, RetryWithResult zero cfg op = (res, err, tr) ->
   exists k : nat,
     (1 <= k)%nat /\ Z.of_nat k <= MaxAttempts cfg /\
     tr = spec_trace cfg k 1 (Delay cfg) /\ calls tr = zrange 1 k /\
     (forall j, 1 <= j < Z.of_nat k -> snd (op j) <> None) /\
     ((snd (op (Z.of_nat k)) = None /\ res = fst (op (Z.of_nat k)) /\ err = None) \/
      (Z.of_nat k = MaxAttempts cfg /\ op (Z.of_nat k) = (res, err) /\ err <> None))) /\
  (MaxAttempts cfg = 3 ->
   snd (op 1) <> None -> snd (op 2) <> None -> snd (op 3) = None ->
   RetryWithResult zero cfg op =
     (fst (op 3), None,
      [RCall 1; RSleep (Delay cfg); RCall 2; RSleep (next_delay cfg (Delay cfg)); RCall 3])) /\
  (Delay DefaultRetryConfig = 500000000 /\
   next_delay DefaultRetryConfig (Delay DefaultRetryConfig) = 750000000).
Proof.
  split; [|split].
  - intros res err tr Hrun.
    destruct (retry_loop_shape cfg op (S (Z.to_nat (MaxAttempts cfg))) 1 (Delay cfg) zero None res err tr
                ltac:(lia) ltac:(lia) Hrun)
      as (k & Hk1 & Hkmax & Htr & Hfail & Hout).
    exists k. split; [exact Hk1|]. split; [lia|]. split; [exact Htr|].
    split; [rewrite Htr; apply spec_trace_calls|].
    split; [intros j Hj; apply Hfail; lia|].
    replace (Z.of_nat k) with (1 + Z.of_nat k - 1) by lia. exact Hout.
  - intros H3 H1 H2 Hok.
    unfold RetryWithResult. rewrite H3. simpl.
    destruct (op 1) as [r1 [e1|]] eqn:E1; [|simpl in H1; congruence].
    destruct (op 2) as [r2 [e2|]] eqn:E2; [|simpl in H2; congruence].
    destruct (op 3) as [r3 [e3|]] eqn:E3; [simpl in Hok; congruence|].
    rewrite H3. reflexivity.
  - split; vm_compute; reflexivity.
Qed.

Lemma retry_with_result_contract_witness :
  1 <= MaxAttempts DefaultRetryConfig /\
  RetryWithResult 0%nat DefaultRetryConfig flaky_op =
    (42%nat, None, [RCall 1; RSleep 500000000; RCall 2; RSleep 750000000; RCall 3]).
Proof.
  split; [cbn; lia|].
  exact (proj1 (proj2 (retry_with_result_contract 0%nat DefaultRetryConfig flaky_op
                     ltac:(vm_compute; discriminate)))
              eq_refl ltac:(vm_compute; discriminate)
              ltac:(vm_compute; discriminate) eq_refl).
Defined.

(** C10: with [MaxAttempts <= 0] neither executor invokes the operation:
    [RetryWithResult] returns the zero value with a nil error and [Retry]
    returns a nil error, with no call and no sleep. *)
Theorem retry_nonpositive_attempts {T E : Type} (zero : T) (cfg : RetryConfig)
    (op : Z -> T * option E) (op' : Z -> option E) (Hmax : MaxAttempts cfg <= 0) :
  RetryWithResult zero cfg op = (zero, None, []) /\ Retry cfg op' = (None, []).
Proof.
  unfold Retry, RetryWithResult.
  rewrite !retry_loop_past_max by lia. split; reflexivity.
Qed.

Lemma retry_nonpositive_attempts_witness :
  RetryWithResult 0%nat {| MaxAttempts := 0; Delay := 500000000; Multiplier := f64_1_5 |}
    flaky_op = (0%nat, None, []) /\
  Retry {| MaxAttempts := -1; Delay := 500000000; Multiplier := f64_1_5 |}
    (fun _ : Z => Some "wifi not connected"%string) = (None, []).
Proof.
  split.
  - exact (proj1 (retry_nonpositive_attempts 0%nat
             {| MaxAttempts := 0; Delay := 500000000; Multiplier := f64_1_5 |}
             flaky_op (fun _ : Z => Some "wifi not connected"%string)
             ltac:(simpl; lia))).
  - exact (proj2 (retry_nonpositive_attempts 0%nat
             {| MaxAttempts := -1; Delay := 500000000; Multiplier := f64_1_5 |}
             flaky_op (fun _ : Z => Some "wifi not connected"%string)
             ltac:(simpl; lia))).
Defined.

End RetryFacts.

(* ================================================================== *)
(** ** Proofs: countdown controller *)

Module CountdownFacts.
Import Config Sentry Scenarios SpecSide Observe.

(** A cancellation that finds no pending countdown changes nothing. *)
Lemma CancelShutdown_not_pending m :
  shutdownPending m = false -> CancelShutdown m = (m, false).
Proof. intros H. unfold CancelShutdown. rewrite H. reflexivity. Qed.

(** C1 (code defect): a local cancel issued before the timer fires
    (t < D) can lose against the timer.  The [select] of
    [triggerShutdownWithCountdown] re-reads [s.cancelShutdown] on every
    loop iteration, and [CancelShutdown] replaces that channel after
    closing it; a cancel arriving while the goroutine runs the beep body
    closes the old channel, the next [select] waits on the fresh one, and
    the timer case wins: [CancelShutdown] returned [true], yet the
    protective action is executed and the status stays
    [ShutdownImminent]. *)
Theorem cancel_before_timer_lost :
  run (polling (seen_mgr 2)) lost_cancel_schedule =
  ({| mgr := {| status := StatusShutdownImminent; graceCount := 0;
                phoneEverSeen := true; shutdownPending := false;
                cancelShutdown := 1; closedChans := [0%nat] |};
      phase := Polling |},
   [ECallback StatusGracePeriod; ECallback StatusShutdownImminent;
    ENotify 10; EBeep; EBeep; ECancelReturned true;
    EExecute "shutdown"; ESleep 10])%string.
Proof. reflexivity. Qed.

(** C2 (code defect): a remote cancel command is never acted on.  The
    callback of the always-on listener started by [main.go] has no case
    for "cancel_only" or "cancel_pause", and the listener of
    [ntfy.go] that handles them ([StartShutdownCancelListener]) is never
    started, so the commands change no state and send nothing, in any
    phase: every run is the run with the remote cancel commands removed.
    During a countdown, a "cancel_only" received before the timer fires
    leaves the countdown running; no acknowledgment is sent, the timer
    case executes the protective action and the status stays
    [ShutdownImminent]. *)
Theorem remote_cancel_never_acted_on :
  (forall (s : Sys) (evs : list sys_event),
     run s evs = run s (filter (fun ev => negb (is_remote_cancel ev)) evs)) /\
  run (polling (seen_mgr 2)) remote_cancel_schedule =
  ({| mgr := {| status := StatusShutdownImminent; graceCount := 3;
                phoneEverSeen := true; shutdownPending := false;
                cancelShutdown := 0; closedChans := [] |};
      phase := Polling |},
   [ECallback StatusGracePeriod; ECallback StatusShutdownImminent;
    ENotify 10; EBeep; EExecute "shutdown"; ESleep 10])%string.
Proof.
  split; [|reflexivity].
  intros s evs. revert s. induction evs as [|ev evs IH]; intros s; [reflexivity|].
  destruct (is_remote_cancel ev) eqn:Hev; cbn [filter]; rewrite Hev; cbn [negb].
  - destruct ev as [| | | | | |cmd p]; try discriminate Hev.
    cbn [run]. replace (sys_step s (Remote cmd p)) with (s, @nil effect).
    + rewrite <- IH. destruct (run s evs). reflexivity.
    + destruct cmd; try discriminate Hev; destruct s as [m ph]; destruct ph; reflexivity.
  - cbn [run]. destruct (sys_step s ev) as [s1 e1]. rewrite IH. reflexivity.
Qed.

(** C9, refuted: with [RequirePIN] set, timer expiry goes straight from
    the countdown to [executeShutdown]: no sleep or grace window
    separates the notification and beep from the protective action. *)
Lemma pin_no_grace_window_counterexample :
  RequirePIN (with_pin home_settings) = true /\
  run (polling (seen_mgr 2)) pin_timer_schedule =
  ({| mgr := {| status := StatusShutdownImminent; graceCount := 3;
                phoneEverSeen := true; shutdownPending := false;
                cancelShutdown := 0; closedChans := [] |};
      phase := Polling |},
   [ECallback StatusGracePeriod; ECallback StatusShutdownImminent;
    ENotify 10; EBeep; EExecute "shutdown"; ESleep 10])%string.
Proof. split; reflexivity. Qed.

(** C9, amended: when the countdown takes the timer case it clears
    [shutdownPending] and invokes the protective action at once, whatever
    [RequirePIN] and [ShutdownPIN] are; the only sleep is the monitor
    loop's poll interval after the action. *)
Theorem timer_expiry_executes_at_once (m : SentryManager) (c : Countdown) (ch : nat)
    (Hfired : cd_timerFired c = true) :
  countdown_select m c ch CaseTimer =
    ({| mgr := set_pending m false; phase := Polling |},
     [EExecute (ShutdownAction (cd_settings c)); ESleep (PollInterval (cd_settings c))]).
Proof. unfold countdown_select, case_ready. rewrite Hfired. reflexivity. Qed.

Lemma timer_expiry_executes_at_once_witness :
  let c := {| cd_settings := with_pin home_settings; cd_pc := CdBlocked 0;
              cd_countdown := 0; cd_timerFired := true; cd_tickReady := false |} in
  cd_timerFired c = true /\
  countdown_select (seen_mgr 3) c 0 CaseTimer =
    ({| mgr := set_pending (seen_mgr 3) false; phase := Polling |},
     [EExecute "shutdown"; ESleep 10])%string.
Proof.
  split; [reflexivity|].
  exact (timer_expiry_executes_at_once (seen_mgr 3)
           {| cd_settings := with_pin home_settings; cd_pc := CdBlocked 0;
              cd_countdown := 0; cd_timerFired := true; cd_tickReady := false |}
           0 eq_refl).
Defined.

End CountdownFacts.

(* ================================================================== *)
(** ** Proofs: monitor loop *)

Module MonitorFacts.
Import Network Config Sentry Scenarios SpecSide.

Lemma home_nonempty_eqb (st : Settings) :
  HomeSSID st <> ""%string -> String.eqb (HomeSSID st) "" = false.
Proof. intros H. apply String.eqb_neq. exact H. Qed.

(** C4, refuted: a paused polling cycle off the home network does not
    reset [graceCount] (the [IsPaused] gate comes first and resets
    nothing), so leaving home while paused keeps the count. *)
Lemma grace_kept_when_paused_away_counterexample :
  onHomeNetwork "CoffeeShop" (paused home_settings) = false /\
  graceCount (mgr (fst (run (polling (seen_mgr 2))
                        [Cycle (paused home_settings) false "CoffeeShop" false]))) = 2.
Proof. split; reflexivity. Qed.

(** C4, amended: for a non-empty configured home network name, every
    event (polling cycle, [CancelShutdown], timer, ticker, countdown
    step, remote command) leaves [graceCount] as [grace_after] lists it:
    reset by a loaded, non-paused cycle off the home network, by a
    successful presence check and by cancelling a pending countdown;
    incremented by a failed presence check at home with [phoneEverSeen];
    unchanged otherwise. *)
Theorem grace_count_transitions (s : Sys) (ev : sys_event)
    (Hhome : forall st err ssid alive,
        ev = Cycle st err ssid alive -> HomeSSID st <> ""%string) :
  graceCount (mgr (fst (sys_step s ev))) = grace_after s ev.
Proof.
  destruct s as [m ph].
  destruct ev as [st err ssid alive| | | | |sc|cmd p]; destruct ph as [|c];
    cbn; try reflexivity.
  - specialize (Hhome st err ssid alive eq_refl).
    unfold monitor_iteration, onHomeNetwork.
    rewrite (home_nonempty_eqb st Hhome).
    destruct err, (IsPaused st); cbn; try reflexivity.
    destruct (String.eqb ssid (HomeSSID st)); cbn; try reflexivity.
    destruct (HasDeviceConfigured st), alive, (phoneEverSeen m); cbn; try reflexivity.
    destruct (graceCount m + 1 >=? GraceChecks st); reflexivity.
  - unfold CancelShutdown. destruct (shutdownPending m); reflexivity.
  - unfold CancelShutdown. destruct (shutdownPending m); reflexivity.
  - destruct (cd_pc c); reflexivity.
  - destruct (cd_pc c) as [|ch]; [reflexivity|].
    unfold countdown_select.
    destruct (case_ready m c ch sc); cbn; [|reflexivity].
    destruct sc; cbn; try reflexivity.
    destruct (cd_countdown c >? 0); reflexivity.
Qed.

Lemma grace_count_transitions_witness :
  (forall st err ssid alive,
     Cycle home_settings false "HomeNet" false = Cycle st err ssid alive ->
     HomeSSID st <> ""%string) /\
  graceCount (mgr (fst (sys_step (polling (seen_mgr 2))
                          (Cycle home_settings false "HomeNet" false)))) =
    grace_after (polling (seen_mgr 2)) (Cycle home_settings false "HomeNet" false).
Proof.
  assert (H : forall st err ssid alive,
             Cycle home_settings false "HomeNet" false = Cycle st err ssid alive ->
             HomeSSID st <> ""%string).
  { intros st err ssid alive Heq. injection Heq as <- _ _ _. discriminate. }
  split; [exact H|].
  exact (grace_count_transitions (polling (seen_mgr 2))
           (Cycle home_settings false "HomeNet" false) H).
Defined.

(** C3, refuted: with [graceThreshold = 3], three absent checks show the
    status callback [GracePeriod], [GracePeriod], [GracePeriod],
    [ShutdownImminent]: the third cycle reports [GracePeriod] before
    [ShutdownImminent], so the observed sequence is not
    [GracePeriod(1) -> GracePeriod(2) -> ShutdownImminent]. *)
Lemma three_absent_callbacks_counterexample :
  callbacks (snd (run (polling (seen_mgr 0)) (three_absent home_settings))) =
    [StatusGracePeriod; StatusGracePeriod; StatusGracePeriod; StatusShutdownImminent] /\
  callbacks (snd (run (polling (seen_mgr 0)) (three_absent home_settings))) <>
    [StatusGracePeriod; StatusGracePeriod; StatusShutdownImminent].
Proof. split; [reflexivity | discriminate]. Qed.

(** C3, amended: for a non-empty configured home network name, a polling
    cycle starts the countdown iff its configuration loads, protection is
    not paused, it is on the home network, a device is configured and
    absent, [phoneEverSeen] holds and the incremented [graceCount]
    reaches [GraceChecks] (any threshold: 1, 5, 100, ...); the count is
    then [graceCount + 1].  With [GraceChecks = 3], [graceCount = 0] and
    three absent checks at home, the callback observes [GracePeriod] three
    times, then [ShutdownImminent], and the countdown starts. *)
Theorem escalation_iff_grace_reaches_threshold (m : SentryManager) (st : Settings)
    (err : bool) (ssid : string) (alive : bool) (Hhome : HomeSSID st <> ""%string) :
  (snd (monitor_iteration m st err ssid alive) = true <->
   err = false /\ IsPaused st = false /\ onHomeNetwork ssid st = true /\
   HasDeviceConfigured st = true /\ alive = false /\ phoneEverSeen m = true /\
   graceCount m + 1 >= GraceChecks st) /\
  (snd (monitor_iteration m st err ssid alive) = true ->
   graceCount (fst (fst (monitor_iteration m st err ssid alive))) = graceCount m + 1) /\
  (GraceChecks st = 3 -> IsPaused st = false -> HasDeviceConfigured st = true ->
   phoneEverSeen m = true -> graceCount m = 0 -> shutdownPending m = false ->
   callbacks (snd (run (polling m) (three_absent st))) =
     [StatusGracePeriod; StatusGracePeriod; StatusGracePeriod; StatusShutdownImminent] /\
   graceCount (mgr (fst (run (polling m) (three_absent st)))) = 3 /\
   shutdownPending (mgr (fst (run (polling m) (three_absent st)))) = true /\
   exists c, phase (fst (run (polling m) (three_absent st))) = InCountdown c /\
             cd_settings c = st /\ cd_pc c = CdHead).
Proof.
  split; [|split].
  - unfold monitor_iteration, onHomeNetwork. rewrite (home_nonempty_eqb st Hhome).
    destruct err, (IsPaused st), (String.eqb ssid (HomeSSID st)),
      (HasDeviceConfigured st), alive, (phoneEverSeen m) eqn:Hs; cbn;
      try (split; [discriminate | intros; intuition congruence]).
    destruct (graceCount m + 1 >=? GraceChecks st) eqn:Hg; cbn.
    + apply Z.geb_le in Hg. split; [intros _; intuition lia | reflexivity].
    + rewrite Z.geb_leb in Hg; apply Z.leb_gt in Hg. split; [discriminate | intros; lia].
  - unfold monitor_iteration.
    destruct err, (IsPaused st), (String.eqb ssid (HomeSSID st)),
      (HasDeviceConfigured st), alive, (phoneEverSeen m); cbn; try discriminate.
    destruct (graceCount m + 1 >=? GraceChecks st); cbn; [reflexivity | discriminate].
  - intros H3 Hp Hd Hs H0 Hpend.
    unfold three_absent, monitor_iteration. cbn.
    repeat progress (rewrite ?Hp, ?String.eqb_refl, ?Hd, ?Hs, ?H0, ?H3, ?Hpend; cbn).
    split; [reflexivity|]. split; [reflexivity|]. split; [reflexivity|].
    eexists. split; [reflexivity|]. split; reflexivity.
Qed.

Lemma escalation_iff_grace_reaches_threshold_witness :
  HomeSSID home_settings <> ""%string /\
  snd (monitor_iteration (seen_mgr 2) home_settings false "HomeNet" false) = true /\
  callbacks (snd (run (polling (seen_mgr 0)) (three_absent home_settings))) =
    [StatusGracePeriod; StatusGracePeriod; StatusGracePeriod; StatusShutdownImminent].
Proof.
  assert (Hh : HomeSSID home_settings <> ""%string) by discriminate.
  split; [exact Hh|]. split.
  - apply (proj1 (escalation_iff_grace_reaches_threshold (seen_mgr 2) home_settings
                    false "HomeNet" false Hh)).
    cbn. repeat split; lia.
  - exact (proj1 (proj2 (proj2 (escalation_iff_grace_reaches_threshold (seen_mgr 0)
             home_settings false "HomeNet" false Hh))
             eq_refl eq_refl eq_refl eq_refl eq_refl eq_refl)).
Defined.

(** Every step, in every phase, for the sticky flag and the state file. *)
Ltac case_all :=
  repeat (cbn in *;
          match goal with
          | |- context [if ?b then _ else _] => let E := fresh "E" in destruct b eqn:E
          | |- context [match ?x with CdHead => _ | CdBlocked _ => _ end] => destruct x
          | |- context [match ?x with CaseBeep => _ | CaseTimer => _ | CaseCancel => _ end] =>
              destruct x
          | |- context [match ?x with CmdCancelAndPause => _ | CmdCancelOnly => _
                        | CmdPause => _ | CmdResume => _ | CmdStatus => _ end] => destruct x
          end).

Lemma step_ever_seen_sticky (s : Sys) (ev : sys_event) :
  phoneEverSeen (mgr s) = true ->
  phoneEverSeen (mgr (fst (sys_step s ev))) = true /\
  save_count (snd (sys_step s ev)) = 0%nat /\
  ~ In (ECallback StatusWaitingForPhone) (snd (sys_step s ev)).
Proof.
  destruct s as [m ph]; cbn; intros Hs.
  destruct ev; destruct ph;
    unfold sys_step, monitor_iteration, countdown_select, CancelShutdown, remote_callback;
    cbn; rewrite ?Hs; case_all; rewrite ?Hs in *; try discriminate;
    cbn; rewrite ?Hs; intuition (try discriminate; try congruence).
Qed.

Lemma step_save (s : Sys) (ev : sys_event) :
  (save_count (snd (sys_step s ev)) =
     if phoneEverSeen (mgr s) then 0%nat
     else if phoneEverSeen (mgr (fst (sys_step s ev))) then 1%nat else 0%nat) /\
  (forall b, In (ESaveState b) (snd (sys_step s ev)) -> b = true).
Proof.
  destruct s as [m ph]; cbn.
  destruct ev; destruct ph;
    unfold sys_step, monitor_iteration, countdown_select, CancelShutdown, remote_callback;
    cbn; case_all; cbn in *; intuition (try discriminate; try congruence).
Qed.

Lemma save_count_app (a b : list effect) :
  save_count (a ++ b) = (save_count a + save_count b)%nat.
Proof. unfold save_count. rewrite filter_app, length_app. reflexivity. Qed.

(** Over any schedule, once [phoneEverSeen] holds it keeps holding, the
    state file is not written and [WaitingForPhone] is never reported. *)
Lemma run_sticky (s : Sys) (evs : list sys_event) :
  phoneEverSeen (mgr s) = true ->
  phoneEverSeen (mgr (fst (run s evs))) = true /\
  save_count (snd (run s evs)) = 0%nat /\
  ~ In (ECallback StatusWaitingForPhone) (snd (run s evs)).
Proof.
  revert s; induction evs as [|ev evs IH]; intros s Hs; cbn [run].
  - cbn. split; [exact Hs|]. split; [reflexivity | intros []].
  - pose proof (step_ever_seen_sticky s ev Hs) as [H1 [H2 H3]].
    destruct (sys_step s ev) as [s1 e1]; cbn [fst snd] in H1, H2, H3.
    destruct (IH s1 H1) as [G1 [G2 G3]].
    destruct (run s1 evs) as [s2 e2]; cbn [fst snd] in *.
    rewrite save_count_app, H2, G2.
    split; [exact G1|]. split; [reflexivity|].
    rewrite in_app_iff. tauto.
Qed.

(** Over any schedule, the state file is written once if [phoneEverSeen]
    flips to true and never otherwise, and always with [true]. *)
Lemma run_save (s : Sys) (evs : list sys_event) :
  (save_count (snd (run s evs)) =
     if phoneEverSeen (mgr s) then 0%nat
     else if phoneEverSeen (mgr (fst (run s evs))) then 1%nat else 0%nat) /\
  (forall b, In (ESaveState b) (snd (run s evs)) -> b = true).
Proof.
  revert s; induction evs as [|ev evs IH]; intros s; cbn [run].
  - cbn. split; [destruct (phoneEverSeen (mgr s)); reflexivity | intros b []].
  - pose proof (step_save s ev) as [S1 S2].
    pose proof (step_ever_seen_sticky s ev) as Sticky.
    destruct (sys_step s ev) as [s1 e1]; cbn [fst snd] in S1, S2, Sticky.
    destruct (IH s1) as [I1 I2].
    pose proof (run_sticky s1 evs) as Sticky1.
    destruct (run s1 evs) as [s2 e2]; cbn [fst snd] in *.
    split.
    + rewrite save_count_app, S1, I1.
      destruct (phoneEverSeen (mgr s)) eqn:Hs.
      * destruct (Sticky eq_refl) as [Hs1 _]. rewrite Hs1. reflexivity.
      * destruct (phoneEverSeen (mgr s1)) eqn:Hs1; [|reflexivity].
        destruct (Sticky1 eq_refl) as [Hs2 _]. rewrite Hs2. reflexivity.
    + intros b Hb. apply in_app_iff in Hb as [Hb|Hb]; [apply S2 | apply I2]; exact Hb.
Qed.

(** C6, refuted: a paused polling cycle at home, with the configured
    device absent and [phoneEverSeen = false], reports [Paused], not
    [WaitingForPhone]: the pause gate comes before the presence logic. *)
Lemma paused_unseen_absent_counterexample :
  onHomeNetwork "HomeNet" (paused home_settings) = true /\
  HasDeviceConfigured (paused home_settings) = true /\
  phoneEverSeen (NewSentryManager false) = false /\
  callbacks (snd (run (polling (NewSentryManager false))
                   [Cycle (paused home_settings) false "HomeNet" false])) = [StatusPaused].
Proof. repeat split. Qed.

(** C6, amended: for a non-empty configured home network name, a polling
    cycle reports [WaitingForPhone] iff its configuration loads, protection
    is not paused, it is on the home network, a device is configured and
    absent, and [phoneEverSeen] is false; it then leaves [graceCount]
    unchanged and starts no countdown.  Over any schedule of cycles,
    countdown steps, cancellations and remote commands, once
    [phoneEverSeen] holds it keeps holding and [WaitingForPhone] is never
    reported again. *)
Theorem waiting_for_phone_iff_and_sticky (m : SentryManager) (st : Settings)
    (err : bool) (ssid : string) (alive : bool) (Hhome : HomeSSID st <> ""%string) :
  (In (ECallback StatusWaitingForPhone) (snd (fst (monitor_iteration m st err ssid alive))) <->
   err = false /\ IsPaused st = false /\ onHomeNetwork ssid st = true /\
   HasDeviceConfigured st = true /\ alive = false /\ phoneEverSeen m = false) /\
  (err = false -> IsPaused st = false -> onHomeNetwork ssid st = true ->
   HasDeviceConfigured st = true -> alive = false -> phoneEverSeen m = false ->
   status (fst (fst (monitor_iteration m st err ssid alive))) = StatusWaitingForPhone /\
   graceCount (fst (fst (monitor_iteration m st err ssid alive))) = graceCount m /\
   snd (monitor_iteration m st err ssid alive) = false) /\
  (forall (s : Sys) (evs : list sys_event),
   phoneEverSeen (mgr s) = true ->
   phoneEverSeen (mgr (fst (run s evs))) = true /\
   ~ In (ECallback StatusWaitingForPhone) (snd (run s evs))).
Proof.
  split; [|split].
  - unfold monitor_iteration, onHomeNetwork. rewrite (home_nonempty_eqb st Hhome).
    destruct err, (IsPaused st), (String.eqb ssid (HomeSSID st)),
      (HasDeviceConfigured st), alive, (phoneEverSeen m) eqn:Hs; cbn; rewrite ?Hs; cbn;
      try destruct (graceCount m + 1 >=? GraceChecks st); cbn;
      intuition (try discriminate; try congruence).
  - intros -> Hp Hon Hd -> Hs.
    unfold onHomeNetwork in Hon. apply andb_prop in Hon as [Heq _].
    unfold monitor_iteration. rewrite Hp, Heq, Hd, Hs. cbn.
    split; [reflexivity | split; reflexivity].
  - intros s evs Hs. destruct (run_sticky s evs Hs) as [H1 [_ H3]]. split; assumption.
Qed.

Lemma waiting_for_phone_iff_and_sticky_witness :
  HomeSSID home_settings <> ""%string /\
  In (ECallback StatusWaitingForPhone)
     (snd (fst (monitor_iteration (NewSentryManager false) home_settings false "HomeNet" false))).
Proof.
  assert (Hh : HomeSSID home_settings <> ""%string) by discriminate.
  split; [exact Hh|].
  apply (proj2 (proj1 (waiting_for_phone_iff_and_sticky (NewSentryManager false)
                         home_settings false "HomeNet" false Hh))).
  repeat split.
Defined.

(** C8: a successful presence check at home (configuration loaded, not
    paused, a device configured) sets status [Monitoring] and
    [graceCount = 0], makes [phoneEverSeen] true and starts no countdown;
    the state file is written (with [true]) in that cycle iff
    [phoneEverSeen] was false.  Every event writes the state file exactly
    when it flips [phoneEverSeen] to true, and over any schedule the file
    is written once if the flag flips and never otherwise. *)
Theorem presence_success_and_single_save (m : SentryManager) (st : Settings)
    (ssid : string) (Hp : IsPaused st = false) (Hon : onHomeNetwork ssid st = true)
    (Hdev : HasDeviceConfigured st = true) :
  status (fst (fst (monitor_iteration m st false ssid true))) = StatusMonitoring /\
  graceCount (fst (fst (monitor_iteration m st false ssid true))) = 0 /\
  phoneEverSeen (fst (fst (monitor_iteration m st false ssid true))) = true /\
  snd (monitor_iteration m st false ssid true) = false /\
  (phoneEverSeen m = false ->
   In (ESaveState true) (snd (fst (monitor_iteration m st false ssid true))) /\
   save_count (snd (fst (monitor_iteration m st false ssid true))) = 1%nat) /\
  (phoneEverSeen m = true ->
   save_count (snd (fst (monitor_iteration m st false ssid true))) = 0%nat) /\
  (forall (s : Sys) (ev : sys_event),
   save_count (snd (sys_step s ev)) =
     if phoneEverSeen (mgr s) then 0%nat
     else if phoneEverSeen (mgr (fst (sys_step s ev))) then 1%nat else 0%nat) /\
  (forall (s : Sys) (evs : list sys_event),
   (save_count (snd (run s evs)) =
      if phoneEverSeen (mgr s) then 0%nat
      else if phoneEverSeen (mgr (fst (run s evs))) then 1%nat else 0%nat) /\
   (forall b, In (ESaveState b) (snd (run s evs)) -> b = true)).
Proof.
  unfold onHomeNetwork in Hon. apply andb_prop in Hon as [Heq _].
  split; [|split; [|split; [|split; [|split; [|split; [|split]]]]]];
    try (unfold monitor_iteration; rewrite Hp, Heq, Hdev; cbn;
         destruct (phoneEverSeen m) eqn:Hs; cbn; rewrite ?Hs; cbn;
         intuition (try discriminate; try congruence)).
  - intros s ev. exact (proj1 (step_save s ev)).
  - intros s evs. exact (run_save s evs).
Qed.

Lemma presence_success_and_single_save_witness :
  IsPaused home_settings = false /\ onHomeNetwork "HomeNet" home_settings = true /\
  HasDeviceConfigured home_settings = true /\
  status (fst (fst (monitor_iteration (NewSentryManager false) home_settings false
                      "HomeNet" true))) = StatusMonitoring.
Proof.
  split; [reflexivity|]. split; [reflexivity|]. split; [reflexivity|].
  exact (proj1 (presence_success_and_single_save (NewSentryManager false)
                  home_settings "HomeNet" eq_refl eq_refl eq_refl)).
Defined.

(** C5, refuted: after exhausted retries the network-name query returns
    the literal "Unknown", which matches a home network named "Unknown"
    (the presence logic then runs as at home); and with an empty home
    network name an empty network name is treated as home (the cycle
    reports [WaitingForPhone]), although [onHomeNetwork] is false. *)
Lemma unknown_sentinel_matches_home_counterexample :
  GetCurrentSSID "windows" disconnected_query = "Unknown"%string /\
  onHomeNetwork (GetCurrentSSID "windows" disconnected_query)
    (with_home "Unknown" home_settings) = true /\
  status (fst (fst (monitor_iteration (seen_mgr 0) (with_home "Unknown" home_settings)
                      false (GetCurrentSSID "windows" disconnected_query) true)))
    = StatusMonitoring /\
  GetCurrentSSID "windows" (fun _ => ""%string) = ""%string /\
  onHomeNetwork "" (with_home "" home_settings) = false /\
  status (fst (fst (monitor_iteration (NewSentryManager false) (with_home "" home_settings)
                      false (GetCurrentSSID "windows" (fun _ => ""%string)) false)))
    = StatusWaitingForPhone.
Proof. repeat split. Qed.

(** C5, amended: for a non-empty configured home network name, a loaded,
    non-paused polling cycle runs the home branch (with the current name
    equal to the home name) iff [onHomeNetwork] holds, and otherwise
    reports [Roaming], clears [graceCount] and sleeps.  When every netsh
    answer of the three attempts is "Disconnected" or "Unknown", the
    network-name query returns the sentinel "Unknown", which counts as
    the home network exactly when the home network name is "Unknown". *)
Theorem home_test_and_sentinel (m : SentryManager) (st : Settings) (ssid : string)
    (alive : bool) (query : Z -> string)
    (Hhome : HomeSSID st <> ""%string) (Hp : IsPaused st = false)
    (Hq : forall a, 1 <= a <= 3 ->
          query a = "Disconnected"%string \/ query a = "Unknown"%string) :
  monitor_iteration m st false ssid alive =
    (if onHomeNetwork ssid st then monitor_iteration m st false (HomeSSID st) alive
     else (set_grace (set_status m StatusRoaming) 0,
           [ECallback StatusRoaming; ESleep (PollInterval st)], false)) /\
  GetCurrentSSID "windows" query = "Unknown"%string /\
  onHomeNetwork (GetCurrentSSID "windows" query) st =
    String.eqb (HomeSSID st) "Unknown".
Proof.
  assert (Hsent : GetCurrentSSID "windows" query = "Unknown"%string).
  { unfold GetCurrentSSID, Retry.RetryWithResult.
    change (S (Z.to_nat (Retry.MaxAttempts Retry.DefaultRetryConfig))) with 4%nat. cbn -[Retry.next_delay].
    destruct (Hq 1 ltac:(lia)) as [E1|E1]; rewrite E1; cbn -[Retry.next_delay];
    destruct (Hq 2 ltac:(lia)) as [E2|E2]; rewrite E2; cbn -[Retry.next_delay];
    destruct (Hq 3 ltac:(lia)) as [E3|E3]; rewrite E3; cbn -[Retry.next_delay]; reflexivity. }
  split; [|split; [exact Hsent|]].
  - unfold onHomeNetwork. rewrite (home_nonempty_eqb st Hhome), andb_true_r.
    destruct (String.eqb ssid (HomeSSID st)) eqn:E.
    + apply String.eqb_eq in E. subst ssid. reflexivity.
    + unfold monitor_iteration. rewrite Hp, E. reflexivity.
  - rewrite Hsent. unfold onHomeNetwork. rewrite (home_nonempty_eqb st Hhome), andb_true_r.
    apply String.eqb_sym.
Qed.

Lemma home_test_and_sentinel_witness :
  HomeSSID home_settings <> ""%string /\ IsPaused home_settings = false /\
  (forall a, 1 <= a <= 3 ->
   disconnected_query a = "Disconnected"%string \/ disconnected_query a = "Unknown"%string) /\
  GetCurrentSSID "windows" disconnected_query = "Unknown"%string.
Proof.
  assert (Hh : HomeSSID home_settings <> ""%string) by discriminate.
  assert (Hq : forall a, 1 <= a <= 3 ->
          disconnected_query a = "Disconnected"%string \/
          disconnected_query a = "Unknown"%string).
  { intros a _. left. reflexivity. }
  split; [exact Hh|]. split; [reflexivity|]. split; [exact Hq|].
  exact (proj1 (proj2 (home_test_and_sentinel (seen_mgr 0) home_settings "HomeNet" true
                         disconnected_query Hh eq_refl Hq))).
Defined.

End MonitorFacts.

(* ================================================================== *)
(** ** Proofs: Go text functions *)

Module TextFacts.
Import GoText Shapes.

Lemma bytes_str (l : list byte) : bytes (str l) = l.
Proof. apply list_byte_of_string_of_list_byte. Qed.

Lemma str_bytes (s : string) : str (bytes s) = s.
Proof. apply string_of_list_byte_of_string. Qed.

Lemma space_len_le (l : list byte) : (space_len l <= List.length l)%nat.
Proof.
  destruct l as [|b [|b1 [|b2 r]]]; cbn; try lia;
  repeat match goal with |- context [if ?c then _ else _] => destruct c end; cbn; lia.
Qed.

Lemma space_len_rev_le (l : list byte) : (space_len_rev l <= List.length l)%nat.
Proof.
  destruct l as [|b [|b1 [|b2 r]]]; cbn; try lia;
  repeat match goal with |- context [if ?c then _ else _] => destruct c end; cbn; lia.
Qed.

Lemma skipn_length_lt (k : nat) (l : list byte) :
  (0 < k)%nat -> (k <= List.length l)%nat -> (List.length (skipn k l) < List.length l)%nat.
Proof. intros. rewrite length_skipn. lia. Qed.

Lemma trim_left_fuel_clean (n : nat) (l : list byte) :
  (List.length l <= n)%nat -> space_len (trim_left_fuel n l) = 0%nat.
Proof.
  revert l; induction n as [|n IH]; intros l Hl.
  - destruct l; [reflexivity | cbn in Hl; lia].
  - cbn. destruct (space_len l) as [|k] eqn:E; [exact E|].
    apply IH. change (List.length (skipn (S k) l) <= n)%nat.
    pose proof (space_len_le l) as Hle.
    assert (Hlt : (List.length (skipn (S k) l) < List.length l)%nat)
      by (apply skipn_length_lt; lia).
    lia.
Qed.

Lemma trim_rev_fuel_clean (n : nat) (l : list byte) :
  (List.length l <= n)%nat -> space_len_rev (trim_rev_fuel n l) = 0%nat.
Proof.
  revert l; induction n as [|n IH]; intros l Hl.
  - destruct l; [reflexivity | cbn in Hl; lia].
  - cbn. destruct (space_len_rev l) as [|k] eqn:E; [exact E|].
    apply IH. change (List.length (skipn (S k) l) <= n)%nat.
    pose proof (space_len_rev_le l) as Hle.
    assert (Hlt : (List.length (skipn (S k) l) < List.length l)%nat)
      by (apply skipn_length_lt; lia).
    lia.
Qed.

Lemma trim_rev_fuel_suffix (n : nat) (l : list byte) :
  exists p, l = p ++ trim_rev_fuel n l.
Proof.
  revert l; induction n as [|n IH]; intros l.
  - exists []. reflexivity.
  - cbn [trim_rev_fuel]. destruct (space_len_rev l) as [|k]; [exists []; reflexivity|].
    destruct (IH (skipn (S k) l)) as [p Hp].
    exists (firstn (S k) l ++ p). rewrite <- app_assoc, <- Hp.
    symmetry; apply firstn_skipn.
Qed.

Lemma trim_left_fuel_noop (n : nat) (l : list byte) :
  space_len l = 0%nat -> trim_left_fuel n l = l.
Proof. intros H; destruct n; cbn; [reflexivity | now rewrite H]. Qed.

Lemma trim_rev_fuel_noop (n : nat) (l : list byte) :
  space_len_rev l = 0%nat -> trim_rev_fuel n l = l.
Proof. intros H; destruct n; cbn; [reflexivity | now rewrite H]. Qed.

(** The rune read at the head does not depend on what follows it. *)
Lemma space_len_app_zero (p q : list byte) :
  space_len (p ++ q) = 0%nat -> space_len p = 0%nat.
Proof.
  destruct p as [|b [|b1 [|b2 r]]]; cbn; auto;
  repeat match goal with |- context [if ?c then _ else _] => destruct c end; cbn; auto;
  destruct q as [|c q]; cbn; auto;
  repeat match goal with |- context [if ?c then _ else _] => destruct c end; cbn; auto.
Qed.

Lemma TrimLeftSpace_clean (l : list byte) : space_len (TrimLeftSpace l) = 0%nat.
Proof. apply trim_left_fuel_clean; lia. Qed.

Lemma TrimRightSpace_clean (l : list byte) : space_len_rev (rev (TrimRightSpace l)) = 0%nat.
Proof. unfold TrimRightSpace. rewrite rev_involutive. apply trim_rev_fuel_clean. rewrite length_rev; lia. Qed.

Lemma TrimRightSpace_prefix (l : list byte) : exists q, l = TrimRightSpace l ++ q.
Proof.
  unfold TrimRightSpace.
  destruct (trim_rev_fuel_suffix (List.length l) (rev l)) as [p Hp].
  exists (rev p). rewrite <- rev_app_distr, <- Hp, rev_involutive. reflexivity.
Qed.

Lemma TrimLeftSpace_noop (l : list byte) : space_len l = 0%nat -> TrimLeftSpace l = l.
Proof. apply trim_left_fuel_noop. Qed.

Lemma TrimRightSpace_noop (l : list byte) :
  space_len_rev (rev l) = 0%nat -> TrimRightSpace l = l.
Proof.
  intros H. unfold TrimRightSpace. rewrite trim_rev_fuel_noop by exact H.
  apply rev_involutive.
Qed.

(** [strings.TrimSpace] leaves a result with no white space at either end,
    so trimming twice is trimming once. *)
Lemma TrimSpace_bytes_clean (s : string) :
  space_len (bytes (TrimSpace s)) = 0%nat /\
  space_len_rev (rev (bytes (TrimSpace s))) = 0%nat.
Proof.
  unfold TrimSpace. rewrite bytes_str. split; [|apply TrimRightSpace_clean].
  destruct (TrimRightSpace_prefix (TrimLeftSpace (bytes s))) as [q Hq].
  apply (space_len_app_zero _ q). rewrite <- Hq. apply TrimLeftSpace_clean.
Qed.

Lemma TrimSpace_idem (s : string) : TrimSpace (TrimSpace s) = TrimSpace s.
Proof.
  destruct (TrimSpace_bytes_clean s) as [H1 H2].
  unfold TrimSpace at 1. rewrite TrimLeftSpace_noop by exact H1.
  rewrite TrimRightSpace_noop by exact H2. apply str_bytes.
Qed.

(** Facts about single bytes, checked on all 256 values. *)
Lemma ascii_lower_nonspace (b : byte) : ascii_nonspace (ascii_lower b) = ascii_nonspace b.
Proof. destruct b; vm_compute; reflexivity. Qed.

Lemma ascii_lower_idem (b : byte) : ascii_lower (ascii_lower b) = ascii_lower b.
Proof. destruct b; vm_compute; reflexivity. Qed.

Lemma ascii_lower_colon (b : byte) : Byte.eqb (ascii_lower b) ":" = Byte.eqb b ":".
Proof. destruct b; vm_compute; reflexivity. Qed.

Lemma hex_lower (b : byte) : is_hex b = true -> is_lower_hex (ascii_lower b) = true.
Proof. destruct b; vm_compute; first [reflexivity | discriminate | tauto]. Qed.

Lemma lower_hex_fix (b : byte) : is_lower_hex b = true -> ascii_lower b = b.
Proof. destruct b; vm_compute; first [reflexivity | discriminate | tauto]. Qed.

Lemma lower_hex_hex (b : byte) : is_lower_hex b = true -> is_hex b = true.
Proof. destruct b; vm_compute; first [reflexivity | discriminate | tauto]. Qed.

Lemma hex_nonspace (b : byte) : is_hex b = true -> ascii_nonspace b = true.
Proof. destruct b; vm_compute; first [reflexivity | discriminate | tauto]. Qed.

Lemma digit_nonspace (b : byte) : is_digit b = true -> ascii_nonspace b = true.
Proof. destruct b; vm_compute; first [reflexivity | discriminate | tauto]. Qed.

Lemma hex_not_colon (b : byte) : is_hex b = true -> Byte.eqb b ":" = false.
Proof. destruct b; vm_compute; first [reflexivity | discriminate | tauto]. Qed.

Lemma nonspace_head (b : byte) (r : list byte) :
  ascii_nonspace b = true -> space_len (b :: r) = 0%nat.
Proof.
  destruct b; intro H; vm_compute in H; try discriminate H;
  destruct r as [|b1 [|b2 r]]; reflexivity.
Qed.

Lemma three_space_last (b0 b1 b2 : byte) :
  ascii_nonspace b2 = true -> three_space b0 b1 b2 = false.
Proof.
  intro H. unfold three_space.
  replace (Byte.eqb b2 x80) with false by (destruct b2; vm_compute in *; congruence).
  replace (in_range x80 x8a b2 || Byte.eqb b2 xa8 || Byte.eqb b2 xa9 || Byte.eqb b2 xaf)
    with false by (destruct b2; vm_compute in *; congruence).
  replace (Byte.eqb b2 x9f) with false by (destruct b2; vm_compute in *; congruence).
  rewrite !andb_false_r. reflexivity.
Qed.

Lemma nonspace_last (b : byte) (r : list byte) :
  ascii_nonspace b = true -> space_len_rev (b :: r) = 0%nat.
Proof.
  intros H. unfold space_len_rev.
  replace (is_ascii_space b) with false
    by (destruct b; vm_compute in *; congruence).
  destruct r as [|b1 [|b2 r]]; [reflexivity| |].
  - replace (Byte.eqb b x85 || Byte.eqb b xa0) with false
      by (destruct b; vm_compute in *; congruence).
    rewrite andb_false_r. reflexivity.
  - replace (Byte.eqb b x85 || Byte.eqb b xa0) with false
      by (destruct b; vm_compute in *; congruence).
    rewrite andb_false_r, three_space_last by exact H. reflexivity.
Qed.

Lemma last_in (b d : byte) (m : list byte) : In (last (b :: m) d) (b :: m).
Proof.
  revert b; induction m as [|c m IH]; intros b; [left; reflexivity|].
  right. change (last (b :: c :: m) d) with (last (c :: m) d). apply IH.
Qed.

(** A text whose first and last bytes are ASCII and not white space is
    left as it is by [TrimSpace]. *)
Lemma TrimSpace_edges (u : list byte) (b e : byte) (m : list byte) :
  u = b :: m -> ascii_nonspace b = true -> ascii_nonspace (last u e) = true ->
  TrimSpace (str u) = str u.
Proof.
  intros -> Hb He. unfold TrimSpace. rewrite bytes_str.
  rewrite TrimLeftSpace_noop by (apply nonspace_head; exact Hb).
  rewrite TrimRightSpace_noop; [reflexivity|].
  destruct (rev (b :: m)) as [|x r] eqn:Er.
  - exfalso. apply (f_equal (@List.length byte)) in Er. rewrite length_rev in Er. discriminate.
  - apply nonspace_last.
    assert (Hx : last (b :: m) e = x).
    { rewrite <- (rev_involutive (b :: m)), Er. cbn. apply last_last. }
    rewrite <- Hx. exact He.
Qed.

(** White space around a text is what [TrimSpace] removes. *)
Lemma trim_left_fuel_pad (p x : list byte) (n : nat) :
  forallb is_ascii_space p = true -> space_len x = 0%nat -> (List.length p <= n)%nat ->
  trim_left_fuel n (p ++ x) = x.
Proof.
  revert n; induction p as [|b p IH]; intros n Hp Hx Hn.
  - apply trim_left_fuel_noop, Hx.
  - cbn in Hp. apply andb_true_iff in Hp as [Hb Hp].
    destruct n as [|n]; [cbn in Hn; lia|].
    cbn [trim_left_fuel app]. unfold space_len at 1. rewrite Hb.
    cbn [skipn]. apply IH; auto. cbn in Hn; lia.
Qed.

Lemma trim_rev_fuel_pad (p x : list byte) (n : nat) :
  forallb is_ascii_space p = true -> space_len_rev x = 0%nat -> (List.length p <= n)%nat ->
  trim_rev_fuel n (p ++ x) = x.
Proof.
  revert n; induction p as [|b p IH]; intros n Hp Hx Hn.
  - apply trim_rev_fuel_noop, Hx.
  - cbn in Hp. apply andb_true_iff in Hp as [Hb Hp].
    destruct n as [|n]; [cbn in Hn; lia|].
    cbn [trim_rev_fuel app]. unfold space_len_rev at 1. rewrite Hb.
    cbn [skipn]. apply IH; auto. cbn in Hn; lia.
Qed.

Lemma TrimSpace_pad (p u q : list byte) (b e : byte) (m : list byte) :
  forallb is_ascii_space p = true -> forallb is_ascii_space q = true ->
  u = b :: m -> ascii_nonspace b = true -> ascii_nonspace (last u e) = true ->
  TrimSpace (str (p ++ u ++ q)) = str u.
Proof.
  intros Hp Hq Hu Hb He. unfold TrimSpace. rewrite bytes_str.
  assert (H1 : space_len (u ++ q) = 0%nat) by (rewrite Hu; apply nonspace_head, Hb).
  unfold TrimLeftSpace. rewrite (trim_left_fuel_pad p (u ++ q)); auto.
  2:{ rewrite length_app. lia. }
  assert (H2 : space_len_rev (rev u) = 0%nat).
  { destruct (rev u) as [|x r] eqn:Er.
    - exfalso. subst u. apply (f_equal (@List.length byte)) in Er.
      rewrite length_rev in Er. discriminate.
    - apply nonspace_last.
      assert (Hx : last u e = x).
      { rewrite <- (rev_involutive u), Er. cbn. apply last_last. }
      rewrite <- Hx. exact He. }
  assert (H3 : forallb is_ascii_space (rev q) = true).
  { rewrite forallb_forall in *. intros y Hy. apply Hq. apply in_rev, Hy. }
  unfold TrimRightSpace. rewrite rev_app_distr, trim_rev_fuel_pad; auto.
  - rewrite rev_involutive. reflexivity.
  - rewrite length_app, !length_rev. lia.
Qed.

End TextFacts.

(* ================================================================== *)
(** ** Proofs: MAC sanitizing *)

Module MacFacts.
Import Config GoText Validation Shapes TextFacts.

Lemma str_cons_nonempty (b : byte) (m : list byte) : String.eqb (str (b :: m)) "" = false.
Proof. reflexivity. Qed.

Lemma replace_colon_hex (a : byte) :
  is_hex a = true ->
  (if Byte.eqb (ascii_lower a) ":" then ["-"%byte] else [ascii_lower a]) = [ascii_lower a].
Proof. intros H. rewrite ascii_lower_colon, hex_not_colon by exact H. reflexivity. Qed.

Lemma replace_colon_sep (s : byte) :
  is_mac_sep s = true ->
  (if Byte.eqb (ascii_lower s) ":" then ["-"%byte] else [ascii_lower s]) = ["-"%byte].
Proof. destruct s; vm_compute; first [reflexivity | discriminate | tauto]. Qed.

Lemma replace_colon_lower_hex (a : byte) :
  is_lower_hex a = true ->
  (if Byte.eqb (ascii_lower a) ":" then ["-"%byte] else [ascii_lower a]) = [a].
Proof. destruct a; vm_compute; first [reflexivity | discriminate | tauto]. Qed.

Ltac split_bools :=
  repeat match goal with
         | H : (_ && _)%bool = true |- _ => apply andb_true_iff in H as [? ?]
         | H : forallb _ (_ :: _) = true |- _ => cbn [forallb] in H
         | H : forallb _ [] = true |- _ => clear H
         end.

(** The successful outputs of [SanitizeMAC] are the empty string and the
    canonical form. *)
Lemma SanitizeMAC_out (s v : string) :
  SanitizeMAC s = (v, None) -> v = ""%string \/ mac_canonical (bytes v) = true.
Proof.
  unfold SanitizeMAC. set (t := TrimSpace s).
  destruct (String.eqb t "") eqn:E0; [intros [= <-]; left; reflexivity|].
  destruct (macCompact_match (bytes t)) eqn:E1.
  - intros [= <-]. right. rewrite bytes_str.
    unfold macCompact_match in E1. apply andb_true_iff in E1 as [Hl Hh].
    destruct (bytes t) as [|a1 [|a2 [|b1 [|b2 [|c1 [|c2 [|d1 [|d2 [|e1 [|e2 [|f1 [|f2 [|x r]]]]]]]]]]]]];
      try discriminate Hl.
    split_bools. cbn [dash_pairs map app mac_canonical forallb].
    rewrite !hex_lower by assumption. reflexivity.
  - destruct (negb (macRegex_match (bytes t))) eqn:E2; [discriminate|].
    intros [= <-]. right. rewrite bytes_str.
    apply negb_false_iff in E2. unfold macRegex_match in E2.
    destruct (bytes t) as [|a1 [|a2 [|s1 [|b1 [|b2 [|s2 [|c1 [|c2 [|s3 [|d1 [|d2 [|s4
      [|e1 [|e2 [|s5 [|f1 [|f2 [|x r]]]]]]]]]]]]]]]]]]; try discriminate E2.
    split_bools. unfold ReplaceAll1. cbn [map flat_map].
    repeat match goal with
           | H : is_hex ?a = true |- context [if Byte.eqb (ascii_lower ?a) ":" then _ else _] =>
               rewrite (replace_colon_hex a H)
           | H : is_mac_sep ?a = true |- context [if Byte.eqb (ascii_lower ?a) ":" then _ else _] =>
               rewrite (replace_colon_sep a H)
           end.
    cbn [app mac_canonical forallb]. rewrite !hex_lower by assumption. reflexivity.
Qed.

(** A canonical MAC is accepted as it is. *)
Lemma SanitizeMAC_canonical (v : string) :
  mac_canonical (bytes v) = true -> SanitizeMAC v = (v, None).
Proof.
  intros H. rewrite <- (str_bytes v) in *. rewrite bytes_str in H.
  destruct (bytes v) as [|a1 [|a2 [|s1 [|b1 [|b2 [|s2 [|c1 [|c2 [|s3 [|d1 [|d2 [|s4
    [|e1 [|e2 [|s5 [|f1 [|f2 [|x r]]]]]]]]]]]]]]]]]] eqn:Ev; try discriminate H.
  cbn [mac_canonical] in H. split_bools.
  repeat match goal with H : Byte.eqb ?s "-" = true |- _ =>
           apply Byte.byte_dec_bl in H; subst s end.
  unfold SanitizeMAC.
  rewrite (TrimSpace_edges _ a1 a1 [a2; "-"; b1; b2; "-"; c1; c2; "-"; d1; d2; "-"; e1; e2; "-"; f1; f2]%byte)
    by (reflexivity || (apply hex_nonspace, lower_hex_hex; assumption)).
  rewrite str_cons_nonempty. unfold macCompact_match. rewrite bytes_str.
  cbn [List.length Nat.eqb andb].
  unfold macRegex_match.
  cbn [forallb]. rewrite !lower_hex_hex by assumption. cbn.
  f_equal. f_equal. unfold ReplaceAll1. cbn [map flat_map].
  repeat match goal with
         | H : is_lower_hex ?a = true |- context [if Byte.eqb (ascii_lower ?a) ":" then _ else _] =>
             rewrite (replace_colon_lower_hex a H)
         end.
  reflexivity.
Qed.

Lemma SanitizeMAC_error_empty (s v : string) (err : ValidationError) :
  SanitizeMAC s = (v, Some err) -> v = ""%string.
Proof.
  unfold SanitizeMAC.
  destruct (String.eqb (TrimSpace s) ""); [discriminate|].
  destruct (macCompact_match (bytes (TrimSpace s))); [discriminate|].
  destruct (negb (macRegex_match (bytes (TrimSpace s)))); congruence.
Qed.

(** Sanitizing a MAC a second time changes nothing and reports no error. *)
Theorem SanitizeMAC_idempotent (s : string) :
  SanitizeMAC (fst (SanitizeMAC s)) = (fst (SanitizeMAC s), None).
Proof.
  destruct (SanitizeMAC s) as [v [err|]] eqn:E; cbn [fst].
  - apply SanitizeMAC_error_empty in E. subst v. reflexivity.
  - destruct (SanitizeMAC_out s v E) as [->|H]; [reflexivity|].
    apply SanitizeMAC_canonical, H.
Qed.

(** The three notations of one MAC address, upper or lower case, with
    white space around, are stored as the same lower-case dashed text. *)
Theorem SanitizeMAC_forms (p : list (byte * byte)) (seps pre post : list byte) :
  List.length p = 6%nat -> forallb (fun '(a, b) => is_hex a && is_hex b) p = true ->
  List.length seps = 5%nat -> forallb is_mac_sep seps = true ->
  forallb is_ascii_space pre = true -> forallb is_ascii_space post = true ->
  SanitizeMAC (str (pre ++ mac_join p seps ++ post)) =
    (str (map ascii_lower (mac_join p (repeat "-"%byte 5))), None) /\
  SanitizeMAC (str (pre ++ mac_compact p ++ post)) =
    (str (map ascii_lower (mac_join p (repeat "-"%byte 5))), None).
Proof.
  intros Hp Hh Hs Hsep Hpre Hpost.
  destruct p as [|[a1 a2] [|[b1 b2] [|[c1 c2] [|[d1 d2] [|[e1 e2] [|[f1 f2] [|x r]]]]]]];
    try discriminate Hp.
  destruct seps as [|s1 [|s2 [|s3 [|s4 [|s5 [|y r]]]]]]; try discriminate Hs.
  cbn [forallb] in Hh, Hsep. split_bools.
  unfold SanitizeMAC. split.
  - cbn [mac_join]. rewrite (TrimSpace_pad pre _ post a1 a1
               [a2; s1; b1; b2; s2; c1; c2; s3; d1; d2; s4; e1; e2; s5; f1; f2])
      by (reflexivity || assumption || (apply hex_nonspace; assumption)).
    rewrite str_cons_nonempty. unfold macCompact_match. rewrite bytes_str.
    cbn [List.length Nat.eqb andb]. unfold macRegex_match. cbn [forallb].
    repeat match goal with H : ?f ?a = true |- context [?f ?a] => rewrite H end.
    cbn [negb andb]. f_equal. f_equal. unfold ReplaceAll1. cbn [map flat_map repeat].
    repeat match goal with
           | H : is_hex ?a = true |- context [if Byte.eqb (ascii_lower ?a) ":" then _ else _] =>
               rewrite (replace_colon_hex a H)
           | H : is_mac_sep ?a = true |- context [if Byte.eqb (ascii_lower ?a) ":" then _ else _] =>
               rewrite (replace_colon_sep a H)
           end.
    reflexivity.
  - replace (mac_compact _) with [a1; a2; b1; b2; c1; c2; d1; d2; e1; e2; f1; f2]
      by reflexivity.
    rewrite (TrimSpace_pad pre _ post a1 a1
               [a2; b1; b2; c1; c2; d1; d2; e1; e2; f1; f2])
      by (reflexivity || assumption || (apply hex_nonspace; assumption)).
    rewrite str_cons_nonempty. unfold macCompact_match. rewrite bytes_str.
    cbn [List.length Nat.eqb andb forallb].
    repeat match goal with H : ?f ?a = true |- context [?f ?a] => rewrite H end.
    reflexivity.
Qed.

Lemma SanitizeMAC_forms_witness :
  SanitizeMAC (str ([" "; "009"] ++ ["A"; "A"; ":"; "b"; "B"; "-"; "0"; "1"; ":";
                    "2"; "3"; ":"; "c"; "D"; "-"; "E"; "f"] ++ [" "])%byte) =
    (str (map ascii_lower ["A"; "A"; "-"; "b"; "B"; "-"; "0"; "1"; "-";
                           "2"; "3"; "-"; "c"; "D"; "-"; "E"; "f"]%byte), None) /\
  SanitizeMAC (str ([" "; "009"] ++ ["A"; "A"; "b"; "B"; "0"; "1"; "2"; "3"; "c"; "D"; "E"; "f"]
                    ++ [" "])%byte) =
    (str (map ascii_lower ["A"; "A"; "-"; "b"; "B"; "-"; "0"; "1"; "-";
                           "2"; "3"; "-"; "c"; "D"; "-"; "E"; "f"]%byte), None).
Proof.
  apply (SanitizeMAC_forms
           [("A", "A"); ("b", "B"); ("0", "1"); ("2", "3"); ("c", "D"); ("E", "f")]%byte
           [":"; "-"; ":"; ":"; "-"]%byte [" "; "009"]%byte [" "]%byte);
    reflexivity.
Defined.

End MacFacts.

(* ================================================================== *)
(** ** Proofs: IP regex *)

Module IpFacts.
Import Config GoText Validation Shapes TextFacts MacFacts.

Lemma split_dot_nonempty (l : list byte) : split_dot l <> [].
Proof.
  destruct l as [|b r]; cbn; [discriminate|].
  destruct (Byte.eqb b "."); [discriminate|].
  destruct (split_dot r); discriminate.
Qed.

Lemma join_dot_cons (p : list byte) (ps : list (list byte)) :
  ps <> [] -> join_dot (p :: ps) = p ++ "."%byte :: join_dot ps.
Proof. destruct ps; [congruence | reflexivity]. Qed.

(** Splitting at the dots and joining again gives the text back. *)
Lemma join_split_dot (l : list byte) : join_dot (split_dot l) = l.
Proof.
  induction l as [|b r IH]; [reflexivity|].
  cbn [split_dot]. destruct (Byte.eqb b ".") eqn:Eb.
  - apply Byte.byte_dec_bl in Eb. subst b.
    rewrite join_dot_cons by apply split_dot_nonempty. rewrite IH. reflexivity.
  - destruct (split_dot r) as [|p ps] eqn:Es; [exfalso; eapply split_dot_nonempty; eauto|].
    destruct ps as [|q qs].
    + cbn in IH |- *. rewrite IH. reflexivity.
    + rewrite join_dot_cons by discriminate. rewrite join_dot_cons in IH by discriminate.
      rewrite <- IH. reflexivity.
Qed.

Lemma split_dot_app (p rest : list byte) :
  forallb (fun b => negb (Byte.eqb b ".")) p = true ->
  split_dot (p ++ rest) =
  match split_dot rest with q :: qs => (p ++ q) :: qs | [] => [p] end.
Proof.
  induction p as [|b p IH]; intros H.
  - cbn. destruct (split_dot rest) eqn:E; [|reflexivity].
    exfalso. eapply split_dot_nonempty; eauto.
  - cbn [forallb] in H. apply andb_true_iff in H as [Hb H].
    apply negb_true_iff in Hb. cbn [app split_dot]. rewrite Hb, IH by exact H.
    destruct (split_dot rest); reflexivity.
Qed.

Lemma split_join_dot (ps : list (list byte)) :
  ps <> [] -> forallb (forallb (fun b => negb (Byte.eqb b "."))) ps = true ->
  split_dot (join_dot ps) = ps.
Proof.
  induction ps as [|p ps IH]; intros Hne H; [congruence|].
  cbn [forallb] in H. apply andb_true_iff in H as [Hp H].
  destruct ps as [|q qs].
  - cbn [join_dot]. rewrite <- (app_nil_r p), split_dot_app by exact Hp. reflexivity.
  - rewrite join_dot_cons by discriminate. rewrite split_dot_app by exact Hp.
    cbn [split_dot Byte.eqb]. rewrite IH by (discriminate || exact H).
    cbn. rewrite app_nil_r. reflexivity.
Qed.

Lemma digit_cases (b : byte) :
  is_digit b = true -> In b ["0"; "1"; "2"; "3"; "4"; "5"; "6"; "7"; "8"; "9"]%byte.
Proof. destruct b; vm_compute; first [discriminate | tauto]. Qed.

Lemma digit_not_dot (b : byte) : is_digit b = true -> negb (Byte.eqb b ".") = true.
Proof. destruct b; vm_compute; first [reflexivity | discriminate | tauto]. Qed.

Lemma in_range_05_digit (b : byte) : in_range "0" "5" b = true -> is_digit b = true.
Proof. destruct b; vm_compute; first [reflexivity | discriminate | tauto]. Qed.

Lemma in_range_04_digit (b : byte) : in_range "0" "4" b = true -> is_digit b = true.
Proof. destruct b; vm_compute; first [reflexivity | discriminate | tauto]. Qed.

Lemma eqb_digit (a c : byte) : Byte.eqb a c = true -> is_digit c = true -> is_digit a = true.
Proof. intros H. apply Byte.byte_dec_bl in H. subst. auto. Qed.

Ltac bool_facts :=
  repeat match goal with
         | H : (_ && _)%bool = true |- _ => apply andb_true_iff in H as [? ?]
         | H : (_ || _)%bool = true |- _ => apply orb_true_iff in H as [?|?]
         | H : in_range "0" "5" ?b = true |- _ => apply in_range_05_digit in H
         | H : in_range "0" "4" ?b = true |- _ => apply in_range_04_digit in H
         | H : Byte.eqb ?a ?c = true |- _ =>
             apply Byte.byte_dec_bl in H; subst a
         end.

Lemma octet_digits (o : list byte) : octet_match o = true -> forallb is_digit o = true.
Proof.
  destruct o as [|a [|b [|c [|x r]]]]; cbn [octet_match forallb]; intros H;
    try discriminate H; bool_facts;
    repeat match goal with H : is_digit ?b = true |- context [is_digit ?b] => rewrite H end;
    reflexivity.
Qed.

(** The alternatives of an octet of [ipRegex] are the decimal fields of
    one to three digits with value at most 255. *)
Lemma octet_field (o : list byte) : octet_match o = ip_field_ok o.
Proof.
  destruct (forallb is_digit o) eqn:D.
  - destruct o as [|a [|b [|c [|x r]]]]; try reflexivity;
      cbn [forallb] in D; bool_facts;
      repeat match goal with H : is_digit ?b = true |- _ =>
               apply digit_cases in H; cbn [In] in H;
               repeat destruct H as [<-|H]; try contradiction
             end;
      vm_compute; reflexivity.
  - destruct (octet_match o) eqn:E.
    + apply octet_digits in E. congruence.
    + unfold ip_field_ok. rewrite D, andb_false_r. cbn. reflexivity.
Qed.

Lemma field_no_dot (o : list byte) : ip_field_ok o = true -> forallb (fun b => negb (Byte.eqb b ".")) o = true.
Proof.
  unfold ip_field_ok. intros H. bool_facts.
  rewrite forallb_forall in *. intros b Hb. apply digit_not_dot; auto.
Qed.

(** [ipRegex], which [SanitizeIP] applies, accepts exactly four fields
    joined by dots, each of one to three decimal digits with value at most
    255; leading zeros are allowed ([010], [001]). *)
Theorem ipRegex_match_iff (l : list byte) :
  ipRegex_match l = true <->
  exists o1 o2 o3 o4, l = join_dot [o1; o2; o3; o4] /\
                      forallb ip_field_ok [o1; o2; o3; o4] = true.
Proof.
  split.
  - unfold ipRegex_match. intros H.
    destruct (split_dot l) as [|o1 [|o2 [|o3 [|o4 [|x r]]]]] eqn:Es; try discriminate H.
    exists o1, o2, o3, o4. split.
    + rewrite <- Es. symmetry. apply join_split_dot.
    + rewrite !octet_field in H. cbn [forallb]. rewrite andb_true_r, !andb_assoc. exact H.
  - intros (o1 & o2 & o3 & o4 & -> & H). unfold ipRegex_match.
    rewrite split_join_dot.
    + rewrite !octet_field. cbn [forallb] in H. rewrite andb_true_r, !andb_assoc in H. exact H.
    + discriminate.
    + cbn [forallb] in H |- *. bool_facts.
      rewrite !field_no_dot by assumption. reflexivity.
Qed.

End IpFacts.

(* ================================================================== *)
(** ** Proofs: Settings validation *)

Module ValidateFacts.
Import Config GoText Validation Shapes TextFacts MacFacts IpFacts.

Lemma bytes_length (s : string) : String.length s = List.length (bytes s).
Proof. induction s as [|a s IH]; cbn; [reflexivity | now rewrite IH]. Qed.

(** A non-empty text of digits has no white space to trim. *)
Lemma TrimSpace_digits (l : list byte) :
  l <> [] -> forallb is_digit l = true -> TrimSpace (str l) = str l.
Proof.
  intros Hne Hd. destruct l as [|b m]; [congruence|].
  rewrite forallb_forall in Hd.
  apply (TrimSpace_edges _ b b m); [reflexivity | |];
    apply digit_nonspace, Hd; [left; reflexivity | apply last_in].
Qed.

Lemma str_eqb_refl (s : string) : String.eqb s s = true.
Proof. apply String.eqb_refl. Qed.

Lemma fixed_by_intro (san : string -> string * option ValidationError) (v : string) :
  san v = (v, None) -> fixed_by san v = true.
Proof. unfold fixed_by. intros ->. apply str_eqb_refl. Qed.

Lemma fixed_by_elim (san : string -> string * option ValidationError) (v : string) :
  fixed_by san v = true -> san v = (v, None).
Proof.
  unfold fixed_by. destruct (san v) as [v' [e|]]; [discriminate|].
  intros H. apply String.eqb_eq in H. subst. reflexivity.
Qed.

(** What each sanitizer accepts it also keeps on a second run. *)
Lemma SanitizeSSID_fixed (s v : string) :
  SanitizeSSID s = (v, None) -> fixed_by SanitizeSSID v = true.
Proof.
  unfold SanitizeSSID. set (t := TrimSpace s).
  destruct (String.length t =? 0)%nat eqn:E0; [intros [= <-]; reflexivity|].
  destruct (MaxSSIDLength <? String.length t)%nat eqn:E1; [discriminate|].
  destruct (dangerousChars_match (bytes t)) eqn:E2; [discriminate|].
  intros [= <-]. apply fixed_by_intro.
  assert (Tt : TrimSpace t = t) by apply TrimSpace_idem.
  unfold SanitizeSSID. rewrite Tt, E0, E1, E2. reflexivity.
Qed.

Lemma SanitizeIP_fixed (s v : string) :
  SanitizeIP s = (v, None) -> fixed_by SanitizeIP v = true.
Proof.
  unfold SanitizeIP. set (t := TrimSpace s).
  destruct (String.eqb t "") eqn:E0; [intros [= <-]; reflexivity|].
  destruct (negb (ipRegex_match (bytes t))) eqn:E1; [discriminate|].
  intros [= <-]. apply fixed_by_intro.
  assert (Tt : TrimSpace t = t) by apply TrimSpace_idem.
  unfold SanitizeIP. rewrite Tt, E0, E1. reflexivity.
Qed.

Lemma SanitizePIN_fixed (s v : string) :
  SanitizePIN s = (v, None) -> fixed_by SanitizePIN v = true.
Proof.
  unfold SanitizePIN. set (t := TrimSpace s).
  destruct (String.eqb t "") eqn:E0; [intros [= <-]; reflexivity|].
  destruct (negb (pinRegex_match (bytes t))) eqn:E1; [discriminate|].
  intros [= <-]. apply fixed_by_intro.
  assert (Tt : TrimSpace t = t) by apply TrimSpace_idem.
  unfold SanitizePIN. rewrite Tt, E0, E1. reflexivity.
Qed.

Lemma SanitizeMAC_fixed (s v : string) :
  SanitizeMAC s = (v, None) -> fixed_by SanitizeMAC v = true.
Proof.
  intros H. apply fixed_by_intro.
  destruct (SanitizeMAC_out s v H) as [->|Hc]; [reflexivity|].
  apply SanitizeMAC_canonical, Hc.
Qed.

(** The shapes of the texts the sanitizers keep. *)
Lemma fixed_SSID_shape (v : string) :
  fixed_by SanitizeSSID v = true ->
  v = ""%string \/
  ((String.length v <= 32)%nat /\ dangerousChars_match (bytes v) = false /\ TrimSpace v = v).
Proof.
  intros H. apply fixed_by_elim in H. revert H. unfold SanitizeSSID.
  destruct (String.length (TrimSpace v) =? 0)%nat; [intros [= <-]; left; reflexivity|].
  destruct (MaxSSIDLength <? String.length (TrimSpace v))%nat eqn:E1; [discriminate|].
  destruct (dangerousChars_match (bytes (TrimSpace v))) eqn:E2; [discriminate|].
  intros [= Ht]. right. rewrite Ht in E1, E2.
  apply Nat.ltb_ge in E1. unfold MaxSSIDLength in E1. auto.
Qed.

Lemma fixed_IP_shape (v : string) :
  fixed_by SanitizeIP v = true -> v = ""%string \/ ipRegex_match (bytes v) = true.
Proof.
  intros H. apply fixed_by_elim in H. revert H. unfold SanitizeIP.
  destruct (String.eqb (TrimSpace v) ""); [intros [= <-]; left; reflexivity|].
  destruct (ipRegex_match (bytes (TrimSpace v))) eqn:E; [|discriminate].
  intros [= Ht]. right. rewrite Ht in E. exact E.
Qed.

Lemma fixed_PIN_shape (v : string) :
  fixed_by SanitizePIN v = true -> v = ""%string \/ pinRegex_match (bytes v) = true.
Proof.
  intros H. apply fixed_by_elim in H. revert H. unfold SanitizePIN.
  destruct (String.eqb (TrimSpace v) ""); [intros [= <-]; left; reflexivity|].
  destruct (pinRegex_match (bytes (TrimSpace v))) eqn:E; [|discriminate].
  intros [= Ht]. right. rewrite Ht in E. exact E.
Qed.

Lemma fixed_MAC_shape (v : string) :
  fixed_by SanitizeMAC v = true -> v = ""%string \/ mac_canonical (bytes v) = true.
Proof. intros H. apply fixed_by_elim in H. exact (SanitizeMAC_out v v H). Qed.

(** [ValidatePIN] accepts exactly the PINs [SanitizePIN] keeps. *)
Lemma ValidatePIN_fixed_by (p : string) : ValidatePIN p = fixed_by SanitizePIN p.
Proof.
  unfold ValidatePIN. destruct (String.eqb p "") eqn:E0.
  { apply String.eqb_eq in E0. subst. reflexivity. }
  unfold MinPINLength, MaxPINLength. rewrite bytes_length.
  destruct (forallb is_digit (bytes p)) eqn:Ed.
  - assert (Ht : TrimSpace p = p).
    { rewrite <- (str_bytes p). apply TrimSpace_digits; [|exact Ed].
      intros Hn. rewrite <- (str_bytes p), Hn in E0. discriminate. }
    unfold fixed_by, SanitizePIN. rewrite Ht, E0. unfold pinRegex_match. rewrite Ed.
    destruct ((List.length (bytes p) <? 4)%nat || (8 <? List.length (bytes p))%nat) eqn:El.
    + apply orb_true_iff in El as [El|El].
      * apply Nat.ltb_lt in El. replace (4 <=? List.length (bytes p))%nat with false
          by (symmetry; apply Nat.leb_gt; lia). reflexivity.
      * apply Nat.ltb_lt in El. replace (List.length (bytes p) <=? 8)%nat with false
          by (symmetry; apply Nat.leb_gt; lia). rewrite andb_false_r. reflexivity.
    + apply orb_false_iff in El as [E1 E2]. apply Nat.ltb_ge in E1, E2.
      replace (4 <=? List.length (bytes p))%nat with true by (symmetry; apply Nat.leb_le; lia).
      replace (List.length (bytes p) <=? 8)%nat with true by (symmetry; apply Nat.leb_le; lia).
      cbn. symmetry. apply str_eqb_refl.
  - transitivity false; [destruct (_ || _); reflexivity|]. symmetry.
    destruct (fixed_by SanitizePIN p) eqn:F; [|reflexivity].
    destruct (fixed_PIN_shape p F) as [->|Hr]; [discriminate|].
    unfold pinRegex_match in Hr. rewrite Ed, andb_false_r in Hr. discriminate.
Qed.

(** Each check of [ValidateSettings] sets its own field to a value the
    next run keeps, and touches no other field. *)
Lemma check_HomeSSID_spec (s s' : Settings) (w w' : list warning) :
  check_HomeSSID (s, w) = (s', w') ->
  exists v, s' = set_HomeSSID s v /\ fixed_by SanitizeSSID v = true.
Proof.
  unfold check_HomeSSID. destruct (String.eqb (HomeSSID s) "") eqn:E; cbn [negb].
  - intros [= <- _]. exists (HomeSSID s). split; [destruct s; reflexivity|].
    apply String.eqb_eq in E. rewrite E. reflexivity.
  - destruct (SanitizeSSID (HomeSSID s)) as [v [e|]] eqn:Es; intros [= <- _];
      eexists; (split; [reflexivity|]); [reflexivity | eapply SanitizeSSID_fixed; eauto].
Qed.

Lemma check_PhoneIP_spec (s s' : Settings) (w w' : list warning) :
  check_PhoneIP (s, w) = (s', w') ->
  exists v, s' = set_PhoneIP s v /\ fixed_by SanitizeIP v = true.
Proof.
  unfold check_PhoneIP. destruct (String.eqb (PhoneIP s) "") eqn:E; cbn [negb].
  - intros [= <- _]. exists (PhoneIP s). split; [destruct s; reflexivity|].
    apply String.eqb_eq in E. rewrite E. reflexivity.
  - destruct (SanitizeIP (PhoneIP s)) as [v [e|]] eqn:Es; intros [= <- _];
      eexists; (split; [reflexivity|]); [reflexivity | eapply SanitizeIP_fixed; eauto].
Qed.

Lemma check_PhoneMAC_spec (s s' : Settings) (w w' : list warning) :
  check_PhoneMAC (s, w) = (s', w') ->
  exists v, s' = set_PhoneMAC s v /\ fixed_by SanitizeMAC v = true.
Proof.
  unfold check_PhoneMAC. destruct (String.eqb (PhoneMAC s) "") eqn:E; cbn [negb].
  - intros [= <- _]. exists (PhoneMAC s). split; [destruct s; reflexivity|].
    apply String.eqb_eq in E. rewrite E. reflexivity.
  - destruct (SanitizeMAC (PhoneMAC s)) as [v [e|]] eqn:Es; intros [= <- _];
      eexists; (split; [reflexivity|]); [reflexivity | eapply SanitizeMAC_fixed; eauto].
Qed.

Lemma check_ShutdownPIN_spec (s s' : Settings) (w w' : list warning) :
  check_ShutdownPIN (s, w) = (s', w') ->
  exists v b, s' = set_RequirePIN (set_ShutdownPIN s v) b /\ fixed_by SanitizePIN v = true /\
    (fixed_by SanitizePIN (ShutdownPIN s) = true -> v = ShutdownPIN s /\ b = RequirePIN s) /\
    (forall v0 e, SanitizePIN (ShutdownPIN s) = (v0, Some e) -> v = ""%string).
Proof.
  unfold check_ShutdownPIN. destruct (String.eqb (ShutdownPIN s) "") eqn:E; cbn [negb].
  - intros [= <- _]. apply String.eqb_eq in E.
    exists (ShutdownPIN s), (RequirePIN s). split; [destruct s; reflexivity|].
    rewrite E. split; [reflexivity|]. split; [auto|]. intros v0 e' H. discriminate H.
  - destruct (SanitizePIN (ShutdownPIN s)) as [v [e|]] eqn:Es; intros [= <- _].
    + exists ""%string, false. split; [reflexivity|]. split; [reflexivity|]. split.
      * intros F. apply fixed_by_elim in F. congruence.
      * reflexivity.
    + exists v, (RequirePIN s). split; [destruct s; reflexivity|].
      split; [eapply SanitizePIN_fixed; eauto|]. split.
      * intros F. apply fixed_by_elim in F. split; congruence.
      * intros v0 e H. congruence.
Qed.

Lemma check_DetectionType_spec (s s' : Settings) (w w' : list warning) :
  check_DetectionType (s, w) = (s', w') ->
  exists v, s' = set_DetectionType s v /\ (String.eqb v "ip" || String.eqb v "mac") = true.
Proof.
  unfold check_DetectionType.
  destruct (String.eqb (DetectionType s) "ip") eqn:E1, (String.eqb (DetectionType s) "mac") eqn:E2;
    cbn [negb andb]; intros [= <- _];
    [exists (DetectionType s) .. | exists "mac"%string];
    (split; [reflexivity || (destruct s; reflexivity)|]);
    rewrite ?E1, ?E2; reflexivity.
Qed.

Lemma check_ShutdownAction_spec (s s' : Settings) (w w' : list warning) :
  check_ShutdownAction (s, w) = (s', w') ->
  exists v, s' = set_ShutdownAction s v /\ ValidateShutdownAction v = true.
Proof.
  unfold check_ShutdownAction.
  destruct (ValidateShutdownAction (ShutdownAction s)) eqn:E; cbn [negb]; intros [= <- _];
    [exists (ShutdownAction s) | exists "shutdown"%string]; (split; [reflexivity || (destruct s; reflexivity)|]); [exact E | reflexivity].
Qed.

Lemma check_GraceChecks_spec (s s' : Settings) (w w' : list warning) :
  check_GraceChecks (s, w) = (s', w') ->
  exists v, s' = set_GraceChecks s v /\ ((MinGraceChecks <=? v) && (v <=? MaxGraceChecks)) = true.
Proof.
  unfold check_GraceChecks.
  destruct ((GraceChecks s <? MinGraceChecks) || (MaxGraceChecks <? GraceChecks s)) eqn:E; intros [= <- _];
    [exists DefaultGraceChecks | exists (GraceChecks s)]; (split; [reflexivity || (destruct s; reflexivity)|]);
    [reflexivity|].
  unfold MinGraceChecks, MaxGraceChecks in *.
  apply orb_false_iff in E as [E1 E2]. apply Z.ltb_ge in E1, E2.
  apply andb_true_iff; split; apply Z.leb_le; lia.
Qed.

Lemma check_PollInterval_spec (s s' : Settings) (w w' : list warning) :
  check_PollInterval (s, w) = (s', w') ->
  exists v, s' = set_PollInterval s v /\ ((MinPollInterval <=? v) && (v <=? MaxPollInterval)) = true.
Proof.
  unfold check_PollInterval.
  destruct ((PollInterval s <? MinPollInterval) || (MaxPollInterval <? PollInterval s)) eqn:E; intros [= <- _];
    [exists DefaultPollInterval | exists (PollInterval s)]; (split; [reflexivity || (destruct s; reflexivity)|]);
    [reflexivity|].
  unfold MinPollInterval, MaxPollInterval in *.
  apply orb_false_iff in E as [E1 E2]. apply Z.ltb_ge in E1, E2.
  apply andb_true_iff; split; apply Z.leb_le; lia.
Qed.

Lemma check_ShutdownDelay_spec (s s' : Settings) (w w' : list warning) :
  check_ShutdownDelay (s, w) = (s', w') ->
  exists v, s' = set_ShutdownDelay s v /\ ((ShutdownMinDelay <=? v) && (v <=? ShutdownMaxDelay)) = true.
Proof.
  unfold check_ShutdownDelay.
  destruct ((ShutdownDelay s <? ShutdownMinDelay) || (ShutdownMaxDelay <? ShutdownDelay s)) eqn:E; intros [= <- _];
    [exists DefaultShutdownDelay | exists (ShutdownDelay s)]; (split; [reflexivity || (destruct s; reflexivity)|]);
    [reflexivity|].
  unfold ShutdownMinDelay, ShutdownMaxDelay in *.
  apply orb_false_iff in E as [E1 E2]. apply Z.ltb_ge in E1, E2.
  apply andb_true_iff; split; apply Z.leb_le; lia.
Qed.

Ltac settings_simpl :=
  cbn [fst snd HomeSSID PhoneIP PhoneMAC DetectionType IsPaused GraceChecks PollInterval
       PingTimeoutMs ShutdownDelay ShutdownPIN RequirePIN ShutdownAction
       set_HomeSSID set_PhoneIP set_PhoneMAC set_ShutdownPIN set_RequirePIN set_DetectionType
       set_ShutdownAction set_GraceChecks set_PollInterval set_ShutdownDelay
       set_PingTimeoutMs] in *.

(** Runs the checks of [ValidateSettings] one after the other, keeping
    for each the value it leaves and what is known of it. *)
Ltac vs_steps :=
  repeat match goal with
  | |- context [check_HomeSSID (?s, ?w)] =>
      let E := fresh "E" in
      destruct (check_HomeSSID (s, w)) eqn:E; apply check_HomeSSID_spec in E as (? & -> & ?)
  | |- context [check_PhoneIP (?s, ?w)] =>
      let E := fresh "E" in
      destruct (check_PhoneIP (s, w)) eqn:E; apply check_PhoneIP_spec in E as (? & -> & ?)
  | |- context [check_PhoneMAC (?s, ?w)] =>
      let E := fresh "E" in
      destruct (check_PhoneMAC (s, w)) eqn:E; apply check_PhoneMAC_spec in E as (? & -> & ?)
  | |- context [check_ShutdownPIN (?s, ?w)] =>
      let E := fresh "E" in
      destruct (check_ShutdownPIN (s, w)) eqn:E;
      apply check_ShutdownPIN_spec in E as (? & ? & -> & ? & ? & ?)
  | |- context [check_DetectionType (?s, ?w)] =>
      let E := fresh "E" in
      destruct (check_DetectionType (s, w)) eqn:E; apply check_DetectionType_spec in E as (? & -> & ?)
  | |- context [check_ShutdownAction (?s, ?w)] =>
      let E := fresh "E" in
      destruct (check_ShutdownAction (s, w)) eqn:E; apply check_ShutdownAction_spec in E as (? & -> & ?)
  | |- context [check_GraceChecks (?s, ?w)] =>
      let E := fresh "E" in
      destruct (check_GraceChecks (s, w)) eqn:E; apply check_GraceChecks_spec in E as (? & -> & ?)
  | |- context [check_PollInterval (?s, ?w)] =>
      let E := fresh "E" in
      destruct (check_PollInterval (s, w)) eqn:E; apply check_PollInterval_spec in E as (? & -> & ?)
  | |- context [check_ShutdownDelay (?s, ?w)] =>
      let E := fresh "E" in
      destruct (check_ShutdownDelay (s, w)) eqn:E; apply check_ShutdownDelay_spec in E as (? & -> & ?)
  end;
  settings_simpl.

Lemma ValidateSettings_ok (s0 : Settings) : settings_ok (fst (ValidateSettings s0)) = true.
Proof.
  unfold ValidateSettings. vs_steps. unfold settings_ok. settings_simpl.
  repeat match goal with H : ?a = true |- context [?a] => rewrite H end.
  repeat match goal with H : (?a && ?b)%bool = true |- _ => apply andb_true_iff in H as [? ?] end.
  repeat match goal with H : ?a = true |- context [?a] => rewrite H end.
  reflexivity.
Qed.

(** A check finding its field valid changes nothing. *)
Lemma ValidateSettings_keep (s : Settings) :
  settings_ok s = true -> ValidateSettings s = (s, []).
Proof.
  unfold settings_ok. intros H.
  repeat match goal with H : (?a && ?b)%bool = true |- _ => apply andb_true_iff in H as [? ?] end.
  unfold ValidateSettings.
  assert (K1 : check_HomeSSID (s, []) = (s, [])).
  { unfold check_HomeSSID. destruct (negb _); [|reflexivity].
    rewrite fixed_by_elim by assumption. destruct s; reflexivity. }
  rewrite K1.
  assert (K2 : check_PhoneIP (s, []) = (s, [])).
  { unfold check_PhoneIP. destruct (negb _); [|reflexivity].
    rewrite fixed_by_elim by assumption. destruct s; reflexivity. }
  rewrite K2.
  assert (K3 : check_PhoneMAC (s, []) = (s, [])).
  { unfold check_PhoneMAC. destruct (negb _); [|reflexivity].
    rewrite fixed_by_elim by assumption. destruct s; reflexivity. }
  rewrite K3.
  assert (K4 : check_ShutdownPIN (s, []) = (s, [])).
  { unfold check_ShutdownPIN. destruct (negb _); [|reflexivity].
    rewrite fixed_by_elim by assumption. destruct s; reflexivity. }
  rewrite K4.
  assert (K5 : check_DetectionType (s, []) = (s, [])).
  { unfold check_DetectionType.
    destruct (String.eqb (DetectionType s) "ip"), (String.eqb (DetectionType s) "mac");
      first [reflexivity | discriminate]. }
  rewrite K5.
  assert (K6 : check_ShutdownAction (s, []) = (s, [])).
  { unfold check_ShutdownAction. match goal with H : ValidateShutdownAction _ = true |- _ =>
      rewrite H end. reflexivity. }
  rewrite K6.
  unfold MinGraceChecks, MaxGraceChecks, MinPollInterval, MaxPollInterval,
    ShutdownMinDelay, ShutdownMaxDelay in *.
  repeat match goal with H : (_ <=? _) = true |- _ => apply Z.leb_le in H end.
  assert (K7 : check_GraceChecks (s, []) = (s, [])).
  { unfold check_GraceChecks, MinGraceChecks, MaxGraceChecks.
    replace (GraceChecks s <? 1) with false by (symmetry; apply Z.ltb_ge; lia).
    replace (100 <? GraceChecks s) with false by (symmetry; apply Z.ltb_ge; lia).
    reflexivity. }
  rewrite K7.
  assert (K8 : check_PollInterval (s, []) = (s, [])).
  { unfold check_PollInterval, MinPollInterval, MaxPollInterval.
    replace (PollInterval s <? 1) with false by (symmetry; apply Z.ltb_ge; lia).
    replace (300 <? PollInterval s) with false by (symmetry; apply Z.ltb_ge; lia).
    reflexivity. }
  rewrite K8.
  unfold check_ShutdownDelay, ShutdownMinDelay, ShutdownMaxDelay.
  replace (ShutdownDelay s <? 5) with false by (symmetry; apply Z.ltb_ge; lia).
  replace (300 <? ShutdownDelay s) with false by (symmetry; apply Z.ltb_ge; lia).
  reflexivity.
Qed.

Lemma settings_ok_ping (s : Settings) (v : Z) :
  settings_ok (set_PingTimeoutMs s v) = settings_ok s.
Proof. destruct s; reflexivity. Qed.

(** After [ValidateSettings], every field holds a value of the shape its
    check asks for: the SSID is empty or at most 32 bytes, without a
    dangerous character and without white space around it; the IP is
    empty or matches [ipRegex]; the MAC is empty or six lower-case hex
    pairs joined by dashes; the PIN is empty or 4 to 8 digits; the
    detection type is [ip] or [mac]; the action is a valid one; the grace
    checks are in [1, 100], the poll interval in [1, 300] and the shutdown
    delay in [5, 300]. *)
Theorem ValidateSettings_valid (s0 : Settings) :
  let s := fst (ValidateSettings s0) in
  (HomeSSID s = ""%string \/
   ((String.length (HomeSSID s) <= 32)%nat /\ dangerousChars_match (bytes (HomeSSID s)) = false /\
    TrimSpace (HomeSSID s) = HomeSSID s)) /\
  (PhoneIP s = ""%string \/ ipRegex_match (bytes (PhoneIP s)) = true) /\
  (PhoneMAC s = ""%string \/ mac_canonical (bytes (PhoneMAC s)) = true) /\
  (ShutdownPIN s = ""%string \/ pinRegex_match (bytes (ShutdownPIN s)) = true) /\
  (DetectionType s = "ip"%string \/ DetectionType s = "mac"%string) /\
  ValidateShutdownAction (ShutdownAction s) = true /\
  1 <= GraceChecks s <= 100 /\ 1 <= PollInterval s <= 300 /\ 5 <= ShutdownDelay s <= 300.
Proof.
  intros s. pose proof (ValidateSettings_ok s0) as H. fold s in H.
  unfold settings_ok in H.
  repeat match goal with H : (?a && ?b)%bool = true |- _ => apply andb_true_iff in H as [? ?] end.
  unfold MinGraceChecks, MaxGraceChecks, MinPollInterval, MaxPollInterval,
    ShutdownMinDelay, ShutdownMaxDelay in *.
  repeat match goal with H : (_ <=? _) = true |- _ => apply Z.leb_le in H end.
  split; [apply fixed_SSID_shape; assumption|].
  split; [apply fixed_IP_shape; assumption|].
  split; [apply fixed_MAC_shape; assumption|].
  split; [apply fixed_PIN_shape; assumption|].
  split.
  { match goal with H : (String.eqb (DetectionType s) _ || _)%bool = true |- _ =>
      apply orb_true_iff in H as [Hd|Hd] end;
      apply String.eqb_eq in Hd; auto. }
  split; [assumption|]. lia.
Qed.

(** Validating settings a second time changes nothing and warns of
    nothing. *)
Theorem ValidateSettings_idempotent (s0 : Settings) :
  ValidateSettings (fst (ValidateSettings s0)) = (fst (ValidateSettings s0), []).
Proof. apply ValidateSettings_keep, ValidateSettings_ok. Qed.

(** Settings as [loadLocked] leaves them have a [PingTimeoutMs] of at
    least 100 and are left as they are by a second pass of its
    validation. *)
Theorem validate_loaded_stable (d : Settings) :
  100 <= PingTimeoutMs (validate_loaded d) /\
  validate_loaded (validate_loaded d) = validate_loaded d.
Proof.
  assert (Hok : settings_ok (validate_loaded d) = true).
  { unfold validate_loaded. destruct (_ <? 100);
      rewrite ?settings_ok_ping; apply ValidateSettings_ok. }
  assert (Hp : 100 <= PingTimeoutMs (validate_loaded d)).
  { unfold validate_loaded. destruct (PingTimeoutMs (fst (ValidateSettings d)) <? 100) eqn:E.
    - destruct (fst (ValidateSettings d)); cbn. unfold DefaultPingTimeoutMs. lia.
    - apply Z.ltb_ge in E. exact E. }
  split; [exact Hp|].
  unfold validate_loaded at 1. rewrite (ValidateSettings_keep _ Hok). cbn [fst].
  replace (PingTimeoutMs (validate_loaded d) <? 100) with false
    by (symmetry; apply Z.ltb_ge; exact Hp).
  reflexivity.
Qed.

(** [ValidatePIN], which guards [SetShutdownPIN], accepts exactly the
    PINs that [SanitizePIN], run on every load, keeps unchanged. *)
Theorem ValidatePIN_SanitizePIN (p : string) :
  ValidatePIN p = true <-> SanitizePIN p = (p, None).
Proof.
  rewrite ValidatePIN_fixed_by. split; [apply fixed_by_elim | apply fixed_by_intro].
Qed.

(** A PIN set by [SetShutdownPIN] survives the reload: after it, the
    settings loaded back accept at [VerifyPIN] exactly that PIN, or any
    input when the PIN set was empty. *)
Theorem SetShutdownPIN_reload (p : string) (loaded s' : Settings) :
  SetShutdownPIN p loaded = Some s' ->
  forall q, VerifyPIN (validate_loaded s') q = (String.eqb p "" || String.eqb p q)%bool.
Proof.
  unfold SetShutdownPIN. destruct (ValidatePIN p) eqn:Hv; cbn [negb]; [|discriminate].
  intros [= <-] q. rewrite ValidatePIN_fixed_by in Hv.
  assert (Hpin : ShutdownPIN (validate_loaded (set_RequirePIN (set_ShutdownPIN loaded p)
                    (negb (String.eqb p "")))) = p /\
                 RequirePIN (validate_loaded (set_RequirePIN (set_ShutdownPIN loaded p)
                    (negb (String.eqb p "")))) = negb (String.eqb p "")).
  { unfold validate_loaded. unfold ValidateSettings. vs_steps.
    match goal with H : fixed_by SanitizePIN p = true -> _ |- _ =>
      destruct (H Hv) as [-> ->] end.
    destruct (_ <? 100); cbn; auto. }
  destruct Hpin as [Hs Hr]. unfold VerifyPIN. rewrite Hs, Hr.
  destruct (String.eqb p ""); reflexivity.
Qed.

(** A stored PIN that [SanitizePIN] rejects is dropped on load, and the
    settings then accept any input at [VerifyPIN]. *)
Theorem invalid_PIN_unprotected (d : Settings) (v0 : string) (e : ValidationError) :
  SanitizePIN (ShutdownPIN d) = (v0, Some e) ->
  forall q, VerifyPIN (validate_loaded d) q = true.
Proof.
  intros He q.
  assert (Hs : ShutdownPIN (validate_loaded d) = ""%string).
  { unfold validate_loaded. unfold ValidateSettings. vs_steps.
    match goal with H : forall v0 e, SanitizePIN (ShutdownPIN d) = (v0, Some e) -> _ |- _ =>
      rewrite (H v0 e He) end.
    destruct (_ <? 100); reflexivity. }
  unfold VerifyPIN. rewrite Hs. rewrite orb_true_r. reflexivity.
Qed.

Lemma SetShutdownPIN_reload_witness :
  SetShutdownPIN "4821" Scenarios.home_settings =
    Some (set_RequirePIN (set_ShutdownPIN Scenarios.home_settings "4821") true) /\
  forall q, VerifyPIN (validate_loaded
                (set_RequirePIN (set_ShutdownPIN Scenarios.home_settings "4821") true)) q =
            (String.eqb "4821" "" || String.eqb "4821" q)%bool.
Proof.
  split; [vm_compute; reflexivity|].
  apply (SetShutdownPIN_reload "4821" Scenarios.home_settings). vm_compute. reflexivity.
Defined.

Lemma invalid_PIN_unprotected_witness :
  SanitizePIN "12ab" = (""%string, Some (NewValidationError "Invalid PIN" "PIN must be 4-8 digits")) /\
  forall q, VerifyPIN (validate_loaded (set_RequirePIN
                         (set_ShutdownPIN Scenarios.home_settings "12ab") true)) q = true.
Proof.
  split; [vm_compute; reflexivity|].
  apply (invalid_PIN_unprotected
           (set_RequirePIN (set_ShutdownPIN Scenarios.home_settings "12ab") true) ""%string
           (NewValidationError "Invalid PIN" "PIN must be 4-8 digits")).
  vm_compute. reflexivity.
Defined.

End ValidateFacts.

(* ================================================================== *)
(** ** Proofs: Shell commands *)

Module ShellFacts.
Import GoText Shapes Shell TextFacts.

Lemma ReplaceAll1_app (o : byte) (n x y : list byte) :
  ReplaceAll1 o n (x ++ y) = ReplaceAll1 o n x ++ ReplaceAll1 o n y.
Proof. unfold ReplaceAll1. apply flat_map_app. Qed.

Lemma ReplaceAll1_cons (o : byte) (n : list byte) (b : byte) (y : list byte) :
  ReplaceAll1 o n (b :: y) = ReplaceAll1 o n [b] ++ ReplaceAll1 o n y.
Proof. apply (ReplaceAll1_app o n [b] y). Qed.

Lemma ps_clean_cons (b : byte) (l : list byte) : ps_clean (b :: l) = ps_clean [b] ++ ps_clean l.
Proof. unfold ps_clean. cbn [flat_map]. rewrite app_nil_r. reflexivity. Qed.

(** The replacements of [escapePowerShellString], on one byte. *)
Lemma escape_byte (b : byte) :
  ReplaceAll1 x0d [] (ReplaceAll1 x0a [x20] (ReplaceAll1 x60 []
    (ReplaceAll1 x00 [] (ReplaceAll1 x27 [x27; x27] [b])))) =
  if Byte.eqb b x27 then [x27; x27] else ps_clean [b].
Proof. destruct b; vm_compute; reflexivity. Qed.

Lemma escape_cons (b : byte) (l : list byte) :
  ReplaceAll1 x0d [] (ReplaceAll1 x0a [x20] (ReplaceAll1 x60 []
    (ReplaceAll1 x00 [] (ReplaceAll1 x27 [x27; x27] (b :: l))))) =
  (if Byte.eqb b x27 then [x27; x27] else ps_clean [b]) ++
  ReplaceAll1 x0d [] (ReplaceAll1 x0a [x20] (ReplaceAll1 x60 []
    (ReplaceAll1 x00 [] (ReplaceAll1 x27 [x27; x27] l)))).
Proof.
  rewrite <- escape_byte.
  rewrite (ReplaceAll1_cons x27). rewrite !ReplaceAll1_app. reflexivity.
Qed.

Lemma ps_clean_byte (b : byte) :
  ps_clean [b] = [] \/ ps_clean [b] = [x20] \/ ps_clean [b] = [b].
Proof. destruct b; vm_compute; tauto. Qed.

Lemma ps_clean_no_specials (b : byte) : no_ps_specials (ps_clean [b]) = true.
Proof. destruct b; vm_compute; reflexivity. Qed.

Lemma escape_length (l : list byte) :
  (List.length (ReplaceAll1 x0d [] (ReplaceAll1 x0a [x20] (ReplaceAll1 x60 []
    (ReplaceAll1 x00 [] (ReplaceAll1 x27 [x27; x27] l))))) <= 2 * List.length l)%nat.
Proof.
  induction l as [|b l IH]; [cbn; lia|].
  rewrite escape_cons, length_app. cbn [List.length].
  destruct (Byte.eqb b x27); [cbn; lia|].
  destruct (ps_clean_byte b) as [H|[H|H]]; rewrite H; cbn [List.length]; lia.
Qed.

Lemma escape_no_specials (l : list byte) :
  no_ps_specials (ReplaceAll1 x0d [] (ReplaceAll1 x0a [x20] (ReplaceAll1 x60 []
    (ReplaceAll1 x00 [] (ReplaceAll1 x27 [x27; x27] l))))) = true.
Proof.
  induction l as [|b l IH]; [reflexivity|].
  rewrite escape_cons. unfold no_ps_specials in *. rewrite forallb_app, IH, andb_true_r.
  destruct (Byte.eqb b x27); [reflexivity|]. apply ps_clean_no_specials.
Qed.

Lemma no_ps_specials_firstn (n : nat) (l : list byte) :
  no_ps_specials l = true -> no_ps_specials (firstn n l) = true.
Proof.
  unfold no_ps_specials. rewrite <- (firstn_skipn n l) at 1.
  rewrite forallb_app. intros H. apply andb_true_iff in H as [H _]. exact H.
Qed.

(** A text of bytes that are neither quotes nor special passes the
    replacements unchanged. *)
Lemma escape_safe (l : list byte) :
  forallb (fun b => negb (Byte.eqb b x27) && no_ps_specials [b]) l = true ->
  ReplaceAll1 x0d [] (ReplaceAll1 x0a [x20] (ReplaceAll1 x60 []
    (ReplaceAll1 x00 [] (ReplaceAll1 x27 [x27; x27] l)))) = l.
Proof.
  induction l as [|b l IH]; [reflexivity|].
  cbn [forallb]. intros H. apply andb_true_iff in H as [Hb H].
  rewrite escape_cons, IH by exact H.
  destruct b; vm_compute in Hb; try discriminate Hb; reflexivity.
Qed.

Lemma escape_dbl (l : list byte) :
  ReplaceAll1 x0d [] (ReplaceAll1 x0a [x20] (ReplaceAll1 x60 []
    (ReplaceAll1 x00 [] (ReplaceAll1 x27 [x27; x27] l)))) = dbl_quotes (ps_clean l).
Proof.
  induction l as [|b l IH]; [reflexivity|].
  rewrite escape_cons, (ps_clean_cons b l), IH. unfold dbl_quotes. rewrite flat_map_app.
  f_equal. destruct b; reflexivity.
Qed.

Lemma dbl_quotes_cons (b : byte) (r : list byte) :
  dbl_quotes (b :: r) = (if Byte.eqb b x27 then [x27; x27] else [b]) ++ dbl_quotes r.
Proof. reflexivity. Qed.

Lemma ps_chars_other (b : byte) (r : list byte) :
  Byte.eqb b x27 = false -> Byte.eqb b xe2 = false -> ps_chars (b :: r) = POther b :: ps_chars r.
Proof. intros H1 H2. cbn [ps_chars]. rewrite H1, H2. reflexivity. Qed.

Lemma ps_chars_quote (r : list byte) : ps_chars (x27 :: r) = PQuote [x27] :: ps_chars r.
Proof. reflexivity. Qed.

Lemma ps_chars_e2 (r : list byte) :
  sq_head r = false -> ps_chars (xe2 :: r) = POther xe2 :: ps_chars r.
Proof.
  intros H. cbn [ps_chars]. change (Byte.eqb xe2 x27) with false.
  change (Byte.eqb xe2 xe2) with true. cbv iota.
  destruct r as [|b2 [|c r2]]; try reflexivity.
  cbn [sq_head] in H. rewrite H. reflexivity.
Qed.

Lemma has_smart_quote_e2 (r : list byte) :
  has_smart_quote (xe2 :: r) = (sq_head r || has_smart_quote r)%bool.
Proof. reflexivity. Qed.

Lemma has_smart_quote_other (b : byte) (r : list byte) :
  Byte.eqb b xe2 = false -> has_smart_quote (b :: r) = has_smart_quote r.
Proof. intros H. cbn [has_smart_quote]. rewrite H. reflexivity. Qed.

Lemma dbl_quotes_head (r : list byte) :
  sq_head r = false -> sq_head (dbl_quotes r) = false.
Proof.
  destruct r as [|b1 [|c r2]]; intros H.
  - reflexivity.
  - cbn [dbl_quotes flat_map]. destruct (Byte.eqb b1 x27); reflexivity.
  - rewrite !dbl_quotes_cons. destruct (Byte.eqb b1 x27) eqn:E1; [reflexivity|].
    destruct (Byte.eqb c x27) eqn:E2.
    + apply Byte.byte_dec_bl in E2. subst c. cbn [app sq_head].
      change (is_sq_tail x27) with false. apply andb_false_r.
    + exact H.
Qed.

(** Text with its apostrophes doubled and no other quote character is
    the body of a single-quoted string that denotes the text. *)
Lemma dbl_unquote (c : list byte) :
  has_smart_quote c = false -> ps_unquote (dbl_quotes c) = Some c.
Proof.
  unfold ps_unquote. induction c as [|b r IH]; intros H; [reflexivity|].
  rewrite dbl_quotes_cons. destruct (Byte.eqb b x27) eqn:E1.
  - apply Byte.byte_dec_bl in E1. subst b. cbn [app]. rewrite !ps_chars_quote.
    cbn [ps_unquote_chars].
    rewrite IH by exact H. reflexivity.
  - cbn [app]. destruct (Byte.eqb b xe2) eqn:E2.
    + apply Byte.byte_dec_bl in E2. subst b.
      rewrite has_smart_quote_e2 in H. apply orb_false_iff in H as [Hh H].
      rewrite ps_chars_e2 by (apply dbl_quotes_head, Hh).
      cbn [ps_unquote_chars]. rewrite IH by exact H. reflexivity.
    + rewrite has_smart_quote_other in H by exact E2.
      rewrite ps_chars_other by assumption.
      cbn [ps_unquote_chars]. rewrite IH by exact H. reflexivity.
Qed.

Lemma ps_chars_plain (l r : list byte) :
  forallb (fun b => negb (Byte.eqb b x27) && negb (Byte.eqb b xe2)) l = true ->
  ps_chars (l ++ r) = map POther l ++ ps_chars r.
Proof.
  induction l as [|b l IH]; intros H; [reflexivity|].
  cbn [forallb] in H. apply andb_true_iff in H as [Hb H].
  apply andb_true_iff in Hb as [H1 H2]. apply negb_true_iff in H1, H2.
  cbn [app]. rewrite ps_chars_other by assumption. rewrite IH by exact H. reflexivity.
Qed.

Lemma unquote_others (l : list byte) (cs : list ps_char) :
  ps_unquote_chars (map POther l ++ cs) = option_map (app l) (ps_unquote_chars cs).
Proof.
  induction l as [|b l IH]; cbn [map app ps_unquote_chars].
  - destruct (ps_unquote_chars cs); reflexivity.
  - rewrite IH. destruct (ps_unquote_chars cs); reflexivity.
Qed.

Lemma sq_safe (q : byte) :
  is_sq_tail q = true ->
  forallb (fun b => negb (Byte.eqb b x27) && no_ps_specials [b]) [xe2; x80; q] = true.
Proof. destruct q; intros H; first [discriminate H | vm_compute; reflexivity]. Qed.

Lemma plain_parts (l : list byte) :
  forallb (fun b => negb (Byte.eqb b x27) && negb (Byte.eqb b xe2) && no_ps_specials [b]) l = true ->
  forallb (fun b => negb (Byte.eqb b x27) && negb (Byte.eqb b xe2)) l = true /\
  forallb (fun b => negb (Byte.eqb b x27) && no_ps_specials [b]) l = true.
Proof.
  rewrite !forallb_forall. intros H. split; intros b Hb; specialize (H b Hb);
    destruct (Byte.eqb b x27), (Byte.eqb b xe2), (no_ps_specials [b]); try discriminate H;
    reflexivity.
Qed.

(** The text [escapePowerShellString] returns holds no NUL, backtick, CR
    or LF, and has at most 256 bytes. *)
Theorem escapePowerShellString_safe (s : string) :
  no_ps_specials (bytes (escapePowerShellString s)) = true /\
  (List.length (bytes (escapePowerShellString s)) <= 256)%nat.
Proof.
  unfold escapePowerShellString, maxPSStringLen. rewrite bytes_str.
  pose proof (escape_no_specials (bytes s)) as Hs.
  destruct (256 <? _)%nat eqn:E; split.
  - apply no_ps_specials_firstn, Hs.
  - rewrite length_firstn. lia.
  - exact Hs.
  - apply Nat.ltb_ge in E. exact E.
Qed.

(** For an input of at most 128 bytes whose cleaned text holds no
    quote character U+2018 to U+201B, the escaped text is a well-formed
    body of a single-quoted PowerShell string, and denotes the input with
    NUL, backtick and CR removed and LF turned into a space. *)
Theorem escapePowerShellString_quoted (s : string) :
  (List.length (bytes s) <= 128)%nat ->
  has_smart_quote (ps_clean (bytes s)) = false ->
  ps_unquote (bytes (escapePowerShellString s)) = Some (ps_clean (bytes s)).
Proof.
  intros Hl Hq. unfold escapePowerShellString, maxPSStringLen. rewrite bytes_str.
  pose proof (escape_length (bytes s)) as Hn.
  replace (256 <? _)%nat with false by (symmetry; apply Nat.ltb_ge; lia).
  rewrite escape_dbl. apply dbl_unquote, Hq.
Qed.

(** The cut at 256 bytes can split a doubled quote: after 255 bytes that
    are neither quotes, nor the lead byte [e2] of U+2018 to U+201B, nor
    special, a quote in the input leaves the escaped text ending in a
    single, unpaired quote.  In the script of [showNotification] it pairs
    with the closing quote of ['%s'] into an escaped quote, so the string
    literal does not end there but runs on into the script text after
    it. *)
Theorem escapePowerShellString_split_quote (l t : list byte) :
  List.length l = 255%nat ->
  forallb (fun b => negb (Byte.eqb b x27) && negb (Byte.eqb b xe2) && no_ps_specials [b]) l = true ->
  bytes (escapePowerShellString (str (l ++ x27 :: t))) = l ++ [x27] /\
  ps_unquote (bytes (escapePowerShellString (str (l ++ x27 :: t)))) = None.
Proof.
  intros Hl Hp. destruct (plain_parts l Hp) as [Hq Hs].
  assert (Hb : bytes (escapePowerShellString (str (l ++ x27 :: t))) = l ++ [x27]).
  { unfold escapePowerShellString, maxPSStringLen. rewrite !bytes_str.
    rewrite (ReplaceAll1_app x27). rewrite !ReplaceAll1_app.
    rewrite escape_safe by exact Hs.
    rewrite escape_cons. cbn [Byte.eqb app].
    replace (256 <? _)%nat with true.
    - rewrite firstn_app, Hl, firstn_all2 by lia. reflexivity.
    - symmetry. apply Nat.ltb_lt. rewrite length_app. cbn. lia. }
  split; [exact Hb|]. rewrite Hb. unfold ps_unquote.
  rewrite ps_chars_plain by exact Hq. rewrite unquote_others. reflexivity.
Qed.

(** [escapePowerShellString] leaves the quote characters U+2018 to U+201B
    as they are: between texts of plain bytes (no apostrophe, no lead
    byte [e2], nothing special) one passes through unchanged and is left
    unpaired, so it ends the single-quoted literal of the script, and the
    text after it is read as script code. *)
Theorem escapePowerShellString_smart_quote (l t : list byte) (q : byte) :
  is_sq_tail q = true ->
  (List.length l + List.length t + 3 <= 256)%nat ->
  forallb (fun b => negb (Byte.eqb b x27) && negb (Byte.eqb b xe2) && no_ps_specials [b]) l = true ->
  forallb (fun b => negb (Byte.eqb b x27) && negb (Byte.eqb b xe2) && no_ps_specials [b]) t = true ->
  bytes (escapePowerShellString (str (l ++ [xe2; x80; q] ++ t))) = l ++ [xe2; x80; q] ++ t /\
  ps_unquote (bytes (escapePowerShellString (str (l ++ [xe2; x80; q] ++ t)))) = None.
Proof.
  intros Hq Hlen Hl Ht.
  destruct (plain_parts l Hl) as [Hl1 Hl2]. destruct (plain_parts t Ht) as [Ht1 Ht2].
  assert (Hb : bytes (escapePowerShellString (str (l ++ [xe2; x80; q] ++ t))) =
               l ++ [xe2; x80; q] ++ t).
  { unfold escapePowerShellString, maxPSStringLen. rewrite !bytes_str.
    rewrite escape_safe.
    - replace (256 <? _)%nat with false; [reflexivity|].
      symmetry. apply Nat.ltb_ge. rewrite !length_app. cbn [List.length]. lia.
    - rewrite !forallb_app, Hl2, Ht2, sq_safe by exact Hq. reflexivity. }
  split; [exact Hb|]. rewrite Hb. unfold ps_unquote.
  rewrite ps_chars_plain by exact Hl1. rewrite unquote_others.
  cbn [app ps_chars]. rewrite Hq.
  rewrite <- (app_nil_r t), ps_chars_plain by exact Ht1. cbn [ps_chars].
  rewrite app_nil_r. destruct t; reflexivity.
Qed.

(** On Windows, the sleep action runs the very command of hibernate, and
    every action other than hibernate, sleep and lock runs the shutdown
    command; on any other OS no command runs. *)
Theorem executeShutdown_commands (goos action : string) :
  (goos <> "windows"%string -> executeShutdown goos action = None) /\
  executeShutdown "windows" "sleep" = executeShutdown "windows" "hibernate" /\
  (action <> "hibernate"%string -> action <> "sleep"%string -> action <> "lock"%string ->
   executeShutdown "windows" action = executeShutdown "windows" "shutdown").
Proof.
  split; [|split].
  - intros H. unfold executeShutdown.
    destruct (String.eqb goos "windows") eqn:E; [apply String.eqb_eq in E; contradiction|].
    reflexivity.
  - reflexivity.
  - intros H1 H2 H3. unfold executeShutdown. cbn [String.eqb negb].
    destruct (String.eqb action "shutdown"); [reflexivity|].
    apply String.eqb_neq in H1, H2, H3. rewrite H1, H2, H3. reflexivity.
Qed.

Lemma escapePowerShellString_quoted_witness :
  (List.length (bytes "it's") <= 128)%nat /\
  has_smart_quote (ps_clean (bytes "it's")) = false /\
  ps_unquote (bytes (escapePowerShellString "it's")) = Some (ps_clean (bytes "it's")).
Proof.
  split; [cbn; lia|]. split; [reflexivity|].
  apply escapePowerShellString_quoted; [cbn; lia | reflexivity].
Defined.

Lemma escapePowerShellString_split_quote_witness :
  bytes (escapePowerShellString (str (repeat "a"%byte 255 ++ x27 :: ["b"%byte]))) =
    repeat "a"%byte 255 ++ [x27] /\
  ps_unquote (bytes (escapePowerShellString (str (repeat "a"%byte 255 ++ x27 :: ["b"%byte])))) =
    None.
Proof.
  apply escapePowerShellString_split_quote; [reflexivity | vm_compute; reflexivity].
Defined.

(** The text [a], U+2019, [;calc;#]. *)
Lemma escapePowerShellString_smart_quote_witness :
  bytes (escapePowerShellString (str (["a"] ++ [xe2; x80; x99] ++ [";"; "c"; "a"; "l"; "c"; ";"; "#"])%byte)) =
    (["a"] ++ [xe2; x80; x99] ++ [";"; "c"; "a"; "l"; "c"; ";"; "#"])%byte /\
  ps_unquote (bytes (escapePowerShellString
    (str (["a"] ++ [xe2; x80; x99] ++ [";"; "c"; "a"; "l"; "c"; ";"; "#"])%byte))) = None.
Proof.
  apply escapePowerShellString_smart_quote; [reflexivity | cbn; lia | reflexivity | reflexivity].
Defined.

Lemma executeShutdown_commands_witness :
  executeShutdown "linux" "restart" = None /\
  executeShutdown "windows" "sleep" = executeShutdown "windows" "hibernate" /\
  executeShutdown "windows" "restart" = executeShutdown "windows" "shutdown".
Proof.
  destruct (executeShutdown_commands "linux" "restart") as [H1 [H2 _]].
  destruct (executeShutdown_commands "windows" "restart") as [_ [_ H3]].
  split; [apply H1; discriminate|]. split; [exact H2|].
  apply H3; discriminate.
Defined.

End ShellFacts.

(* ================================================================== *)
(** ** Proofs: Presence, remote commands and warning beeps *)

Module PresenceFacts.
Import Config Sentry GoText Presence.

Lemma Contains_nil (hay : list byte) : Contains hay [] = true.
Proof. destruct hay; reflexivity. Qed.

Lemma IsDeviceOnNetwork_present (goos mac : string) (arp : option string) :
  (goos <> "windows"%string \/ (mac = ""%string /\ arp <> None)) ->
  IsDeviceOnNetwork goos mac arp = true.
Proof.
  unfold IsDeviceOnNetwork. intros [H|[-> H]].
  - apply String.eqb_neq in H. rewrite H. reflexivity.
  - destruct (negb _); [reflexivity|].
    destruct arp as [out|]; [|contradiction]. apply Contains_nil.
Qed.

Lemma monitor_iteration_alive (m : SentryManager) (st : Settings) (err : bool) (ssid : string) :
  snd (monitor_iteration m st err ssid true) = false.
Proof.
  unfold monitor_iteration.
  destruct err; [reflexivity|]. destruct (IsPaused st); [reflexivity|].
  destruct (String.eqb ssid (HomeSSID st)); [|reflexivity].
  destruct (HasDeviceConfigured st); reflexivity.
Qed.

(** The monitor never starts a countdown when [IsDeviceOnNetwork] is
    bound to report the phone present: on any OS other than Windows, and
    on Windows whenever the configured MAC is empty (as it may be with
    [ip] detection, where [HasDeviceConfigured] looks at the IP only) and
    [arp -a] runs. *)
Theorem monitor_never_triggers_when_present (m : SentryManager) (st : Settings) (err : bool)
    (ssid goos : string) (arp : option string) :
  (goos <> "windows"%string \/ (PhoneMAC st = ""%string /\ arp <> None)) ->
  snd (monitor_iteration m st err ssid (IsDeviceOnNetwork goos (PhoneMAC st) arp)) = false.
Proof.
  intros H. rewrite IsDeviceOnNetwork_present by exact H. apply monitor_iteration_alive.
Qed.

Lemma monitor_never_triggers_when_present_witness :
  snd (monitor_iteration (Scenarios.seen_mgr 2)
         {| HomeSSID := "HomeNet"; PhoneIP := "192.168.1.20"; PhoneMAC := "";
            DetectionType := "ip"; IsPaused := false; GraceChecks := 3;
            PollInterval := 10; PingTimeoutMs := 500; ShutdownDelay := 10;
            ShutdownPIN := ""; RequirePIN := false; ShutdownAction := "shutdown" |}%string
         false "HomeNet"%string
         (IsDeviceOnNetwork "windows" ""%string (Some "Interface: 192.168.1.5 --- 0x4"%string))) = false.
Proof.
  apply (monitor_never_triggers_when_present _
           {| HomeSSID := "HomeNet"; PhoneIP := "192.168.1.20"; PhoneMAC := "";
              DetectionType := "ip"; IsPaused := false; GraceChecks := 3;
              PollInterval := 10; PingTimeoutMs := 500; ShutdownDelay := 10;
              ShutdownPIN := ""; RequirePIN := false; ShutdownAction := "shutdown" |}%string).
  right. split; [reflexivity | discriminate].
Defined.

End PresenceFacts.

Module NtfyFacts.
Import Sentry GoText Shapes Ntfy TextFacts.

Lemma forallb_lower_nonspace (u : list byte) :
  forallb ascii_nonspace (map ascii_lower u) = forallb ascii_nonspace u.
Proof.
  induction u as [|b u IH]; [reflexivity|]. cbn. rewrite ascii_lower_nonspace, IH. reflexivity.
Qed.

(** [checkForCommand] recognises the command words whatever the case of
    their ASCII letters and whatever ASCII white space surrounds them. *)
Theorem command_of_case_space (w : string) (u pre post : list byte) :
  In w ["cancel_pause"; "cancel_only"; "pause"; "resume"; "status"]%string ->
  map ascii_lower u = bytes w ->
  forallb is_ascii_space pre = true -> forallb is_ascii_space post = true ->
  command_of (str (pre ++ u ++ post)) = command_of w /\ command_of w <> None.
Proof.
  intros Hin Hmap Hpre Hpost.
  assert (Hw : forallb ascii_nonspace (bytes w) = true /\ bytes w <> []).
  { cbn [In] in Hin. repeat destruct Hin as [<-|Hin]; try contradiction;
      (split; [reflexivity | discriminate]). }
  destruct Hw as [Hw Hne].
  rewrite <- Hmap, forallb_lower_nonspace in Hw.
  destruct u as [|b m]; [contradiction Hne; rewrite <- Hmap; reflexivity|].
  assert (Ht : TrimSpace (str (pre ++ (b :: m) ++ post)) = str (b :: m)).
  { rewrite forallb_forall in Hw.
    apply (TrimSpace_pad pre _ post b b m); auto.
    - apply Hw. left. reflexivity.
    - apply Hw. apply last_in. }
  unfold command_of at 1. rewrite Ht, bytes_str, Hmap, str_bytes.
  cbn [In] in Hin. repeat destruct Hin as [<-|Hin]; try contradiction;
    split; try reflexivity; discriminate.
Qed.

Lemma tick_first (mA mB : NtfyMessage) (cA cB : Command) (last : string) :
  ID mB <> last -> command_of (Message mA) = Some cA -> command_of (Message mB) = Some cB ->
  listen_tick last (Some [Some mA; Some mB]) = (ID mB, Some cB).
Proof.
  intros Hb HA HB. unfold listen_tick, checkForCommand. cbn [fold_left].
  apply String.eqb_neq in Hb. rewrite Hb, HB. cbn [negb]. rewrite Hb. reflexivity.
Qed.

Lemma tick_second (mA mB : NtfyMessage) (cA cB : Command) :
  ID mA <> ID mB -> command_of (Message mA) = Some cA ->
  listen_tick (ID mB) (Some [Some mA; Some mB]) = (ID mA, Some cA).
Proof.
  intros Hab HA. unfold listen_tick, checkForCommand. cbn [fold_left].
  rewrite String.eqb_refl. apply String.eqb_neq in Hab. rewrite Hab, HA.
  cbn [negb]. rewrite Hab. reflexivity.
Qed.

(** Two recognised commands [A] then [B] that stay in the [since=10s]
    window of [listenForCommands] are handed to the callback again and
    again: [B], [A], [B], [A], ... one per poll, as [lastMessageID] only
    remembers the latest. *)
Theorem listen_alternates (mA mB : NtfyMessage) (cA cB : Command) (n : nat) :
  ID mA <> ID mB -> ID mB <> ""%string ->
  command_of (Message mA) = Some cA -> command_of (Message mB) = Some cB ->
  listen_run ""%string (repeat (Some [Some mA; Some mB]) (2 * n)) = List.concat (repeat [cB; cA] n).
Proof.
  intros Hab Hb HA HB.
  assert (G : forall last, ID mB <> last ->
            listen_run last (repeat (Some [Some mA; Some mB]) (2 * n)) =
            List.concat (repeat [cB; cA] n)).
  { induction n as [|n IH]; intros last Hl; [reflexivity|].
    replace (2 * S n)%nat with (S (S (2 * n))) by lia.
    cbn [repeat listen_run]. rewrite (tick_first mA mB cA cB last Hl HA HB).
    rewrite (tick_second mA mB cA cB Hab HA). rewrite IH by congruence. reflexivity. }
  apply G. congruence.
Qed.

(** A single recognised command that stays in the window is handed to
    the callback once, at the first poll, and not again. *)
Theorem listen_single_once (msg : NtfyMessage) (c : Command) (n : nat) :
  ID msg <> ""%string -> command_of (Message msg) = Some c -> (1 <= n)%nat ->
  listen_run ""%string (repeat (Some [Some msg]) n) = [c].
Proof.
  intros Hid Hc Hn. destruct n as [|n]; [lia|]. clear Hn.
  cbn [repeat listen_run].
  assert (T1 : listen_tick "" (Some [Some msg]) = (ID msg, Some c)).
  { unfold listen_tick, checkForCommand. cbn [fold_left].
    apply String.eqb_neq in Hid. rewrite Hid, Hc. cbn [negb]. rewrite Hid. reflexivity. }
  assert (T2 : listen_tick (ID msg) (Some [Some msg]) = (ID msg, None)).
  { unfold listen_tick, checkForCommand. cbn [fold_left]. rewrite String.eqb_refl.
    reflexivity. }
  rewrite T1. cbn [app]. f_equal.
  induction n as [|n IH]; [reflexivity|]. cbn [repeat listen_run]. rewrite T2. exact IH.
Qed.

Lemma command_of_case_space_witness :
  command_of (str ([" "; "009"] ++ bytes "PaUsE"%string ++ ["010"])%byte) = command_of "pause"%string /\
  command_of "pause"%string <> None.
Proof.
  apply (command_of_case_space "pause" (bytes "PaUsE"%string) [" "; "009"]%byte ["010"]%byte);
    [cbn; tauto | reflexivity | reflexivity | reflexivity].
Defined.

Lemma listen_alternates_witness :
  listen_run ""%string (repeat (Some [Some {| ID := "a1"; Message := "pause" |}%string;
                              Some {| ID := "b2"; Message := " Resume " |}%string]) 4) =
    [CmdResume; CmdPause; CmdResume; CmdPause].
Proof.
  apply (listen_alternates {| ID := "a1"; Message := "pause" |}%string
           {| ID := "b2"; Message := " Resume " |}%string CmdPause CmdResume 2);
    first [discriminate | reflexivity].
Defined.

Lemma listen_single_once_witness :
  listen_run ""%string (repeat (Some [Some {| ID := "m1"; Message := "status" |}%string]) 3) = [CmdStatus].
Proof.
  apply listen_single_once; [discriminate | reflexivity | lia].
Defined.

End NtfyFacts.

Module BeepFacts.
Import Config Sentry Observe.

Lemma beeps_app (a b : list effect) : beeps (a ++ b) = (beeps a + beeps b)%nat.
Proof. unfold beeps. rewrite filter_app, length_app. reflexivity. Qed.

Lemma beeps_setStatus (m : SentryManager) (st : SentryStatus) : beeps (snd (setStatus m st)) = 0%nat.
Proof. reflexivity. Qed.

Lemma beeps_remote (cmd : Command) (p : bool) : beeps (remote_callback cmd p) = 0%nat.
Proof. destruct cmd, p; reflexivity. Qed.

Lemma beeps_left_step (c : Countdown) :
  0 < cd_countdown c ->
  (1 + beeps_left (cd_with c CdHead (cd_countdown c - 2) (cd_timerFired c) false) <=
   beeps_left c)%nat.
Proof.
  intros H. unfold beeps_left. cbn [cd_countdown cd_with].
  set (k := cd_countdown c) in *.
  replace (0 <? k) with true by (symmetry; apply Z.ltb_lt; lia).
  destruct (0 <? k - 2) eqn:E.
  - apply Z.ltb_lt in E. Z.to_euclidean_division_equations. lia.
  - Z.to_euclidean_division_equations. lia.
Qed.

Lemma beeps_left_same (c : Countdown) (pc : CdPc) (fired tick : bool) :
  beeps_left (cd_with c pc (cd_countdown c) fired tick) = beeps_left c.
Proof. reflexivity. Qed.

(** One scheduler step other than a monitor iteration plays no more beeps
    than the countdown has left, and uses them up. *)
Lemma step_beeps (s : Sys) (ev : sys_event) :
  is_cycle ev = false ->
  (beeps (snd (sys_step s ev)) + phase_beeps_left (phase (fst (sys_step s ev))) <=
   phase_beeps_left (phase s))%nat.
Proof.
  intros Hc. destruct s as [m ph].
  destruct ev as [st err ssid alive| | | | |sc|cmd p]; try discriminate Hc;
    destruct ph as [|c]; cbn [sys_step phase mgr].
  - destruct (CancelShutdown m); cbn. lia.
  - destruct (CancelShutdown m); cbn. lia.
  - cbn. lia.
  - cbn [fst snd phase phase_beeps_left]. rewrite beeps_left_same. cbn. lia.
  - cbn. lia.
  - cbn [fst snd phase phase_beeps_left]. rewrite beeps_left_same. cbn. lia.
  - cbn. lia.
  - destruct (cd_pc c); cbn [fst snd phase phase_beeps_left];
      [rewrite beeps_left_same|]; cbn; lia.
  - cbn. lia.
  - destruct (cd_pc c) as [|ch]; [cbn; lia|].
    unfold countdown_select. destruct (negb (case_ready m c ch sc)); [cbn; lia|].
    destruct sc.
    + destruct (cd_countdown c >? 0) eqn:E; cbn [fst snd phase phase_beeps_left].
      * apply Z.gtb_lt in E. pose proof (beeps_left_step c E). cbn. lia.
      * rewrite beeps_left_same. cbn. lia.
    + cbn. lia.
    + cbn. lia.
  - cbn [fst snd phase phase_beeps_left]. rewrite beeps_remote. lia.
  - cbn [fst snd phase phase_beeps_left]. rewrite beeps_remote. lia.
Qed.

Lemma run_beeps (s : Sys) (evs : list sys_event) :
  forallb (fun ev => negb (is_cycle ev)) evs = true ->
  (beeps (snd (run s evs)) <= phase_beeps_left (phase s))%nat.
Proof.
  revert s. induction evs as [|ev evs IH]; intros s H; [cbn; lia|].
  cbn [forallb] in H. apply andb_true_iff in H as [Hev H]. apply negb_true_iff in Hev.
  cbn [run]. pose proof (step_beeps s ev Hev) as Hs.
  destruct (sys_step s ev) as [s1 e1]. specialize (IH s1 H).
  destruct (run s1 evs) as [s2 e2]. cbn [snd fst] in *. rewrite beeps_app. lia.
Qed.

Lemma monitor_iteration_no_beep (m : SentryManager) (st : Settings) (err : bool)
    (ssid : string) (alive : bool) :
  beeps (snd (fst (monitor_iteration m st err ssid alive))) = 0%nat.
Proof.
  unfold monitor_iteration.
  destruct err; [reflexivity|]. destruct (IsPaused st); [reflexivity|].
  destruct (String.eqb ssid (HomeSSID st)); [|reflexivity].
  destruct (HasDeviceConfigured st); [|reflexivity].
  destruct alive.
  - cbn. destruct (phoneEverSeen m); reflexivity.
  - destruct (phoneEverSeen m); [|reflexivity]. cbn.
    destruct (graceCount m + 1 >=? GraceChecks st); reflexivity.
Qed.

(** A monitor iteration that starts a countdown of [D = ShutdownDelay]
    seconds, followed by any interleaving of timer, ticker, cancel,
    countdown and remote events, plays at most [(D + 1) / 2] warning
    beeps (the first one, then one per 2 seconds left). *)
Theorem countdown_beeps_bound (m : SentryManager) (st : Settings) (err : bool)
    (ssid : string) (alive : bool) (evs : list sys_event) :
  1 <= ShutdownDelay st ->
  forallb (fun ev => negb (is_cycle ev)) evs = true ->
  (beeps (snd (run {| mgr := m; phase := Polling |} (Cycle st err ssid alive :: evs))) <=
   Z.to_nat ((ShutdownDelay st + 1) / 2))%nat.
Proof.
  intros HD H. cbn [run sys_step phase mgr].
  pose proof (monitor_iteration_no_beep m st err ssid alive) as H0.
  destruct (monitor_iteration m st err ssid alive) as [[m1 e1] trig]. cbn [snd fst] in H0.
  destruct trig.
  - unfold countdown_enter.
    match goal with |- context [run ?s evs] => pose proof (run_beeps s evs H) as Hr;
      destruct (run s evs) as [s2 e2] end.
    cbn [snd phase phase_beeps_left] in *. rewrite !beeps_app, H0.
    unfold beeps_left in Hr. cbn [cd_countdown] in Hr.
    change (beeps [ENotify (ShutdownDelay st); EBeep]) with 1%nat.
    destruct (0 <? ShutdownDelay st - 2) eqn:E.
    + apply Z.ltb_lt in E.
      assert (Z.to_nat ((ShutdownDelay st - 2 + 1) / 2) + 1 <=
              Z.to_nat ((ShutdownDelay st + 1) / 2))%nat
        by (Z.to_euclidean_division_equations; lia).
      lia.
    + assert (1 <= Z.to_nat ((ShutdownDelay st + 1) / 2))%nat
        by (Z.to_euclidean_division_equations; lia).
      lia.
  - match goal with |- context [run ?s evs] => pose proof (run_beeps s evs H) as Hr;
      destruct (run s evs) as [s2 e2] end.
    cbn [snd phase phase_beeps_left] in *. rewrite beeps_app, H0. lia.
Qed.

Lemma countdown_beeps_bound_witness :
  (beeps (snd (run {| mgr := Scenarios.seen_mgr 2; phase := Polling |}
                 [Cycle Scenarios.home_settings false "HomeNet"%string false;
                  CdEval; TickerFires; CdEval; CdPick CaseBeep; UserCancel; CdEval])) <=
   Z.to_nat ((ShutdownDelay Scenarios.home_settings + 1) / 2))%nat.
Proof.
  apply countdown_beeps_bound; [cbn; lia | reflexivity].
Defined.

End BeepFacts.
